(** * useradmin.py: provisioning workflow and quota reports

    A shallow embedding of the [UserAdmin] class of [src/useradmin.py]:
    the per-user provisioning workflow ([add_user] and its four steps),
    the manifest processor ([process_user_file]), the status checkers and
    the quota report parsers ([get_all_quotas], [get_user_quota],
    [list_users]).

    Python text is modelled by Rocq's [string].  ASCII text is represented
    exactly; the few non-ASCII literals of the source (log and status
    messages) stand as their UTF-8 bytes.  The whitespace recognised by
    [str.split()] and [str.strip()] is the ASCII part of Python's set
    (TAB, LF, VT, FF, CR, FS, GS, RS, US and SPACE). *)

From Stdlib Require Import ZArith List Bool Ascii String DecimalString Lia.
From stdpp Require Import base option list gmap strings fin_maps.

Import ListNotations.
Local Open Scope string_scope.
Local Open Scope Z_scope.

(** ** Python string primitives *)

Module PyStr.

(** [c.isspace()] for a character below 128. *)
Definition is_space (c : ascii) : bool :=
  let n := Z.of_nat (nat_of_ascii c) in
  ((9 <=? n) && (n <=? 13)) || ((28 <=? n) && (n <=? 32)).

Fixpoint lstrip (s : string) : string :=
  match s with
  | EmptyString => EmptyString
  | String c s' => if is_space c then lstrip s' else s
  end.

Fixpoint rstrip (s : string) : string :=
  match s with
  | EmptyString => EmptyString
  | String c s' =>
      match rstrip s' with
      | EmptyString => if is_space c then EmptyString else String c EmptyString
      | r => String c r
      end
  end.

(** [s.strip()] *)
Definition strip (s : string) : string := rstrip (lstrip s).

(** [s.split(sep)] for a one-character separator: never empty. *)
Fixpoint split_on (sep : ascii) (s : string) : list string :=
  match s with
  | EmptyString => [EmptyString]
  | String c s' =>
      if Ascii.eqb c sep then EmptyString :: split_on sep s'
      else match split_on sep s' with
           | h :: t => String c h :: t
           | [] => [String c EmptyString]
           end
  end.

(** ASCII code 10, the separator of [s.split('\n')]. *)
Definition LF : ascii := ascii_of_nat 10.

(** [s.strip().split('\n')], the idiom the report parsers start with. *)
Definition lines_of (s : string) : list string := split_on LF (strip s).

(** [s.split()]: maximal runs of non-whitespace characters. *)
Fixpoint split_ws (s : string) : list string :=
  match s with
  | EmptyString => []
  | String c s' =>
      if is_space c then split_ws s'
      else match s' with
           | EmptyString => [String c EmptyString]
           | String c' _ =>
               if is_space c' then String c EmptyString :: split_ws s'
               else match split_ws s' with
                    | h :: t => String c h :: t
                    | [] => [String c EmptyString]
                    end
           end
  end.

(** [s.startswith(p)] *)
Definition startswith (s p : string) : bool := String.prefix p s.

(** [needle in hay] *)
Fixpoint contains (needle hay : string) : bool :=
  String.prefix needle hay ||
  match hay with
  | EmptyString => false
  | String _ hay' => contains needle hay'
  end.

Definition lower_char (c : ascii) : ascii :=
  let n := nat_of_ascii c in
  if ((65 <=? n) && (n <=? 90))%nat then ascii_of_nat (n + 32) else c.

(** [s.lower()] on ASCII letters; outside ASCII only the Kelvin sign and
    the dotted capital I lower to ASCII letters (k and i), so comparing
    the result with ['xfs'] or an ext name is not affected. *)
Fixpoint lower (s : string) : string :=
  match s with
  | EmptyString => EmptyString
  | String c s' => String (lower_char c) (lower s')
  end.

(** [sep.join(l)] *)
Definition join (sep : string) (l : list string) : string := String.concat sep l.

(** [str(n)] for an integer. *)
Definition str_of_Z (n : Z) : string := NilEmpty.string_of_int (Z.to_int n).

(** The value of a digit character in a base up to ten. *)
Definition digit_val (base : Z) (c : ascii) : option Z :=
  let n := Z.of_nat (nat_of_ascii c) in
  if (48 <=? n) && (n <? 48 + base) then Some (n - 48) else None.

(** Digits with single underscores between them, as [int()] accepts:
    [seen] tells that the previous character was a digit. *)
Fixpoint parse_digits (base acc : Z) (seen : bool) (s : string) : option Z :=
  match s with
  | EmptyString => if seen then Some acc else None
  | String c s' =>
      if Ascii.eqb c "_" then
        if seen then parse_digits base acc false s' else None
      else match digit_val base c with
           | Some d => parse_digits base (acc * base + d) true s'
           | None => None
           end
  end.

Definition parse_signed (digits : string -> option Z) (s : string) : option Z :=
  match s with
  | String "-" s' => Z.opp <$> digits s'
  | String "+" s' => digits s'
  | _ => digits s
  end.

(** [int(s)]: [None] stands for [ValueError]. *)
Definition int (s : string) : option Z :=
  parse_signed (parse_digits 10 0 false) (strip s).

(** [int(s, 8)]: an optional [0o] prefix, after which one underscore
    may precede the digits. *)
Definition int8 (s : string) : option Z :=
  let digits (t : string) :=
    match t with
    | String "0" (String "o" (String "_" t'))
    | String "0" (String "O" (String "_" t'))
    | String "0" (String "o" t')
    | String "0" (String "O" t') => parse_digits 8 0 false t'
    | _ => parse_digits 8 0 false t
    end in
  parse_signed digits (strip s).

Fixpoint ends_with_slash (s : string) : bool :=
  match s with
  | EmptyString => false
  | String c EmptyString => Ascii.eqb c "/"
  | String _ s' => ends_with_slash s'
  end.

(** [os.path.join(a, b)], also used for [Path(a) / b] (pathlib's
    normalisation of repeated separators is not modelled; the result
    is only ever handed to the operating system). *)
Definition path_join (a b : string) : string :=
  if String.prefix "/" b then b
  else if String.eqb a "" || ends_with_slash a then a ++ b
  else a ++ "/" ++ b.

End PyStr.

(** ** The world the program runs in *)

(** The sections of [useradmin.conf].  Options read with a [fallback]
    are optional; the others are taken to be present. *)
Record Config := {
  ldap_server : string;
  ldap_bind_dn : string;
  ldap_bind_password : string;
  ldap_base_dn : string;
  ldap_user_ou : string;
  ldap_group_ou : string;
  krb_realm : string;
  krb_kadmin_principal : string;
  krb_kadmin_password : string;
  krb_check_method : option string;
  nfs_home_base : string;
  nfs_skel_dir : string;
  nfs_home_permissions : option string;
  quota_default_soft_limit : string;
  quota_default_hard_limit : string;
  quota_default_inode_soft_limit : string;
  quota_default_inode_hard_limit : string;
  quota_filesystem_type : option string
}.

(** Exceptions, all of them subclasses of [Exception]. *)
Inductive exn :=
| ValueError | KeyError | FileNotFoundError | OSError | LDAPException | EOFError.

Inductive result (A : Type) :=
| Ok (a : A)
| Raise (e : exn).
Arguments Ok {A} a.
Arguments Raise {A} e.

(** [subprocess.CompletedProcess] as the code reads it. *)
Record CompletedProcess := {
  returncode : Z;
  stdout : string;
  stderr : string
}.

(** Every interaction with the outside: what was asked, oldest first. *)
Inductive Call :=
| CGetpass (prompt : string)
| CRun (cmd : list string)
| CLdapBind (server user password : string)
| CLdapSearch (dn : string)
| CLdapAdd (dn : string)
| CLdapModify (dn : string)
| CLdapList (base : string)
| CMkdir (path : string)
| CChmod (path : string) (mode : Z)
| CExists (path : string)
| CIsdir (path : string)
| CListdir (path : string)
| CCopytree (src dst : string)
| CCopy2 (src dst : string)
| CGetpwnam (name : string)
| CChown (path : string) (uid gid : Z)
| CWalk (path : string)
| COpen (path : string).

(** The outside world: each answer may depend on everything asked so
    far, so an environment can fail, recover and change its mind. *)
Record Env := {
  config : Config;
  subprocess_run : list Call -> list string -> result CompletedProcess;
  getpass : list Call -> string -> result string;
  geteuid : Z;
  ldap_fault : list Call -> Call -> bool;
  os_fault : list Call -> Call -> option exn;
  os_path_exists : list Call -> string -> bool;
  os_path_isdir : list Call -> string -> bool;
  os_listdir : list Call -> string -> result (list string);
  os_walk : list Call -> string -> list (string * list string * list string);
  getpwnam : list Call -> string -> option (Z * Z);
  open_lines : list Call -> string -> result (list string)
}.

(** The records kept are those of the default level, INFO, and above:
    the [logger.debug] calls of the source are left out. *)
Inductive Level := INFO | WARNING | ERROR.

Record LogRecord := { level : Level; message : string }.

Inductive Step := ldap | kerberos | home | quota.

Definition step_name (s : Step) : string :=
  match s with
  | ldap => "ldap" | kerberos => "kerberos" | home => "home" | quota => "quota"
  end.

(** Method entries, recorded so that the order of the work can be stated. *)
Inductive Entered :=
| EnterAddUser (uid : Z) (groups username surname firstname password : string)
    (steps : option (list string))
| EnterStep (s : Step) (username : string).

(** An LDAP entry: attribute names with their values. *)
Definition Attrs : Type := list (string * list string).

Record World := {
  history : list Call;
  directory : gmap string Attrs;
  log : list LogRecord;
  entered : list Entered
}.

Definition initial_world : World :=
  {| history := []; directory := ∅; log := []; entered := [] |}.

(** ** A state and exception monad *)

Definition M (A : Type) : Type := World -> result A * World.

Definition ret {A} (a : A) : M A := fun w => (Ok a, w).

Definition bind {A B} (m : M A) (k : A -> M B) : M B :=
  fun w => match m w with
           | (Ok a, w') => k a w'
           | (Raise e, w') => (Raise e, w')
           end.

Definition raise {A} (e : exn) : M A := fun w => (Raise e, w).

(** [try: m  except Exception as e: h e] *)
Definition try_except {A} (m : M A) (h : exn -> M A) : M A :=
  fun w => match m w with
           | (Ok a, w') => (Ok a, w')
           | (Raise e, w') => h e w'
           end.

Declare Scope py_scope.
Delimit Scope py_scope with py.
Notation "x <- m ;; k" := (bind m (fun x => k))
  (at level 100, m at next level, right associativity) : py_scope.
Notation "m ;;; k" := (bind m (fun _ => k))
  (at level 100, right associativity) : py_scope.
Local Open Scope py_scope.

Definition lift {A} (r : result A) : M A := fun w => (r, w).

(** Perform a call: the environment answers from the history before it. *)
Definition ask {A} (c : Call) (answer : list Call -> result A) : M A :=
  fun w =>
    (answer (history w),
     {| history := history w ++ [c]; directory := directory w;
        log := log w; entered := entered w |}).

Definition logger (l : Level) (msg : string) : M unit :=
  fun w =>
    (Ok tt,
     {| history := history w; directory := directory w;
        log := log w ++ [{| level := l; message := msg |}]; entered := entered w |}).

Definition enter (e : Entered) : M unit :=
  fun w =>
    (Ok tt,
     {| history := history w; directory := directory w;
        log := log w; entered := entered w ++ [e] |}).

Definition get_directory : M (gmap string Attrs) := fun w => (Ok (directory w), w).

Definition set_directory (d : gmap string Attrs) : M unit :=
  fun w =>
    (Ok tt,
     {| history := history w; directory := d; log := log w; entered := entered w |}).

(** [for x in l: body x] *)
Fixpoint for_each {A} (l : list A) (body : A -> M unit) : M unit :=
  match l with
  | [] => ret tt
  | x :: l' => body x ;;; for_each l' body
  end.

(** The text of an exception in a log message is rendered by the name of
    its class. *)
Definition exn_name (e : exn) : string :=
  match e with
  | ValueError => "ValueError" | KeyError => "KeyError"
  | FileNotFoundError => "FileNotFoundError" | OSError => "OSError"
  | LDAPException => "LDAPException" | EOFError => "EOFError"
  end.

Global Instance exn_eq_dec : EqDecision exn.
Proof. solve_decision. Defined.

(** [try: m  except E: h] for one exception class. *)
Definition try_except_only {A} (cls : exn) (m : M A) (h : M A) : M A :=
  try_except m (fun e => if decide (e = cls) then h else raise e).

(** [x in l] for a list of strings. *)
Definition py_in (x : string) (l : list string) : bool := existsb (String.eqb x) l.

(** The double quote character. *)
Definition DQUOTE : string := String (ascii_of_nat 34) EmptyString.

Definition of_option {A} (e : exn) (o : option A) : M A :=
  match o with
  | Some a => ret a
  | None => raise e
  end.

(** ** The collaborators as the code calls them *)

Section Collaborators.

Variable env : Env.

Definition cfg : Config := config env.

(** [subprocess.run(cmd, capture_output=True, text=True)] *)
Definition run (cmd : list string) : M CompletedProcess :=
  ask (CRun cmd) (fun h => subprocess_run env h cmd).

Definition prompt (text : string) : M string :=
  ask (CGetpass text) (fun h => getpass env h text).

(** A request to the directory server; a fault raises. *)
Definition ldap_call (c : Call) : M unit :=
  ask c (fun h => if ldap_fault env h c then Raise LDAPException else Ok tt).

(** An operating-system call that returns nothing. *)
Definition os_call (c : Call) : M unit :=
  ask c (fun h => match os_fault env h c with
                  | Some e => Raise e
                  | None => Ok tt
                  end).

(** [conn.search(dn, ..., search_scope=ldap3.BASE)]: is the entry there? *)
Definition conn_search (dn : string) : M bool :=
  ldap_call (CLdapSearch dn) ;;;
  d <- get_directory ;;
  ret (bool_decide (is_Some (d !! dn))).

(** [conn.add(dn, attributes=attrs)]: refused for an existing entry. *)
Definition conn_add (dn : string) (attrs : Attrs) : M bool :=
  ldap_call (CLdapAdd dn) ;;;
  d <- get_directory ;;
  match d !! dn with
  | Some _ => ret false
  | None => set_directory (<[dn := attrs]> d) ;;; ret true
  end.

(** Add one value to an attribute; [None] when it is already there. *)
Fixpoint attrs_add (name v : string) (a : Attrs) : option Attrs :=
  match a with
  | [] => Some [(name, [v])]
  | (n, vs) :: a' =>
      if String.eqb n name then
        if py_in v vs then None else Some ((n, (vs ++ [v])%list) :: a')
      else cons (n, vs) <$> attrs_add name v a'
  end.

(** [conn.modify(dn, {name: [(ldap3.MODIFY_ADD, [v])]})] *)
Definition conn_modify_add (dn name v : string) : M bool :=
  ldap_call (CLdapModify dn) ;;;
  d <- get_directory ;;
  match d !! dn with
  | Some a =>
      match attrs_add name v a with
      | Some a' => set_directory (<[dn := a']> d) ;;; ret true
      | None => ret false
      end
  | None => ret false
  end.

Definition _get_ldap_connection : M unit :=
  bind_password <-
    (if String.eqb (ldap_bind_password cfg) "" then prompt "Введите пароль для LDAP: "
     else ret (ldap_bind_password cfg)) ;;
  ldap_call (CLdapBind (ldap_server cfg) (ldap_bind_dn cfg) bind_password).

Definition _get_kadmin_password : M string :=
  if String.eqb (krb_kadmin_password cfg) "" then prompt "Введите пароль для kadmin: "
  else ret (krb_kadmin_password cfg).

Definition user_dn_of (username : string) : string :=
  "uid=" ++ username ++ "," ++ ldap_user_ou cfg ++ "," ++ ldap_base_dn cfg.

Definition group_dn_of (name : string) : string :=
  "cn=" ++ name ++ "," ++ ldap_group_ou cfg ++ "," ++ ldap_base_dn cfg.

(** ** The four provisioning steps *)

Definition add_user_to_ldap (uid : Z) (username surname firstname : string)
    (groups : list string) : M bool :=
  enter (EnterStep ldap username) ;;;
  try_except
    (_get_ldap_connection ;;;
     let user_dn := user_dn_of username in
     found <- conn_search user_dn ;;
     if found then
       logger WARNING ("Пользователь " ++ username ++ " уже существует в LDAP") ;;;
       ret false
     else
       let primary_group := username in
       let group_dn := group_dn_of primary_group in
       group_found <- conn_search group_dn ;;
       (if negb group_found then
          let group_attrs :=
            [("objectClass", ["top"; "posixGroup"]);
             ("cn", [primary_group]);
             ("gidNumber", [PyStr.str_of_Z uid]);
             ("memberUid", [username]);
             ("description", ["Primary group for user " ++ username])] in
          conn_add group_dn group_attrs ;;;
          logger INFO ("Создана группа " ++ primary_group)
        else ret tt) ;;;
       let full_name := firstname ++ " " ++ surname in
       let user_attrs :=
         [("objectClass", ["top"; "person"; "organizationalPerson"; "inetOrgPerson";
                           "posixAccount"; "shadowAccount"]);
          ("uid", [username]);
          ("uidNumber", [PyStr.str_of_Z uid]);
          ("gidNumber", [PyStr.str_of_Z uid]);
          ("cn", [full_name]);
          ("sn", [surname]);
          ("givenName", [firstname]);
          ("homeDirectory", [nfs_home_base cfg ++ "/" ++ username]);
          ("loginShell", ["/bin/bash"]);
          ("description", ["User " ++ username ++ " (" ++ full_name ++ ")"])] in
       conn_add user_dn user_attrs ;;;
       logger INFO ("Пользователь " ++ username ++ " добавлен в LDAP") ;;;
       for_each groups (fun group_name =>
         if negb (String.eqb group_name primary_group) then
           let group_dn := group_dn_of group_name in
           group_found <- conn_search group_dn ;;
           if group_found then
             conn_modify_add group_dn "memberUid" username ;;;
             logger INFO ("Пользователь " ++ username ++ " добавлен в группу " ++ group_name)
           else ret tt
         else ret tt) ;;;
       ret true)
    (fun e =>
       logger ERROR ("Ошибка при добавлении пользователя в LDAP: " ++ exn_name e) ;;;
       ret false).

Definition add_user_to_kerberos (username password : string) : M bool :=
  enter (EnterStep kerberos username) ;;;
  try_except
    (kadmin_password <- _get_kadmin_password ;;
     let realm := krb_realm cfg in
     let principal := username ++ "@" ++ realm in
     let cmd :=
       ["kadmin"; "-p"; krb_kadmin_principal cfg; "-w"; kadmin_password;
        "-q"; "addprinc -pw " ++ DQUOTE ++ password ++ DQUOTE ++ " " ++ principal] in
     result <- run cmd ;;
     if returncode result =? 0 then
       logger INFO ("Пользователь " ++ username ++ " добавлен в Kerberos") ;;;
       ret true
     else
       logger ERROR ("Ошибка при добавлении в Kerberos: " ++ stderr result) ;;;
       ret false)
    (fun e =>
       logger ERROR ("Ошибка при добавлении пользователя в Kerberos: " ++ exn_name e) ;;;
       ret false).

Definition create_home_directory (username : string) : M bool :=
  enter (EnterStep home username) ;;;
  try_except
    (let home_base := nfs_home_base cfg in
     let skel_dir := nfs_skel_dir cfg in
     let home_dir := PyStr.path_join home_base username in
     let permissions_str := default "750" (nfs_home_permissions cfg) in
     permissions <- of_option ValueError (PyStr.int8 permissions_str) ;;
     os_call (CMkdir home_dir) ;;;
     os_call (CChmod home_dir permissions) ;;;
     skel_exists <- ask (CExists skel_dir) (fun h => Ok (os_path_exists env h skel_dir)) ;;
     (if skel_exists : bool then
        items <- ask (CListdir skel_dir) (fun h => os_listdir env h skel_dir) ;;
        for_each items (fun item =>
          let src := PyStr.path_join skel_dir item in
          let dst := PyStr.path_join home_dir item in
          is_dir <- ask (CIsdir src) (fun h => Ok (os_path_isdir env h src)) ;;
          if is_dir : bool then os_call (CCopytree src dst) else os_call (CCopy2 src dst))
      else ret tt) ;;;
     try_except_only KeyError
       (pw <- ask (CGetpwnam username)
                (fun h => match getpwnam env h username with
                          | Some p => Ok p | None => Raise KeyError end) ;;
        let uid := fst pw in
        pw' <- ask (CGetpwnam username)
                 (fun h => match getpwnam env h username with
                           | Some p => Ok p | None => Raise KeyError end) ;;
        let gid := snd pw' in
        os_call (CChown home_dir uid gid) ;;;
        tree <- ask (CWalk home_dir) (fun h => Ok (os_walk env h home_dir)) ;;
        for_each tree (fun '(root, _, files) =>
          os_call (CChown root uid gid) ;;;
          for_each files (fun file =>
            os_call (CChown (PyStr.path_join root file) uid gid))))
       (logger WARNING ("Пользователь " ++ username
                        ++ " не найден в системе, пропускаем установку прав")) ;;;
     logger INFO ("Создан домашний каталог для " ++ username) ;;;
     ret true)
    (fun e =>
       logger ERROR ("Ошибка при создании домашнего каталога: " ++ exn_name e) ;;;
       ret false).

Definition supported_filesystems : list string := ["xfs"; "ext4"; "ext3"; "ext2"].

(** [get_filesystem_type]: the type [df -T] reports when it is a
    supported one, else ['ext4']. *)
Definition get_filesystem_type (path : string) : M string :=
  try_except
    (result <- run ["df"; "-T"; path] ;;
     if returncode result =? 0 then
       match PyStr.lines_of (stdout result) with
       | _ :: line :: _ =>
           match PyStr.split_ws line with
           | _ :: field :: _ =>
               let fs_type := PyStr.lower field in
               if py_in fs_type supported_filesystems then ret fs_type else ret "ext4"
           | _ => ret "ext4"
           end
       | _ => ret "ext4"
       end
     else ret "ext4")
    (fun _ => ret "ext4").

(** The filesystem type the quota code works with: the configured one
    when it is set and not empty, else the detected one.  The source
    repeats these lines in [set_user_quota], [get_all_quotas] and
    [get_user_quota]. *)
Definition quota_filesystem : M string :=
  match quota_filesystem_type cfg with
  | Some t => if String.eqb t "" then get_filesystem_type (nfs_home_base cfg) else ret t
  | None => get_filesystem_type (nfs_home_base cfg)
  end.

Definition is_xfs (filesystem_type : string) : bool :=
  String.eqb (PyStr.lower filesystem_type) "xfs".

Definition set_user_quota (username : string) : M bool :=
  enter (EnterStep quota username) ;;;
  try_except
    (let home_base := nfs_home_base cfg in
     filesystem_type <- quota_filesystem ;;
     let soft_limit := quota_default_soft_limit cfg in
     let hard_limit := quota_default_hard_limit cfg in
     let inode_soft_limit := quota_default_inode_soft_limit cfg in
     let inode_hard_limit := quota_default_inode_hard_limit cfg in
     let cmd :=
       if is_xfs filesystem_type then
         ["xfs_quota"; "-x"; "-c";
          "limit bsoft=" ++ soft_limit ++ " bhard=" ++ hard_limit
            ++ " isoft=" ++ inode_soft_limit ++ " ihard=" ++ inode_hard_limit
            ++ " " ++ username;
          home_base]
       else
         ["setquota"; "-u"; username;
          soft_limit; hard_limit; inode_soft_limit; inode_hard_limit; home_base] in
     result <- run cmd ;;
     if returncode result =? 0 then
       logger INFO ("Установлена квота для пользователя " ++ username
                    ++ " на " ++ filesystem_type) ;;;
       ret true
     else
       logger ERROR ("Ошибка при установке квоты: " ++ stderr result) ;;;
       ret false)
    (fun e =>
       logger ERROR ("Ошибка при установке квоты: " ++ exn_name e) ;;;
       ret false).

End Collaborators.

(** ** The provisioning workflow *)

(** The [results] dictionary of [add_user], in insertion order: each
    key is assigned at most once. *)
Abbreviation StepResults := (list (string * bool)).

Section Workflow.

Variable env : Env.

Definition default_steps : list string := ["ldap"; "kerberos"; "home"; "quota"].

(** One of the four [if name in steps:] blocks of [add_user]. *)
Definition run_step (steps : list string) (name : string) (operation : M bool)
    (complaint : string) (results : StepResults) : M StepResults :=
  if py_in name steps then
    success <- operation ;;
    (if negb success then logger ERROR complaint else ret tt) ;;;
    ret (results ++ [(name, success)])%list
  else ret results.

(** [add_user] up to its verdict: the [results] dictionary as it
    stands when the function returns, and the value returned. *)
Definition add_user_results (uid : Z) (groups username surname firstname password : string)
    (steps : option (list string)) : M (StepResults * bool) :=
  enter (EnterAddUser uid groups username surname firstname password steps) ;;;
  let steps := default default_steps steps in
  logger INFO ("Начинаем добавление пользователя " ++ username) ;;;
  let group_list := map PyStr.strip (PyStr.split_on "," groups) in
  let results : StepResults := [] in
  results <- run_step steps "ldap"
               (add_user_to_ldap env uid username surname firstname group_list)
               "Не удалось добавить пользователя в LDAP" results ;;
  results <- run_step steps "kerberos"
               (add_user_to_kerberos env username password)
               "Не удалось добавить пользователя в Kerberos" results ;;
  results <- run_step steps "home"
               (create_home_directory env username)
               "Не удалось создать домашний каталог" results ;;
  results <- run_step steps "quota"
               (set_user_quota env username)
               "Не удалось установить квоту" results ;;
  let failed_steps := map fst (filter (fun p => negb (snd p)) results) in
  match failed_steps with
  | _ :: _ =>
      logger ERROR ("Ошибки в шагах: " ++ PyStr.join ", " failed_steps) ;;;
      ret (results, false)
  | [] =>
      logger INFO ("Пользователь " ++ username ++ " успешно добавлен в систему") ;;;
      ret (results, true)
  end.

Definition add_user (uid : Z) (groups username surname firstname password : string)
    (steps : option (list string)) : M bool :=
  r <- add_user_results uid groups username surname firstname password steps ;;
  ret (snd r).

(** ** The manifest processor *)

(** What one line of the manifest is to [process_user_file]. *)
Inductive LineKind :=
| Blank
| BadFormat
| BadUid (uid : string)
| UserLine (uid : Z) (groups username surname firstname password : string).

Definition classify (line : string) : LineKind :=
  let line := PyStr.strip line in
  if String.eqb line "" || PyStr.startswith line "#" then Blank
  else match PyStr.split_ws line with
       | [uid; groups; username; surname; firstname; password] =>
           match PyStr.int uid with
           | Some n => UserLine n groups username surname firstname password
           | None => BadUid uid
           end
       | _ => BadFormat
       end.

(** The body of the [for] loop: the dictionary after the line. *)
Definition process_line (steps : option (list string)) (line_num : Z) (line : string)
    (results : gmap string bool) : M (gmap string bool) :=
  match classify line with
  | Blank => ret results
  | BadFormat =>
      logger WARNING ("Строка " ++ PyStr.str_of_Z line_num ++ ": неверный формат") ;;;
      ret results
  | BadUid uid =>
      logger ERROR ("Строка " ++ PyStr.str_of_Z line_num ++ ": ошибка парсинга - "
                    ++ exn_name ValueError) ;;;
      ret results
  | UserLine uid groups username surname firstname password =>
      try_except_only ValueError
        (success <- add_user uid groups username surname firstname password steps ;;
         ret (<[username := success]> results))
        (logger ERROR ("Строка " ++ PyStr.str_of_Z line_num ++ ": ошибка парсинга - "
                       ++ exn_name ValueError) ;;;
         ret results)
  end.

(** The loop over [enumerate(f, 1)].  An exception that leaves the loop
    leaves the dictionary as the lines before it built it. *)
Fixpoint process_lines (steps : option (list string)) (line_num : Z) (lines : list string)
    (results : gmap string bool) (w : World) : gmap string bool * option exn * World :=
  match lines with
  | [] => (results, None, w)
  | line :: rest =>
      match process_line steps line_num line results w with
      | (Ok results', w') => process_lines steps (line_num + 1) rest results' w'
      | (Raise e, w') => (results, Some e, w')
      end
  end.

(** [open_lines] answers with the lines of the file or raises; a file
    that fails while it is being read is not modelled. *)
Definition process_user_file (filename : string) (steps : option (list string))
    : M (gmap string bool) :=
  fun w =>
    match ask (COpen filename) (fun h => open_lines env h filename) w with
    | (Ok lines, w1) =>
        match process_lines steps 1 lines ∅ w1 with
        | (results, None, w2) => (Ok results, w2)
        | (results, Some e, w2) =>
            (logger ERROR
               (if decide (e = FileNotFoundError) then "Файл " ++ filename ++ " не найден"
                else "Ошибка при обработке файла: " ++ exn_name e) ;;;
             ret results) w2
        end
    | (Raise e, w1) =>
        (logger ERROR
           (if decide (e = FileNotFoundError) then "Файл " ++ filename ++ " не найден"
            else "Ошибка при обработке файла: " ++ exn_name e) ;;;
         ret ∅) w1
    end.

(** ** Status checkers *)

Definition principal_marker (principal : string) : string := "Principal: " ++ principal.

(** The tail both branches of [check_kerberos_principal] share. *)
Definition check_getprinc (principal : string) (cmd : list string) : M bool :=
  result <- run env cmd ;;
  ret ((returncode result =? 0)
       && PyStr.contains (principal_marker principal) (stdout result)).

Definition check_kerberos_principal (username : string) : M bool :=
  try_except
    (let realm := krb_realm (cfg env) in
     let principal := username ++ "@" ++ realm in
     let check_method := default "kadmin" (krb_check_method (cfg env)) in
     if String.eqb check_method "kadmin.local" && (geteuid env =? 0) then
       check_getprinc principal ["kadmin.local"; "-q"; "getprinc " ++ principal]
     else
       let kadmin_principal := krb_kadmin_principal (cfg env) in
       kadmin_password <- _get_kadmin_password env ;;
       check_getprinc principal
         ["kadmin"; "-p"; kadmin_principal; "-w"; kadmin_password;
          "-q"; "getprinc " ++ principal])
    (fun _ => ret false).

Definition check_home_directory (username : string) : M bool :=
  try_except
    (let home_dir := PyStr.path_join (nfs_home_base (cfg env)) username in
     there <- ask (CExists home_dir) (fun h => Ok (os_path_exists env h home_dir)) ;;
     if there : bool then ask (CIsdir home_dir) (fun h => Ok (os_path_isdir env h home_dir))
     else ret false)
    (fun _ => ret false).

End Workflow.

(** ** Quota reports *)

(** The status shown for a user without quota data. *)
Definition NOT_SET : string := "Не установлена".

(** The value [get_user_quota] returns after an exception. *)
Definition QUOTA_ERROR : string := "Ошибка".

(** The inner dictionaries of [get_all_quotas]. *)
Record QuotaEntry := {
  blocks : option string;
  inodes : option string;
  quota_str : option string
}.

Definition empty_entry : QuotaEntry :=
  {| blocks := None; inodes := None; quota_str := None |}.

Definition set_blocks (v : string) (e : QuotaEntry) : QuotaEntry :=
  {| blocks := Some v; inodes := inodes e; quota_str := quota_str e |}.

Definition set_inodes (v : string) (e : QuotaEntry) : QuotaEntry :=
  {| blocks := blocks e; inodes := Some v; quota_str := quota_str e |}.

Definition set_quota_str (v : string) (e : QuotaEntry) : QuotaEntry :=
  {| blocks := blocks e; inodes := inodes e; quota_str := Some v |}.

Definition xfs_skipped : list string := ["User"; "User ID"; "----------"; "root"].

Definition generic_skipped : list string := ["Filesystem"; "root"].

(** [f"{parts[1]}/{parts[2]}/{parts[3]}"] *)
Definition triple (u s h : string) : string := u ++ "/" ++ s ++ "/" ++ h.

(** One line of an XFS report in [get_all_quotas]; [store] is the key
    assigned, ['blocks'] or ['inodes']. *)
Definition xfs_batch_line (store : string -> QuotaEntry -> QuotaEntry)
    (quotas : gmap string QuotaEntry) (line : string) : gmap string QuotaEntry :=
  match PyStr.split_ws line with
  | username :: u :: s :: h :: _ :: _ =>
      if negb (py_in username xfs_skipped) then
        let quotas := match quotas !! username with
                      | Some _ => quotas
                      | None => <[username := empty_entry]> quotas
                      end in
        alter (store (triple u s h)) username quotas
      else quotas
  | _ => quotas
  end.

(** The loop over one XFS report, run when the tool exited with zero. *)
Definition xfs_batch_report (store : string -> QuotaEntry -> QuotaEntry)
    (result : CompletedProcess) (quotas : gmap string QuotaEntry)
    : gmap string QuotaEntry :=
  if returncode result =? 0 then
    fold_left (xfs_batch_line store) (PyStr.lines_of (stdout result)) quotas
  else quotas.

Definition render (blocks_info inodes_info : string) : string :=
  "blocks: " ++ blocks_info ++ "; inodes: " ++ inodes_info.

(** The XFS branch of [get_all_quotas] after its two tool runs. *)
Definition xfs_all_quotas (result_blocks result_inodes : CompletedProcess)
    : gmap string QuotaEntry :=
  let quotas := xfs_batch_report set_blocks result_blocks ∅ in
  let quotas := xfs_batch_report set_inodes result_inodes quotas in
  (fun e => set_quota_str (render (default "-" (blocks e)) (default "-" (inodes e))) e)
    <$> quotas.

Definition generic_batch_line (quotas : gmap string QuotaEntry) (line : string)
    : gmap string QuotaEntry :=
  match PyStr.split_ws line with
  | username :: bu :: bs :: _ :: iu :: is_ :: _ =>
      if negb (py_in username generic_skipped) then
        <[username := {| blocks := None; inodes := None;
                         quota_str := Some (render (bu ++ "/" ++ bs) (iu ++ "/" ++ is_)) |}]>
          quotas
      else quotas
  | _ => quotas
  end.

(** The other branch of [get_all_quotas] after its tool run. *)
Definition generic_all_quotas (result : CompletedProcess) : gmap string QuotaEntry :=
  if returncode result =? 0 then
    fold_left generic_batch_line (PyStr.lines_of (stdout result)) ∅
  else ∅.

(** One XFS report in [get_user_quota]: the last line that starts with
    the user name and has five columns wins. *)
Definition xfs_user_line (username : string) (info : option string) (line : string)
    : option string :=
  if PyStr.startswith (PyStr.strip line) username then
    match PyStr.split_ws line with
    | _ :: u :: s :: h :: _ :: _ => Some (triple u s h)
    | _ => info
    end
  else info.

Definition xfs_user_report (username : string) (result : CompletedProcess) : option string :=
  if returncode result =? 0 then
    fold_left (xfs_user_line username) (PyStr.lines_of (stdout result)) None
  else None.

(** Python's truth value of an optional string: set and not empty. *)
Definition truthy (o : option string) : bool :=
  match o with
  | Some s => negb (String.eqb s "")
  | None => false
  end.

(** [info if info else '-'] *)
Definition or_dash (o : option string) : string :=
  if truthy o then default "" o else "-".

(** The XFS branch of [get_user_quota] after its two tool runs. *)
Definition xfs_user_quota (username : string) (result_blocks result_inodes : CompletedProcess)
    : string :=
  let blocks_info := xfs_user_report username result_blocks in
  let inodes_info := xfs_user_report username result_inodes in
  if truthy blocks_info || truthy inodes_info then
    render (or_dash blocks_info) (or_dash inodes_info)
  else NOT_SET.

(** The other branch of [get_user_quota] after its tool run: the third
    line of the output is taken to be the user's. *)
Definition generic_user_quota (result : CompletedProcess) : string :=
  if returncode result =? 0 then
    match PyStr.lines_of (stdout result) with
    | _ :: _ :: quota_line :: _ =>
        match PyStr.split_ws quota_line with
        | _ :: bu :: bs :: _ :: iu :: is_ :: _ => render (bu ++ "/" ++ bs) (iu ++ "/" ++ is_)
        | _ :: bu :: bs :: _ :: _ => "blocks: " ++ bu ++ "/" ++ bs
        | _ => NOT_SET
        end
    | _ => NOT_SET
    end
  else NOT_SET.

(** What [list_users] returns for one directory entry. *)
Record UserInfo := {
  ui_uid : string;
  ui_uidNumber : string;
  ui_cn : string;
  ui_homeDirectory : string;
  ui_kerberos : option bool;
  ui_home_dir : option bool;
  ui_quota : option string
}.

Section Listing.

Variable env : Env.

Definition cmd_blocks : list string :=
  ["xfs_quota"; "-x"; "-c"; "report -h"; nfs_home_base (cfg env)].

Definition cmd_inodes : list string :=
  ["xfs_quota"; "-x"; "-c"; "report -h -i"; nfs_home_base (cfg env)].

(** Every exception the body can raise comes from a tool run, before
    the first assignment to [quotas]: the handler returns it empty. *)
Definition get_all_quotas : M (gmap string QuotaEntry) :=
  try_except
    (filesystem_type <- quota_filesystem env ;;
     if is_xfs filesystem_type then
       result_blocks <- run env cmd_blocks ;;
       result_inodes <- run env cmd_inodes ;;
       ret (xfs_all_quotas result_blocks result_inodes)
     else
       result <- run env ["quota"; "-a"] ;;
       ret (generic_all_quotas result))
    (fun _ => ret ∅).

Definition get_user_quota (username : string) : M string :=
  try_except
    (filesystem_type <- quota_filesystem env ;;
     if is_xfs filesystem_type then
       result_blocks <- run env cmd_blocks ;;
       result_inodes <- run env cmd_inodes ;;
       ret (xfs_user_quota username result_blocks result_inodes)
     else
       result <- run env ["quota"; "-u"; username] ;;
       ret (generic_user_quota result))
    (fun _ => ret QUOTA_ERROR).

(** [entry.<name>.value] for an attribute with one value, as
    [add_user_to_ldap] writes them; anything else raises. *)
Definition attr_value (name : string) (a : Attrs) : M string :=
  match snd <$> find (fun p => String.eqb (fst p) name) a with
  | Some [v] => ret v
  | _ => raise LDAPException
  end.

Fixpoint endswith (s suffix : string) : bool :=
  String.eqb s suffix ||
  match s with
  | EmptyString => false
  | String _ s' => endswith s' suffix
  end.

(** The entries a subtree search for [(objectClass=posixAccount)]
    under [base_dn] finds. *)
Definition posix_entries (base_dn : string) (d : gmap string Attrs) : list Attrs :=
  snd <$> filter (fun p : string * Attrs =>
                    Is_true (endswith (fst p) base_dn
                             && existsb (fun q : string * list string =>
                                           String.eqb (fst q) "objectClass"
                                           && py_in "posixAccount" (snd q)) (snd p)))
                 (map_to_list d).

(** [all_quotas.get(uid, {}).get('quota_str', 'Не установлена')] *)
Definition quota_of (all_quotas : gmap string QuotaEntry) (uid : string) : string :=
  default NOT_SET (quota_str (default empty_entry (all_quotas !! uid))).

(** The body of the loop over [conn.entries]. *)
Definition user_info_of (detailed : bool) (all_quotas : gmap string QuotaEntry)
    (entry : Attrs) : M UserInfo :=
  uid <- attr_value "uid" entry ;;
  uidNumber <- attr_value "uidNumber" entry ;;
  cn <- attr_value "cn" entry ;;
  homeDirectory <- attr_value "homeDirectory" entry ;;
  if detailed then
    k <- check_kerberos_principal env uid ;;
    h <- check_home_directory env uid ;;
    ret {| ui_uid := uid; ui_uidNumber := uidNumber; ui_cn := cn;
           ui_homeDirectory := homeDirectory; ui_kerberos := Some k;
           ui_home_dir := Some h; ui_quota := Some (quota_of all_quotas uid) |}
  else
    ret {| ui_uid := uid; ui_uidNumber := uidNumber; ui_cn := cn;
           ui_homeDirectory := homeDirectory; ui_kerberos := None;
           ui_home_dir := None; ui_quota := None |}.

Fixpoint collect_users (detailed : bool) (all_quotas : gmap string QuotaEntry)
    (entries : list Attrs) (users : list UserInfo) : M (list UserInfo) :=
  match entries with
  | [] => ret users
  | entry :: rest =>
      user_info <- user_info_of detailed all_quotas entry ;;
      collect_users detailed all_quotas rest (users ++ [user_info])%list
  end.

Definition list_users (detailed : bool) : M (list UserInfo) :=
  try_except
    (_get_ldap_connection env ;;;
     let base_dn := ldap_user_ou (cfg env) ++ "," ++ ldap_base_dn (cfg env) in
     logger INFO ("Поиск пользователей в: " ++ base_dn) ;;;
     ldap_call env (CLdapList base_dn) ;;;
     d <- get_directory ;;
     let entries := posix_entries base_dn d in
     logger INFO ("Найдено записей: " ++ PyStr.str_of_Z (Z.of_nat (length entries))) ;;;
     all_quotas <- (if detailed then get_all_quotas else ret ∅) ;;
     collect_users detailed all_quotas entries [])
    (fun e =>
       logger ERROR ("Ошибка при получении списка пользователей: " ++ exn_name e) ;;;
       ret []).

End Listing.

(** ** Sample installations

    Concrete configurations and environments on which the model is run. *)

Definition sample_config (filesystem_type : option string) : Config :=
  {| ldap_server := "ldap://localhost:389";
     ldap_bind_dn := "cn=admin,dc=sch179,dc=local";
     ldap_bind_password := "ldap-secret";
     ldap_base_dn := "dc=sch179,dc=local";
     ldap_user_ou := "ou=people";
     ldap_group_ou := "ou=groups";
     krb_realm := "SCH179.LOCAL";
     krb_kadmin_principal := "admin/admin@SCH179.LOCAL";
     krb_kadmin_password := "kadmin-secret";
     krb_check_method := None;
     nfs_home_base := "/home";
     nfs_skel_dir := "/etc/skel";
     nfs_home_permissions := Some "750";
     quota_default_soft_limit := "100M";
     quota_default_hard_limit := "200M";
     quota_default_inode_soft_limit := "1000";
     quota_default_inode_hard_limit := "2000";
     quota_filesystem_type := filesystem_type |}.

(** A tool run that exits with [code] and prints [out]. *)
Definition completed (code : Z) (out : string) : CompletedProcess :=
  {| returncode := code; stdout := out; stderr := "" |}.

(** An installation where the directory server and the operating system
    never fail, tools answer as [tool] says and the manifest read is
    [manifest]. *)
Definition sample_env (filesystem_type : option string)
    (tool : list string -> result CompletedProcess)
    (manifest : result (list string)) : Env :=
  {| config := sample_config filesystem_type;
     subprocess_run := fun _ cmd => tool cmd;
     getpass := fun _ _ => Ok "typed-secret";
     geteuid := 1000;
     ldap_fault := fun _ _ => false;
     os_fault := fun _ _ => None;
     os_path_exists := fun _ _ => false;
     os_path_isdir := fun _ _ => false;
     os_listdir := fun _ _ => Ok [];
     os_walk := fun _ _ => [];
     getpwnam := fun _ _ => None;
     open_lines := fun _ _ => manifest |}.

(** Every tool exits with zero and prints nothing. *)
Definition quiet_tool (cmd : list string) : result CompletedProcess := Ok (completed 0 "").

(** No tool can be started. *)
Definition missing_tool (cmd : list string) : result CompletedProcess := Raise FileNotFoundError.

Definition NL : string := String PyStr.LF EmptyString.


(** ** Notions used in the statements *)

(** [m] returns on every world: it never raises. *)
Definition total {A} (m : M A) : Prop :=
  forall w, exists a w', m w = (Ok a, w').

(** [m] leaves one component of the world as it found it, whether it
    returns or raises. *)
Definition keeps {S A} (proj : World -> S) (m : M A) : Prop :=
  forall w, proj (snd (m w)) = proj w.

Definition all_steps : list Step := [ldap; kerberos; home; quota].

(** The steps a [steps] argument asks for, in the order of the code. *)
Definition requested (steps : option (list string)) : list Step :=
  List.filter (fun s => py_in (step_name s) (default default_steps steps)) all_steps.

(** The method entries of one run of the workflow. *)
Definition workflow_entries (uid : Z) (groups username surname firstname password : string)
    (steps : option (list string)) : list Entered :=
  EnterAddUser uid groups username surname firstname password steps
    :: map (fun s => EnterStep s username) (requested steps).

(** What a block [if name in steps: ...] adds to the results: nothing,
    or the outcome its operation returned. *)
Definition outcome (steps : list string) (name : string) (b : bool) : StepResults :=
  if py_in name steps then [(name, b)] else [].

Definition entry_of (steps : list string) (s : Step) (username : string) : list Entered :=
  if py_in (step_name s) steps then [EnterStep s username] else [].


(** A command line that asks the realm tool for [principal]. *)
Definition is_getprinc (principal : string) (cmd : list string) : Prop :=
  (head cmd = Some "kadmin" \/ head cmd = Some "kadmin.local")
  /\ last cmd = Some ("getprinc " ++ principal).

(** The world after one more call. *)
Definition called (c : Call) (w : World) : World :=
  {| history := history w ++ [c]; directory := directory w;
     log := log w; entered := entered w |}.

(** Runs of a quota tool ([xfs_quota] or [quota]) among the calls made. *)
Definition is_quota_tool (c : Call) : bool :=
  match c with
  | CRun (tool :: _) => String.eqb tool "xfs_quota" || String.eqb tool "quota"
  | _ => false
  end.

Definition quota_tool_runs (h : list Call) : list Call := List.filter is_quota_tool h.

(** The tool can be started: [subprocess.run] returns a result, whatever
    the exit code and the output. *)
Definition launches (env : Env) (cmd : list string) : Prop :=
  forall h, exists r, subprocess_run env h cmd = Ok r.

(** The report commands of one call of [get_all_quotas]. *)
Definition report_commands (env : Env) (filesystem_type : string) : list (list string) :=
  if is_xfs filesystem_type then [cmd_blocks env; cmd_inodes env] else [["quota"; "-a"]].

(** A line of an XFS report that [get_all_quotas] reads as a data row
    of [username]: five columns or more, the first one the user name,
    and not one of the skipped names. *)
Definition xfs_data_row (username line : string) : bool :=
  match PyStr.split_ws line with
  | p0 :: _ :: _ :: _ :: _ :: _ => String.eqb p0 username && negb (py_in p0 xfs_skipped)
  | _ => false
  end.

(** The same for the report of [quota -a]: six columns or more. *)
Definition generic_data_row (username line : string) : bool :=
  match PyStr.split_ws line with
  | p0 :: _ :: _ :: _ :: _ :: _ :: _ =>
      String.eqb p0 username && negb (py_in p0 generic_skipped)
  | _ => false
  end.

(** A report that was read (exit code zero) has a data row of the user. *)
Definition has_row (row : string -> string -> bool) (username : string)
    (result : CompletedProcess) : bool :=
  (returncode result =? 0) && existsb (row username) (PyStr.lines_of (stdout result)).

(** The backend reports one call of [get_all_quotas] works from: none
    when a tool could not be run. *)
Inductive Reports :=
| XfsReports (result_blocks result_inodes : CompletedProcess)
| GenericReport (result : CompletedProcess)
| NoReports.

Definition quotas_of (reports : Reports) : gmap string QuotaEntry :=
  match reports with
  | XfsReports result_blocks result_inodes => xfs_all_quotas result_blocks result_inodes
  | GenericReport result => generic_all_quotas result
  | NoReports => ∅
  end.

Definition has_data_row (username : string) (reports : Reports) : bool :=
  match reports with
  | XfsReports result_blocks result_inodes =>
      has_row xfs_data_row username result_blocks
      || has_row xfs_data_row username result_inodes
  | GenericReport result => has_row generic_data_row username result
  | NoReports => false
  end.

(** The reports are what the tools of the environment printed. *)
Definition fetched (env : Env) (reports : Reports) : Prop :=
  match reports with
  | XfsReports result_blocks result_inodes =>
      exists h,
        subprocess_run env h (cmd_blocks env) = Ok result_blocks
        /\ subprocess_run env (h ++ [CRun (cmd_blocks env)]) (cmd_inodes env)
           = Ok result_inodes
  | GenericReport result => exists h, subprocess_run env h ["quota"; "-a"] = Ok result
  | NoReports => True
  end.

(** No character of the string is whitespace. *)
Fixpoint no_space (s : string) : bool :=
  match s with
  | EmptyString => true
  | String c s' => negb (PyStr.is_space c) && no_space s'
  end.

(** Every line of the report that starts with the user name has the
    user name as its whole first column. *)
Definition names_whole_column (username : string) (result : CompletedProcess) : Prop :=
  forall line,
    In line (PyStr.lines_of (stdout result)) ->
    PyStr.startswith (PyStr.strip line) username = true ->
    head (PyStr.split_ws line) = Some username.

(** One half of a rendering: usage figures, or a dash for none. *)
Definition usage_or_dash (s : string) : Prop :=
  s = "-" \/ exists u soft hard, s = triple u soft hard.

(** Reports on which the two parsers part. *)
Definition prefix_report : CompletedProcess :=
  completed 0 ("al 1 2 3 4" ++ NL ++ "alice 5 6 7 8").

Definition one_line_report : CompletedProcess := completed 0 "alice 1 2 3 4 5".

(** What [get_user_quota] holds for a report is nothing or usage figures. *)
Definition figures (info : option string) : Prop :=
  info = None \/ exists u soft hard, info = Some (triple u soft hard).

(** The reports of the specification's example, and a report of the
    other kind with its two heading lines. *)
Definition example_blocks : CompletedProcess := completed 0 "alice 50M 100M 200M 1".

Definition example_inodes : CompletedProcess := completed 0 "alice 500 1000 2000 0".

Definition example_generic : CompletedProcess :=
  completed 0 ("Disk quotas for user alice (uid 1001):" ++ NL
               ++ "Filesystem blocks quota limit grace files quota limit grace" ++ NL
               ++ "alice 50 100 200 5 10 20").

(** ** Manifests *)

(** The environment with another answer to [open]: the lines of the
    manifest, or an exception. *)
Definition with_manifest (env : Env) (manifest : result (list string)) : Env :=
  {| config := config env;
     subprocess_run := subprocess_run env;
     getpass := getpass env;
     geteuid := geteuid env;
     ldap_fault := ldap_fault env;
     os_fault := os_fault env;
     os_path_exists := os_path_exists env;
     os_path_isdir := os_path_isdir env;
     os_listdir := os_listdir env;
     os_walk := os_walk env;
     getpwnam := getpwnam env;
     open_lines := fun _ _ => manifest |}.

(** Two worlds that differ in the log at most. *)
Definition same_but_log (w1 w2 : World) : Prop :=
  history w1 = history w2 /\ directory w1 = directory w2 /\ entered w1 = entered w2.

(** [m] does not read the log: from worlds that differ in the log only
    it gives the same result and worlds that differ in the log only. *)
Definition blind {A} (m : M A) : Prop :=
  forall w1 w2, same_but_log w1 w2 ->
    fst (m w1) = fst (m w2) /\ same_but_log (snd (m w1)) (snd (m w2)).

(** A line that is neither blank, nor a comment, nor a user line. *)
Definition is_malformed (k : LineKind) : bool :=
  match k with
  | BadFormat | BadUid _ => true
  | Blank | UserLine _ _ _ _ _ _ => false
  end.

(** The world after one more log record. *)
Definition logged (r : LogRecord) (w : World) : World :=
  {| history := history w; directory := directory w;
     log := log w ++ [r]; entered := entered w |}.

Definition is_add_user (e : Entered) : bool :=
  match e with
  | EnterAddUser _ _ _ _ _ _ _ => true
  | EnterStep _ _ => false
  end.

(** The workflow runs a manifest asks for, in file order. *)
Definition user_lines (steps : option (list string)) (lines : list string) : list Entered :=
  flat_map (fun line =>
              match classify line with
              | UserLine uid groups username surname firstname password =>
                  [EnterAddUser uid groups username surname firstname password steps]
              | _ => []
              end) lines.

(** The line is a user line of [username]. *)
Definition names_user (username line : string) : bool :=
  match classify line with
  | UserLine _ _ u _ _ _ => String.eqb u username
  | _ => false
  end.

(** A manifest with a line of five fields, a line with a bad uid, a
    comment and two user lines, of which one names [alice] a second
    time. *)
Definition sample_manifest : list string :=
  ["1001 students alice Ivanova Alice secret123";
   "# second form";
   "1002 students bob Petrov";
   "x1003 students carol Sidorova Carol pw";
   "1004 staff alice Ivanova Alice other"].

(** [kadmin] refuses the password [other]; every other tool run exits
    with zero. *)
Definition picky_tool (cmd : list string) : result CompletedProcess :=
  match cmd with
  | "kadmin" :: _ =>
      if PyStr.contains "other" (default "" (last cmd)) then Ok (completed 1 "")
      else Ok (completed 0 "")
  | _ => Ok (completed 0 "")
  end.

(** The quota tool prints the reports of the specification's example. *)
Definition report_tool (cmd : list string) : result CompletedProcess :=
  match cmd with
  | ["xfs_quota"; "-x"; "-c"; "report -h"; _] => Ok example_blocks
  | ["xfs_quota"; "-x"; "-c"; "report -h -i"; _] => Ok example_inodes
  | _ => Ok (completed 0 "")
  end.

(** An installation whose directory server answers no request. *)
Definition directory_down : Env :=
  {| config := sample_config None;
     subprocess_run := fun _ _ => Ok (completed 0 "");
     getpass := fun _ _ => Ok "typed-secret";
     geteuid := 0;
     ldap_fault := fun _ _ => true;
     os_fault := fun _ _ => None;
     os_path_exists := fun _ _ => false;
     os_path_isdir := fun _ _ => false;
     os_listdir := fun _ _ => Ok [];
     os_walk := fun _ _ => [];
     getpwnam := fun _ _ => None;
     open_lines := fun _ _ => Ok [] |}.

(** The world after [alice] and [bob] were added to the directory. *)
Definition two_users : World :=
  let env := sample_env (Some "xfs") report_tool (Ok []) in
  let w := snd (add_user env 1001 "students" "alice" "Ivanova" "Alice" "secret123"
                  (Some ["ldap"]) initial_world) in
  snd (add_user env 1002 "students" "bob" "Petrov" "Boris" "pw" (Some ["ldap"]) w).

(** ** Further code: step selection on the command line *)

(** The step options of [add-file] and [add-user] as [argparse] leaves
    them: five flags and the names given to [--steps], if any. *)
Record StepArgs := {
  arg_all : bool;
  arg_ldap : bool;
  arg_kerberos : bool;
  arg_home : bool;
  arg_quota : bool;
  arg_steps : option (list string)
}.

(** [get_steps] of [main]; a list is true when it is not empty. *)
Definition get_steps (args : StepArgs) : list string :=
  if arg_all args then ["ldap"; "kerberos"; "home"; "quota"]
  else if arg_ldap args then ["ldap"]
  else if arg_kerberos args then ["kerberos"]
  else if arg_home args then ["home"]
  else if arg_quota args then ["quota"]
  else match arg_steps args with
       | Some (name :: names) => name :: names
       | _ => ["ldap"; "kerberos"; "home"; "quota"]
       end.

(** ** Notions used in the further statements *)

(** The run of [df -T] that resolving the filesystem type costs: none
    when the configuration names a type. *)
Definition probe (env : Env) : list Call :=
  match quota_filesystem_type (cfg env) with
  | Some t => if String.eqb t "" then [CRun ["df"; "-T"; nfs_home_base (cfg env)]] else []
  | None => [CRun ["df"; "-T"; nfs_home_base (cfg env)]]
  end.

(** The command line [set_user_quota] builds. *)
Definition limit_command (env : Env) (filesystem_type username : string) : list string :=
  if is_xfs filesystem_type then
    ["xfs_quota"; "-x"; "-c";
     "limit bsoft=" ++ quota_default_soft_limit (cfg env)
       ++ " bhard=" ++ quota_default_hard_limit (cfg env)
       ++ " isoft=" ++ quota_default_inode_soft_limit (cfg env)
       ++ " ihard=" ++ quota_default_inode_hard_limit (cfg env)
       ++ " " ++ username;
     nfs_home_base (cfg env)]
  else
    ["setquota"; "-u"; username;
     quota_default_soft_limit (cfg env); quota_default_hard_limit (cfg env);
     quota_default_inode_soft_limit (cfg env); quota_default_inode_hard_limit (cfg env);
     nfs_home_base (cfg env)].

(** The command line [add_user_to_kerberos] builds. *)
Definition addprinc_command (env : Env) (kadmin_password username password : string)
    : list string :=
  ["kadmin"; "-p"; krb_kadmin_principal (cfg env); "-w"; kadmin_password; "-q";
   "addprinc -pw " ++ DQUOTE ++ password ++ DQUOTE ++ " " ++ username ++ "@"
     ++ krb_realm (cfg env)].

(** Every call [m] makes satisfies [P]. *)
Definition calls_only {A} (P : Call -> bool) (m : M A) : Prop :=
  forall w, exists added,
    history (snd (m w)) = (history w ++ added)%list /\ forallb P added = true.

(** A call to the local system: the filesystem, the account database,
    [df] or a quota tool; not the directory server, not the realm tool,
    not a password prompt. *)
Definition is_local_call (c : Call) : bool :=
  match c with
  | CMkdir _ | CChmod _ _ | CExists _ | CIsdir _ | CListdir _
  | CCopytree _ _ | CCopy2 _ _ | CGetpwnam _ | CChown _ _ _ | CWalk _ => true
  | CRun (tool :: _) => py_in tool ["df"; "xfs_quota"; "setquota"]
  | _ => false
  end.

(** A request to the directory server, or the prompt for its password. *)
Definition is_directory_call (c : Call) : bool :=
  match c with
  | CLdapBind _ _ _ | CLdapSearch _ | CLdapAdd _ | CLdapModify _ | CLdapList _ => true
  | CGetpass _ => true
  | _ => false
  end.

Definition no_quota_tool (c : Call) : bool := negb (is_quota_tool c).

(** An installation whose configured mode of home directories is no
    octal number. *)
Definition bad_mode_env : Env :=
  {| config :=
       {| ldap_server := "ldap://localhost:389";
          ldap_bind_dn := "cn=admin,dc=sch179,dc=local";
          ldap_bind_password := "ldap-secret";
          ldap_base_dn := "dc=sch179,dc=local";
          ldap_user_ou := "ou=people";
          ldap_group_ou := "ou=groups";
          krb_realm := "SCH179.LOCAL";
          krb_kadmin_principal := "admin/admin@SCH179.LOCAL";
          krb_kadmin_password := "kadmin-secret";
          krb_check_method := None;
          nfs_home_base := "/home";
          nfs_skel_dir := "/etc/skel";
          nfs_home_permissions := Some "rwxr-x---";
          quota_default_soft_limit := "100M";
          quota_default_hard_limit := "200M";
          quota_default_inode_soft_limit := "1000";
          quota_default_inode_hard_limit := "2000";
          quota_filesystem_type := None |};
     subprocess_run := fun _ _ => Ok (completed 0 "");
     getpass := fun _ _ => Ok "typed-secret";
     geteuid := 0;
     ldap_fault := fun _ _ => false;
     os_fault := fun _ _ => None;
     os_path_exists := fun _ _ => true;
     os_path_isdir := fun _ _ => false;
     os_listdir := fun _ _ => Ok [".bashrc"];
     os_walk := fun _ _ => [];
     getpwnam := fun _ _ => None;
     open_lines := fun _ _ => Ok [] |}.

(** The home directory path the checks and the home step work on. *)
Definition home_dir_of (env : Env) (username : string) : string :=
  PyStr.path_join (nfs_home_base (cfg env)) username.

(** A call made while the skeleton is copied. *)
Definition is_copy_call (c : Call) : bool :=
  match c with
  | CListdir _ | CIsdir _ | CCopytree _ _ | CCopy2 _ _ => true
  | _ => false
  end.

(** The operating system refuses nothing. *)
Definition calm_system (env : Env) : Prop :=
  (forall h c, os_fault env h c = None)
  /\ (forall h path, exists items, os_listdir env h path = Ok items).

(** The entry is there and carries a rendering. *)
Definition rendered (o : option QuotaEntry) : Prop :=
  exists e b i, o = Some e /\ quota_str e = Some (render b i).

(** [m] runs at most [n] quota-tool commands. *)
Definition quota_runs_at_most {A} (n : nat) (m : M A) : Prop :=
  forall w, exists issued,
    quota_tool_runs (history (snd (m w))) = (quota_tool_runs (history w) ++ issued)%list
    /\ (length issued <= n)%nat.

(** An entry of a listing without details: the directory attributes only. *)
Definition is_plain (info : UserInfo) : Prop :=
  ui_kerberos info = None /\ ui_home_dir info = None /\ ui_quota info = None.

(** ** Notions for the directory step *)

(** The directory server answers every request, and a password that has
    to be typed is typed. *)
Definition directory_up (env : Env) : Prop :=
  (forall h c, ldap_fault env h c = false)
  /\ (forall h text, exists typed, getpass env h text = Ok typed).

(** The values of the first [memberUid] attribute of an entry. *)
Definition member_uids (a : Attrs) : list string :=
  default [] (snd <$> find (fun p : string * list string => String.eqb (fst p) "memberUid") a).

(** The body of the loop over [groups] in [add_user_to_ldap]. *)
Definition join_group (env : Env) (username group_name : string) : M unit :=
  (if negb (String.eqb group_name username) then
     let group_dn := group_dn_of env group_name in
     group_found <- conn_search env group_dn ;;
     if group_found then
       conn_modify_add env group_dn "memberUid" username ;;;
       logger INFO ("Пользователь " ++ username ++ " добавлен в группу " ++ group_name)
     else ret tt
   else ret tt)%py.

(** The attributes [add_user_to_ldap] gives the primary group. *)
Definition group_attrs_of (uid : Z) (username : string) : Attrs :=
  [("objectClass", ["top"; "posixGroup"]);
   ("cn", [username]);
   ("gidNumber", [PyStr.str_of_Z uid]);
   ("memberUid", [username]);
   ("description", ["Primary group for user " ++ username])].

(** The attributes [add_user_to_ldap] gives the user entry. *)
Definition user_attrs_of (env : Env) (uid : Z) (username surname firstname : string)
    : Attrs :=
  [("objectClass", ["top"; "person"; "organizationalPerson"; "inetOrgPerson";
                    "posixAccount"; "shadowAccount"]);
   ("uid", [username]);
   ("uidNumber", [PyStr.str_of_Z uid]);
   ("gidNumber", [PyStr.str_of_Z uid]);
   ("cn", [firstname ++ " " ++ surname]);
   ("sn", [surname]);
   ("givenName", [firstname]);
   ("homeDirectory", [nfs_home_base (cfg env) ++ "/" ++ username]);
   ("loginShell", ["/bin/bash"]);
   ("description",
    ["User " ++ username ++ " (" ++ (firstname ++ " " ++ surname) ++ ")"])].

(** The directory after the primary group and the user entry were added
    to [d], where the user entry was not there. *)
Definition with_user (env : Env) (uid : Z) (username surname firstname : string)
    (d : gmap string Attrs) : gmap string Attrs :=
  <[user_dn_of env username := user_attrs_of env uid username surname firstname]>
    (match d !! group_dn_of env username with
     | Some _ => d
     | None => <[group_dn_of env username := group_attrs_of uid username]> d
     end).

(** Across [m] the directory moves along the relation [R]. *)
Definition evolves {A} (R : relation (gmap string Attrs)) (m : M A) : Prop :=
  forall w, R (directory w) (directory (snd (m w))).

(** From [d] to [d'] no entry is removed, and an entry whose name is not
    among [named] is left as it was. *)
Definition touches_only (named : string -> Prop) (d d' : gmap string Attrs) : Prop :=
  (forall dn, is_Some (d !! dn) -> is_Some (d' !! dn))
  /\ (forall dn, ~ named dn -> d' !! dn = d !! dn).

(** The entries the directory step may write for [username] and
    [groups]: the user's, the primary group's and the listed groups'. *)
Definition provisioned (env : Env) (username : string) (groups : list string)
    (dn : string) : Prop :=
  dn = user_dn_of env username
  \/ dn = group_dn_of env username
  \/ exists g, In g groups /\ dn = group_dn_of env g.

(** A directory that holds the group [students] and nothing else. *)
Definition students_only : World :=
  {| history := [];
     directory := {[ group_dn_of (sample_env None quiet_tool (Ok [])) "students"
                     := [("objectClass", ["top"; "posixGroup"]);
                         ("cn", ["students"]);
                         ("gidNumber", ["500"])] ]};
     log := [];
     entered := [] |}.

(** The values of attribute [name] in an entry. *)
Definition attr_of (name : string) (a : Attrs) : option (list string) :=
  snd <$> find (fun p : string * list string => String.eqb (fst p) name) a.

(** The filter [(objectClass=posixAccount)] of [list_users]. *)
Definition is_posix_account (a : Attrs) : bool :=
  existsb (fun q : string * list string =>
             String.eqb (fst q) "objectClass" && py_in "posixAccount" (snd q)) a.

(** From [a] to [a'] nothing changed but the members, and the members
    are those of [a], with [username] perhaps added. *)
Definition members_grow (username : string) (a a' : Attrs) : Prop :=
  is_posix_account a' = is_posix_account a
  /\ (forall name, name <> "memberUid" -> attr_of name a' = attr_of name a)
  /\ (forall v, In v (member_uids a) -> In v (member_uids a'))
  /\ (forall v, In v (member_uids a') -> v = username \/ In v (member_uids a)).

Definition entries_grow (username : string) (d d' : gmap string Attrs) : Prop :=
  forall dn a, d !! dn = Some a ->
    exists a', d' !! dn = Some a' /\ members_grow username a a'.

(** The entry has one value for [name]. *)
Definition has_one (name : string) (a : Attrs) : bool :=
  match attr_of name a with
  | Some [_] => true
  | _ => false
  end.

(** The entry has one value for each of the four attributes that
    [list_users] reads. *)
Definition listable (a : Attrs) : bool :=
  has_one "uid" a && has_one "uidNumber" a && has_one "cn" a && has_one "homeDirectory" a.

(** The directory is listable: its account entries carry the four
    attributes. *)
Definition accounts_listable (d : gmap string Attrs) : Prop :=
  forall dn a, d !! dn = Some a -> is_posix_account a = true -> listable a = true.

(** A directory that holds the account [alice] and nothing else. *)
Definition alice_only : World :=
  {| history := [];
     directory := {[ user_dn_of (sample_env None quiet_tool (Ok [])) "alice"
                     := user_attrs_of (sample_env None quiet_tool (Ok [])) 1001
                          "alice" "Ivanova" "Alice" ]};
     log := [];
     entered := [] |}.

(** Any call but a password prompt. *)
Definition no_prompt (c : Call) : bool :=
  match c with
  | CGetpass _ => false
  | _ => true
  end.

(** The first call [m] makes is [c], and every later one satisfies [P]. *)
Definition calls_first {A} (c : Call) (P : Call -> bool) (m : M A) : Prop :=
  forall w, exists rest,
    history (snd (m w)) = (history w ++ c :: rest)%list /\ forallb P rest = true.

(** The configuration [_create_default_config] writes: both passwords
    are empty, and no filesystem type is given. *)
Definition default_config : Config :=
  {| ldap_server := "ldap://localhost:389";
     ldap_bind_dn := "cn=admin,dc=sch179,dc=local";
     ldap_bind_password := "";
     ldap_base_dn := "dc=sch179,dc=local";
     ldap_user_ou := "ou=people";
     ldap_group_ou := "ou=groups";
     krb_realm := "SCH179.LOCAL";
     krb_kadmin_principal := "admin/admin@SCH179.LOCAL";
     krb_kadmin_password := "";
     krb_check_method := Some "kadmin";
     nfs_home_base := "/home";
     nfs_skel_dir := "/etc/skel";
     nfs_home_permissions := Some "750";
     quota_default_soft_limit := "100M";
     quota_default_hard_limit := "200M";
     quota_default_inode_soft_limit := "1000";
     quota_default_inode_hard_limit := "2000";
     quota_filesystem_type := None |}.

(** The sample installation under the default configuration. *)
Definition default_env : Env :=
  {| config := default_config;
     subprocess_run := fun _ _ => Ok (completed 0 "");
     getpass := fun _ _ => Ok "typed-secret";
     geteuid := 1000;
     ldap_fault := fun _ _ => false;
     os_fault := fun _ _ => None;
     os_path_exists := fun _ _ => false;
     os_path_isdir := fun _ _ => false;
     os_listdir := fun _ _ => Ok [];
     os_walk := fun _ _ => [];
     getpwnam := fun _ _ => None;
     open_lines := fun _ _ => Ok [] |}.
(** * Properties *)

(** ** The string primitives on examples *)

Example split_ws_ex :
  PyStr.split_ws "  alice 50M  100M 200M 1 " = ["alice"; "50M"; "100M"; "200M"; "1"].
Proof. reflexivity. Qed.

Example lines_of_ex : PyStr.lines_of (" a" ++ String PyStr.LF ("" ++ String PyStr.LF "b ")) = ["a"; ""; "b"].
Proof. reflexivity. Qed.

Example int_ex :
  (PyStr.int "1001", PyStr.int "-7", PyStr.int "1_000", PyStr.int "12a", PyStr.int "", PyStr.int "1__0", PyStr.int "+")
  = (Some 1001, Some (-7), Some 1000, None, None, None, None).
Proof. reflexivity. Qed.

Example int8_ex : (PyStr.int8 "750", PyStr.int8 "0o750", PyStr.int8 "758") = (Some 488, Some 488, None).
Proof. reflexivity. Qed.

Example str_of_Z_ex : (PyStr.str_of_Z 1001, PyStr.str_of_Z (-5), PyStr.str_of_Z 0) = ("1001", "-5", "0").
Proof. reflexivity. Qed.

Example path_join_ex :
  (PyStr.path_join "/home" "alice", PyStr.path_join "/home/" "alice", PyStr.path_join "/home" "/tmp/x")
  = ("/home/alice", "/home/alice", "/tmp/x").
Proof. reflexivity. Qed.


(** ** Reasoning about computations *)

Section Frames.

Context {S : Type} (proj : World -> S).

Lemma keeps_ret {A} (a : A) : keeps proj (ret a).
Proof. intros w. reflexivity. Qed.

Lemma keeps_raise {A} (e : exn) : keeps proj (@raise A e).
Proof. intros w. reflexivity. Qed.

Lemma keeps_lift {A} (r : result A) : keeps proj (lift r).
Proof. intros w. reflexivity. Qed.

Lemma keeps_of_option {A} (e : exn) (o : option A) : keeps proj (of_option e o).
Proof. destruct o; intros w; reflexivity. Qed.

Lemma keeps_bind {A B} (m : M A) (k : A -> M B) :
  keeps proj m -> (forall a, keeps proj (k a)) -> keeps proj (bind m k).
Proof.
  intros Hm Hk w. unfold bind. specialize (Hm w).
  destruct (m w) as [[a|e] w1]; simpl in *.
  - rewrite <- Hm. apply Hk.
  - exact Hm.
Qed.

Lemma keeps_try_except {A} (m : M A) (h : exn -> M A) :
  keeps proj m -> (forall e, keeps proj (h e)) -> keeps proj (try_except m h).
Proof.
  intros Hm Hh w. unfold try_except. specialize (Hm w).
  destruct (m w) as [[a|e] w1]; simpl in *.
  - exact Hm.
  - rewrite <- Hm. apply Hh.
Qed.

Lemma keeps_try_except_only {A} (cls : exn) (m h : M A) :
  keeps proj m -> keeps proj h -> keeps proj (try_except_only cls m h).
Proof.
  intros Hm Hh. apply keeps_try_except; [exact Hm|].
  intros e. destruct (decide (e = cls)); [exact Hh | apply keeps_raise].
Qed.

Lemma keeps_for_each {A} (l : list A) (body : A -> M unit) :
  (forall x, keeps proj (body x)) -> keeps proj (for_each l body).
Proof.
  intros Hb. induction l as [|x l IH]; simpl.
  - apply keeps_ret.
  - apply keeps_bind; [apply Hb | intros _; exact IH].
Qed.

End Frames.

Lemma ask_keeps_entered {A} c (f : list Call -> result A) : keeps entered (ask c f).
Proof. intros w. reflexivity. Qed.

Lemma ask_keeps_directory {A} c (f : list Call -> result A) : keeps directory (ask c f).
Proof. intros w. reflexivity. Qed.

Lemma logger_keeps_entered l msg : keeps entered (logger l msg).
Proof. intros w. reflexivity. Qed.

Lemma logger_keeps_directory l msg : keeps directory (logger l msg).
Proof. intros w. reflexivity. Qed.

Lemma logger_keeps_history l msg : keeps history (logger l msg).
Proof. intros w. reflexivity. Qed.

Lemma enter_keeps_directory e : keeps directory (enter e).
Proof. intros w. reflexivity. Qed.

Lemma enter_keeps_history e : keeps history (enter e).
Proof. intros w. reflexivity. Qed.

Lemma get_directory_keeps {S} (proj : World -> S) : keeps proj get_directory.
Proof. intros w. reflexivity. Qed.

Lemma set_directory_keeps_entered d : keeps entered (set_directory d).
Proof. intros w. reflexivity. Qed.

(** Break a computation down along its syntax, closing the leaves with
    the lemmas above. *)
Ltac frame_step :=
  first
    [ apply keeps_ret | apply keeps_raise | apply keeps_lift | apply keeps_of_option
    | apply ask_keeps_entered | apply ask_keeps_directory
    | apply logger_keeps_entered | apply logger_keeps_directory | apply logger_keeps_history
    | apply enter_keeps_directory | apply enter_keeps_history
    | apply get_directory_keeps | apply set_directory_keeps_entered
    | apply keeps_bind; [| intros ]
    | apply keeps_try_except_only
    | apply keeps_try_except; [| intros ]
    | apply keeps_for_each; intros
    | match goal with
      | |- keeps _ (if ?b then _ else _) => destruct b
      | |- keeps _ (match ?x with _ => _ end) => destruct x
      | |- keeps _ (let _ := _ in _) => cbv zeta
      end ].

Ltac frame := repeat frame_step.

Section StepFrames.

Variable env : Env.

Lemma run_keeps_entered cmd : keeps entered (run env cmd).
Proof. unfold run. frame. Qed.

Lemma run_keeps_directory cmd : keeps directory (run env cmd).
Proof. unfold run. frame. Qed.

Lemma ldap_call_keeps_entered c : keeps entered (ldap_call env c).
Proof. unfold ldap_call. frame. Qed.

Lemma os_call_keeps_entered c : keeps entered (os_call env c).
Proof. unfold os_call. frame. Qed.

Lemma os_call_keeps_directory c : keeps directory (os_call env c).
Proof. unfold os_call. frame. Qed.

Lemma conn_search_keeps_entered dn : keeps entered (conn_search env dn).
Proof. unfold conn_search, ldap_call. frame. Qed.

Lemma conn_search_keeps_directory dn : keeps directory (conn_search env dn).
Proof. unfold conn_search, ldap_call. frame. Qed.

Lemma conn_add_keeps_entered dn a : keeps entered (conn_add env dn a).
Proof. unfold conn_add, ldap_call. frame. Qed.

Lemma conn_modify_add_keeps_entered dn n v : keeps entered (conn_modify_add env dn n v).
Proof. unfold conn_modify_add, ldap_call. frame. Qed.

Lemma get_ldap_connection_keeps_entered : keeps entered (_get_ldap_connection env).
Proof. unfold _get_ldap_connection, prompt, ldap_call. frame. Qed.

Lemma get_ldap_connection_keeps_directory : keeps directory (_get_ldap_connection env).
Proof. unfold _get_ldap_connection, prompt, ldap_call. frame. Qed.

Lemma get_kadmin_password_keeps_entered : keeps entered (_get_kadmin_password env).
Proof. unfold _get_kadmin_password, prompt. frame. Qed.

Lemma get_kadmin_password_keeps_directory : keeps directory (_get_kadmin_password env).
Proof. unfold _get_kadmin_password, prompt. frame. Qed.

Lemma get_filesystem_type_keeps_entered path : keeps entered (get_filesystem_type env path).
Proof. unfold get_filesystem_type, run. frame. Qed.

Lemma get_filesystem_type_keeps_directory path : keeps directory (get_filesystem_type env path).
Proof. unfold get_filesystem_type, run. frame. Qed.

Lemma quota_filesystem_keeps_entered : keeps entered (quota_filesystem env).
Proof. unfold quota_filesystem. frame; apply get_filesystem_type_keeps_entered. Qed.

Lemma quota_filesystem_keeps_directory : keeps directory (quota_filesystem env).
Proof. unfold quota_filesystem. frame; apply get_filesystem_type_keeps_directory. Qed.

End StepFrames.

Ltac frame_env :=
  repeat first
    [ frame_step
    | apply run_keeps_entered | apply run_keeps_directory
    | apply ldap_call_keeps_entered
    | apply os_call_keeps_entered | apply os_call_keeps_directory
    | apply conn_search_keeps_entered | apply conn_search_keeps_directory
    | apply conn_add_keeps_entered | apply conn_modify_add_keeps_entered
    | apply get_ldap_connection_keeps_entered | apply get_ldap_connection_keeps_directory
    | apply get_kadmin_password_keeps_entered | apply get_kadmin_password_keeps_directory
    | apply quota_filesystem_keeps_entered | apply quota_filesystem_keeps_directory ].

Lemma bind_returns {A B} (m : M A) (k : A -> M B) w a w1 :
  m w = (Ok a, w1) -> bind m k w = k a w1.
Proof. intros E. unfold bind. rewrite E. reflexivity. Qed.

Lemma bind_raises {A B} (m : M A) (k : A -> M B) w e w1 :
  m w = (Raise e, w1) -> bind m k w = (Raise e, w1).
Proof. intros E. unfold bind. rewrite E. reflexivity. Qed.

(** ** The four steps return, and each is entered once *)

Section Steps.

Variable env : Env.

(** A step is [enter] followed by a body under [except Exception]: it
    returns whatever the body does. *)
Lemma guarded_step (s : Step) (username : string) (body : M bool) (h : exn -> M bool) :
  keeps entered body ->
  (forall e, keeps entered (h e)) ->
  (forall e, total (h e)) ->
  forall w, exists b w',
    (enter (EnterStep s username) ;;; try_except body h)%py w = (Ok b, w')
    /\ entered w' = (entered w ++ [EnterStep s username])%list.
Proof.
  intros Hb Hk Ht w. unfold bind, enter, try_except.
  set (w0 := {| history := history w; directory := directory w; log := log w;
                entered := (entered w ++ [EnterStep s username])%list |}).
  specialize (Hb w0). destruct (body w0) as [[b|e] w1]; simpl in Hb.
  - exists b, w1. split; [reflexivity | exact Hb].
  - destruct (Ht e w1) as (b & w2 & E). specialize (Hk e w1).
    rewrite E in Hk. simpl in Hk. exists b, w2. split; [exact E | congruence].
Qed.

Lemma complaint_total (msg : string) (b : bool) : total (logger ERROR msg ;;; ret b)%py.
Proof. intros w. eexists. eexists. reflexivity. Qed.

Lemma add_user_to_ldap_returns uid username surname firstname groups w :
  exists b w',
    add_user_to_ldap env uid username surname firstname groups w = (Ok b, w')
    /\ entered w' = (entered w ++ [EnterStep ldap username])%list.
Proof.
  unfold add_user_to_ldap. apply guarded_step.
  - frame_env.
  - intros e. frame_env.
  - intros e. apply complaint_total.
Qed.

Lemma add_user_to_kerberos_returns username password w :
  exists b w',
    add_user_to_kerberos env username password w = (Ok b, w')
    /\ entered w' = (entered w ++ [EnterStep kerberos username])%list.
Proof.
  unfold add_user_to_kerberos. apply guarded_step.
  - frame_env.
  - intros e. frame_env.
  - intros e. apply complaint_total.
Qed.

Lemma create_home_directory_returns username w :
  exists b w',
    create_home_directory env username w = (Ok b, w')
    /\ entered w' = (entered w ++ [EnterStep home username])%list.
Proof.
  unfold create_home_directory. apply guarded_step.
  - frame_env.
  - intros e. frame_env.
  - intros e. apply complaint_total.
Qed.

Lemma set_user_quota_returns username w :
  exists b w',
    set_user_quota env username w = (Ok b, w')
    /\ entered w' = (entered w ++ [EnterStep quota username])%list.
Proof.
  unfold set_user_quota. apply guarded_step.
  - frame_env.
  - intros e. frame_env.
  - intros e. apply complaint_total.
Qed.

Lemma add_user_to_kerberos_keeps_directory username password :
  keeps directory (add_user_to_kerberos env username password).
Proof. unfold add_user_to_kerberos. frame_env. Qed.

Lemma create_home_directory_keeps_directory username :
  keeps directory (create_home_directory env username).
Proof. unfold create_home_directory. frame_env. Qed.

Lemma set_user_quota_keeps_directory username :
  keeps directory (set_user_quota env username).
Proof. unfold set_user_quota. frame_env. Qed.

End Steps.

(** ** The shape of a workflow run *)

Section WorkflowShape.

Variable env : Env.

Lemma run_step_returns steps (s : Step) username (operation : M bool) complaint results :
  (forall w, exists b w',
      operation w = (Ok b, w')
      /\ entered w' = (entered w ++ [EnterStep s username])%list) ->
  forall w, exists b w',
    run_step steps (step_name s) operation complaint results w
      = (Ok (results ++ outcome steps (step_name s) b)%list, w')
    /\ entered w' = (entered w ++ entry_of steps s username)%list.
Proof.
  intros Hop w. unfold run_step, outcome, entry_of.
  destruct (py_in (step_name s) steps).
  - destruct (Hop w) as (b & w1 & E & He).
    rewrite (bind_returns _ _ _ _ _ E).
    exists b. destruct b; simpl.
    + exists w1. split; [reflexivity | exact He].
    + eexists. split; [reflexivity | exact He].
  - exists true, w. rewrite !app_nil_r. split; reflexivity.
Qed.

Lemma no_failed_steps (results : StepResults) :
  map fst (filter (fun p : string * bool => negb (snd p)) results) = []
  <-> forallb snd results = true.
Proof.
  induction results as [|[name b] results IH].
  - split; reflexivity.
  - rewrite filter_cons. destruct b; simpl.
    + exact IH.
    + split; discriminate.
Qed.

Lemma requested_unfold steps :
  requested steps =
    ((if py_in "ldap" (default default_steps steps) then [ldap] else [])
     ++ (if py_in "kerberos" (default default_steps steps) then [kerberos] else [])
     ++ (if py_in "home" (default default_steps steps) then [home] else [])
     ++ (if py_in "quota" (default default_steps steps) then [quota] else []))%list.
Proof.
  unfold requested, all_steps. simpl.
  destruct (py_in "ldap" _), (py_in "kerberos" _), (py_in "home" _), (py_in "quota" _);
    reflexivity.
Qed.

(** A run of [add_user] returns; it enters the workflow and then the
    requested steps in the order of the code; [results] holds an outcome
    for each of them and for nothing else; the value returned tells
    whether all of them succeeded. *)
Lemma add_user_results_shape uid groups username surname firstname password steps w :
  exists results w',
    add_user_results env uid groups username surname firstname password steps w
      = (Ok (results, forallb snd results), w')
    /\ entered w'
       = (entered w
          ++ workflow_entries uid groups username surname firstname password steps)%list
    /\ map fst results = map step_name (requested steps).
Proof.
  unfold add_user_results.
  set (l := default default_steps steps).
  set (group_list := map PyStr.strip (PyStr.split_on "," groups)).
  unfold bind at 1. unfold enter at 1. cbv iota beta.
  unfold bind at 1. unfold logger at 1. cbv iota beta.
  match goal with |- context [bind _ _ ?w0] => set (w1 := w0) end.
  do 4 (match goal with
        | |- context [bind (run_step ?l' ?n ?op ?c ?r) _ ?w0] =>
            let b := fresh "b" in
            let w' := fresh "w" in
            let E := fresh "E" in
            let H := fresh "H" in
            first
              [ destruct (run_step_returns l' ldap username op c r
                            (add_user_to_ldap_returns env _ _ _ _ _) w0)
                  as (b & w' & E & H)
              | destruct (run_step_returns l' kerberos username op c r
                            (add_user_to_kerberos_returns env _ _) w0)
                  as (b & w' & E & H)
              | destruct (run_step_returns l' home username op c r
                            (create_home_directory_returns env _) w0)
                  as (b & w' & E & H)
              | destruct (run_step_returns l' quota username op c r
                            (set_user_quota_returns env _) w0)
                  as (b & w' & E & H) ];
            rewrite (bind_returns _ _ _ _ _ E); clear E
        end).
  match goal with |- context [ret (?r, false)] => set (results := r) end.
  match goal with
  | Hq : entered ?wq = (_ ++ entry_of l quota username)%list |- _ => rename wq into w5
  end.
  assert (Hent : entered w5
                 = (entered w
                    ++ workflow_entries uid groups username surname firstname password
                         steps)%list).
  { repeat match goal with
           | Hq : entered _ = (_ ++ entry_of l _ username)%list |- _ => rewrite Hq; clear Hq
           end.
    subst w1. simpl.
    unfold workflow_entries. rewrite requested_unfold. fold l.
    unfold entry_of. simpl.
    rewrite <- !app_assoc. simpl. f_equal. f_equal.
    destruct (py_in "ldap" l), (py_in "kerberos" l), (py_in "home" l), (py_in "quota" l);
      reflexivity. }
  assert (Hkeys : map fst results = map step_name (requested steps)).
  { subst results. rewrite requested_unfold. fold l. unfold outcome. simpl.
    destruct (py_in "ldap" l), (py_in "kerberos" l), (py_in "home" l), (py_in "quota" l);
      reflexivity. }
  exists results.
  destruct (map fst (filter (fun p : string * bool => negb (snd p)) results)) eqn:Ef.
  - apply no_failed_steps in Ef. rewrite Ef.
    eexists. split; [reflexivity|]. split; [exact Hent | exact Hkeys].
  - assert (Hf : forallb snd results = false).
    { destruct (forallb snd results) eqn:Eb; [|reflexivity].
      apply no_failed_steps in Eb. congruence. }
    rewrite Hf. eexists. split; [reflexivity|]. split; [exact Hent | exact Hkeys].
Qed.

End WorkflowShape.

Lemma py_in_In (x : string) (l : list string) : py_in x l = true <-> In x l.
Proof.
  unfold py_in. rewrite existsb_exists. split.
  - intros (y & Hy & E). apply String.eqb_eq in E. subst. exact Hy.
  - intros H. exists x. split; [exact H | apply String.eqb_refl].
Qed.

Lemma step_name_inj (s t : Step) : step_name s = step_name t -> s = t.
Proof. destruct s, t; simpl; intros H; first [reflexivity | discriminate H]. Qed.

Lemma requested_In (steps : option (list string)) (s : Step) :
  In s (requested steps) <-> py_in (step_name s) (default default_steps steps) = true.
Proof.
  unfold requested. rewrite filter_In. split.
  - intros [_ H]. exact H.
  - intros H. split; [destruct s; simpl; tauto | exact H].
Qed.

Lemma requested_sublist (steps : option (list string)) :
  sublist (requested steps) all_steps.
Proof.
  unfold requested. generalize all_steps.
  induction l as [|s l IH]; simpl.
  - constructor.
  - destruct (py_in _ _); constructor; exact IH.
Qed.

Lemma add_user_of_results env uid groups username surname firstname password steps w r w' :
  add_user_results env uid groups username surname firstname password steps w = (Ok r, w') ->
  add_user env uid groups username surname firstname password steps w = (Ok (snd r), w').
Proof. intros E. unfold add_user. rewrite (bind_returns _ _ _ _ _ E). reflexivity. Qed.

Lemma some_step_failed (results : list (string * bool)) :
  forallb snd results = false -> exists name, In (name, false) results.
Proof.
  induction results as [|[name b] results IH]; simpl.
  - discriminate.
  - destruct b; simpl.
    + intros H. destruct (IH H) as (n & Hn). exists n. right. exact Hn.
    + intros _. exists name. left. reflexivity.
Qed.

(** ** Claims about the workflow *)


(** C3, as the code has it.  The steps run in the order ldap, kerberos,
    home, quota, whatever the order of the [steps] list; a step runs when
    its name is in the list and only then; [results] holds an outcome for
    each step that ran, in that order, and no entry at all for a step
    that was not listed. *)
Theorem add_user_runs_steps_in_order
    env uid groups username surname firstname password steps w :
  exists results overall w',
    add_user_results env uid groups username surname firstname password steps w
      = (Ok (results, overall), w')
    /\ entered w'
       = (entered w
          ++ EnterAddUser uid groups username surname firstname password steps
             :: map (fun s => EnterStep s username) (requested steps))%list
    /\ sublist (requested steps) [ldap; kerberos; home; quota]
    /\ (forall s, In s (requested steps)
                  <-> In (step_name s) (default default_steps steps))
    /\ map fst results = map step_name (requested steps)
    /\ (forall s, ~ In (step_name s) (default default_steps steps) ->
          ~ In (step_name s) (map fst results)).
Proof.
  destruct (add_user_results_shape env uid groups username surname firstname password steps w)
    as (results & w' & E & Hent & Hkeys).
  exists results, (forallb snd results), w'.
  split; [exact E|]. split; [exact Hent|]. split; [apply requested_sublist|].
  split; [|split; [exact Hkeys|]].
  - intros s. rewrite requested_In. apply py_in_In.
  - intros s Hs Hin. rewrite Hkeys in Hin. apply in_map_iff in Hin.
    destruct Hin as (t & Ht & Hreq). apply step_name_inj in Ht. subst t.
    apply requested_In, py_in_In in Hreq. exact (Hs Hreq).
Qed.

(** C3 as the claim states it fails: with only [home] listed, the
    results hold [home] alone; the three other steps are not in them,
    neither as skipped nor otherwise. *)
Lemma unlisted_steps_are_not_recorded :
  exists w',
    add_user_results (sample_env (Some "xfs") quiet_tool (Ok []))
      1001 "students" "alice" "Ivanova" "Alice" "secret123" (Some ["home"]) initial_world
    = (Ok ([("home", true)], true), w')
    /\ ~ In "ldap" (map fst [("home", true)])
    /\ ~ In "kerberos" (map fst [("home", true)])
    /\ ~ In "quota" (map fst [("home", true)]).
Proof.
  eexists. split; [vm_compute; reflexivity|].
  simpl. repeat split; intros [H|[]]; discriminate H.
Qed.

(** C9.  With an empty [steps] list, or one that names none of the four
    steps, [add_user] enters no step, calls nothing outside, leaves the
    directory alone, ends with an empty [results] and returns [True]. *)
Theorem add_user_without_known_steps
    env uid groups username surname firstname password (steps : list string) w :
  (forall name, In name steps -> ~ In name default_steps) ->
  exists w',
    add_user_results env uid groups username surname firstname password (Some steps) w
      = (Ok ([], true), w')
    /\ add_user env uid groups username surname firstname password (Some steps) w
       = (Ok true, w')
    /\ entered w'
       = (entered w
          ++ [EnterAddUser uid groups username surname firstname password (Some steps)])%list
    /\ history w' = history w
    /\ directory w' = directory w.
Proof.
  intros Hnone.
  assert (Hno : forall name, In name default_steps -> py_in name steps = false).
  { intros name Hd. apply not_true_is_false. intros Hin. apply py_in_In in Hin.
    exact (Hnone _ Hin Hd). }
  assert (H1 := Hno "ldap" ltac:(simpl; tauto)).
  assert (H2 := Hno "kerberos" ltac:(simpl; tauto)).
  assert (H3 := Hno "home" ltac:(simpl; tauto)).
  assert (H4 := Hno "quota" ltac:(simpl; tauto)).
  unfold add_user, add_user_results, run_step. simpl default.
  unfold bind, enter, logger, ret. rewrite H1, H2, H3, H4. simpl.
  eexists. repeat split; reflexivity.
Qed.

Lemma add_user_without_known_steps_witness :
  exists w',
    add_user_results (sample_env (Some "xfs") missing_tool (Ok []))
      1001 "students" "alice" "Ivanova" "Alice" "secret123" (Some ["backup"; "mail"])
      initial_world
    = (Ok ([], true), w')
    /\ history w' = [].
Proof.
  destruct (add_user_without_known_steps (sample_env (Some "xfs") missing_tool (Ok []))
              1001 "students" "alice" "Ivanova" "Alice" "secret123" ["backup"; "mail"]
              initial_world) as (w' & E & _ & _ & Hh & _).
  - intros name [<-|[<-|[]]]; simpl; intros H;
      repeat (destruct H as [H|H]; [discriminate H|]); exact H.
  - exists w'. split; [exact E | exact Hh].
Defined.

(** ** Re-provisioning an existing user *)

Section Existing.

Variable env : Env.

Lemma run_step_keeps_directory steps name (operation : M bool) complaint results :
  keeps directory operation ->
  keeps directory (run_step steps name operation complaint results).
Proof. intros H. unfold run_step. frame. exact H. Qed.

(** Where the user entry exists, the directory step stops at its
    existence check (or at a failing connection): it returns [False] and
    writes nothing to the directory. *)
Lemma add_user_to_ldap_existing uid username surname firstname groups w :
  is_Some (directory w !! user_dn_of env username) ->
  exists w',
    add_user_to_ldap env uid username surname firstname groups w = (Ok false, w')
    /\ directory w' = directory w.
Proof.
  intros Hex.
  unfold add_user_to_ldap.
  unfold bind at 1. unfold enter at 1. cbv iota beta.
  unfold try_except.
  match goal with |- context [bind _ _ ?w0] => set (w1 := w0) end.
  assert (Hd1 : directory w1 = directory w) by reflexivity.
  clearbody w1.
  unfold bind at 1.
  pose proof (get_ldap_connection_keeps_directory env w1) as Hc.
  destruct (_get_ldap_connection env w1) as [[[]|e] w2]; simpl in Hc.
  - unfold conn_search, ldap_call. unfold bind at 1. unfold bind at 1. unfold ask at 1.
    destruct (ldap_fault env (history w2) _); cbv iota beta.
    + eexists. split; [reflexivity|]. simpl. congruence.
    + unfold bind at 1. unfold get_directory at 1. cbv iota beta. unfold ret at 1.
      cbv iota beta. simpl directory.
      rewrite Hc, Hd1. rewrite (bool_decide_eq_true_2 _ Hex).
      eexists. split; [reflexivity|]. simpl. congruence.
  - eexists. split; [reflexivity|]. simpl. congruence.
Qed.

(** The rest of the workflow after the directory step has returned. *)
Lemma add_user_results_after_ldap
    uid groups username surname firstname password steps w b1 w2 :
  In "ldap" (default default_steps steps) ->
  add_user_to_ldap env uid username surname firstname
    (map PyStr.strip (PyStr.split_on "," groups))
    (snd ((enter (EnterAddUser uid groups username surname firstname password steps) ;;;
           logger INFO ("Начинаем добавление пользователя " ++ username))%py w))
    = (Ok b1, w2) ->
  exists results w',
    add_user_results env uid groups username surname firstname password steps w
      = (Ok (("ldap", b1) :: results, b1 && forallb snd results), w')
    /\ directory w' = directory w2.
Proof.
  intros Hin E1. apply py_in_In in Hin.
  unfold add_user_results.
  set (l := default default_steps steps) in *.
  unfold bind at 1. unfold enter at 1. cbv iota beta.
  unfold bind at 1. unfold logger at 1. cbv iota beta.
  unfold run_step at 1. rewrite Hin.
  unfold bind at 1. unfold bind at 1.
  match goal with
  | |- context [add_user_to_ldap env uid username surname firstname ?g ?w0] =>
      replace (add_user_to_ldap env uid username surname firstname g w0)
        with (Ok b1, w2) by (rewrite <- E1; reflexivity)
  end.
  set (complain := if negb b1 then logger ERROR _ else ret tt).
  assert (Hc : exists w3, complain w2 = (Ok tt, w3) /\ directory w3 = directory w2).
  { subst complain. destruct b1; eexists; split; reflexivity. }
  destruct Hc as (w3 & Ec & Hd3). unfold bind at 1. rewrite Ec. unfold ret at 1.
  cbv iota beta.
  match goal with
  | |- context [bind (run_step ?l' ?n ?op ?c ?r) _ ?w0] =>
      destruct (run_step_returns l' kerberos username op c r
                  (add_user_to_kerberos_returns env _ _) w0) as (b2 & w4 & E2 & _);
      pose proof (run_step_keeps_directory l' (step_name kerberos) op c r
                    (add_user_to_kerberos_keeps_directory env _ _) w0) as Hd4;
      rewrite E2 in Hd4; simpl in Hd4; rewrite (bind_returns _ _ _ _ _ E2); clear E2
  end.
  match goal with
  | |- context [bind (run_step ?l' ?n ?op ?c ?r) _ ?w0] =>
      destruct (run_step_returns l' home username op c r
                  (create_home_directory_returns env _) w0) as (b3 & w5 & E3 & _);
      pose proof (run_step_keeps_directory l' (step_name home) op c r
                    (create_home_directory_keeps_directory env _) w0) as Hd5;
      rewrite E3 in Hd5; simpl in Hd5; rewrite (bind_returns _ _ _ _ _ E3); clear E3
  end.
  match goal with
  | |- context [bind (run_step ?l' ?n ?op ?c ?r) _ ?w0] =>
      destruct (run_step_returns l' quota username op c r
                  (set_user_quota_returns env _) w0) as (b4 & w6 & E4 & _);
      pose proof (run_step_keeps_directory l' (step_name quota) op c r
                    (set_user_quota_keeps_directory env _) w0) as Hd6;
      rewrite E4 in Hd6; simpl in Hd6; rewrite (bind_returns _ _ _ _ _ E4); clear E4
  end.
  match goal with |- context [ret (?r, false)] => set (results := r) end.
  assert (Hr : results
               = ("ldap", b1)
                 :: (outcome l "kerberos" b2 ++ outcome l "home" b3
                     ++ outcome l "quota" b4)%list).
  { subst results. simpl. rewrite <- !app_assoc. reflexivity. }
  exists (outcome l "kerberos" b2 ++ outcome l "home" b3 ++ outcome l "quota" b4)%list.
  assert (Hv : forallb snd results
               = b1 && forallb snd (outcome l "kerberos" b2 ++ outcome l "home" b3
                                    ++ outcome l "quota" b4)%list).
  { rewrite Hr. reflexivity. }
  rewrite <- Hv, <- Hr.
  assert (Hdir : directory w6 = directory w2) by congruence.
  destruct (map fst (filter (fun p : string * bool => negb (snd p)) results)) eqn:Ef.
  - apply no_failed_steps in Ef. rewrite Ef.
    eexists. split; [reflexivity | exact Hdir].
  - assert (Hf : forallb snd results = false).
    { destruct (forallb snd results) eqn:Eb; [|reflexivity].
      apply no_failed_steps in Eb. congruence. }
    rewrite Hf. eexists. split; [reflexivity | exact Hdir].
Qed.

End Existing.




(** ** The credential check *)

Section Credential.

Variable env : Env.

Lemma check_getprinc_unfold principal cmd w :
  check_getprinc env principal cmd w
  = (match subprocess_run env (history w) cmd with
     | Ok result =>
         Ok ((returncode result =? 0)
             && PyStr.contains (principal_marker principal) (stdout result))
     | Raise e => Raise e
     end, called (CRun cmd) w).
Proof.
  unfold check_getprinc, run, bind, ask, ret, called.
  destruct (subprocess_run env (history w) cmd); reflexivity.
Qed.

(** What the check returns once the tool's command line is known. *)
Lemma check_getprinc_guarded principal cmd w :
  is_getprinc principal cmd ->
  exists b,
    try_except (check_getprinc env principal cmd) (fun _ => ret false) w
    = (Ok b, called (CRun cmd) w)
    /\ (b = true <->
        exists h cmd' out err,
          history (called (CRun cmd) w) = (h ++ [CRun cmd'])%list
          /\ is_getprinc principal cmd'
          /\ subprocess_run env h cmd'
             = Ok {| returncode := 0; stdout := out; stderr := err |}
          /\ PyStr.contains (principal_marker principal) out = true).
Proof.
  intros Hcmd. unfold try_except. rewrite check_getprinc_unfold.
  destruct (subprocess_run env (history w) cmd) as [[rc out err]|e] eqn:Er; simpl.
  - eexists. split; [reflexivity|]. split.
    + intros Hb. apply andb_true_iff in Hb. destruct Hb as [Hrc Hout].
      apply Z.eqb_eq in Hrc. subst rc.
      exists (history w), cmd, out, err. repeat split; try assumption; apply Hcmd.
    + intros (h & cmd' & out' & err' & Hh & _ & Hrun & Hout).
      apply app_inj_tail in Hh. destruct Hh as [<- Hc]. injection Hc as <-.
      rewrite Er in Hrun. injection Hrun as -> -> ->. rewrite Hout. reflexivity.
  - exists false. split; [reflexivity|]. split; [discriminate|].
    intros (h & cmd' & out' & err' & Hh & _ & Hrun & _).
    apply app_inj_tail in Hh. destruct Hh as [<- Hc]. injection Hc as <-.
    rewrite Er in Hrun. discriminate Hrun.
Qed.

End Credential.

(** C7.  [check_kerberos_principal] always returns, and it returns
    [True] exactly when its last act was a run of the realm tool for the
    principal [username@REALM] that exited with zero and printed the
    marker [Principal: username@REALM]; an exit code of zero without the
    marker, a non-zero exit code and any exception all give [False].  The
    check enters no step and leaves the directory alone. *)
Theorem check_kerberos_principal_spec env username w :
  exists b w',
    check_kerberos_principal env username w = (Ok b, w')
    /\ (b = true <->
        exists h cmd out err,
          history w' = (h ++ [CRun cmd])%list
          /\ is_getprinc (username ++ "@" ++ krb_realm (config env)) cmd
          /\ subprocess_run env h cmd
             = Ok {| returncode := 0; stdout := out; stderr := err |}
          /\ PyStr.contains ("Principal: " ++ username ++ "@" ++ krb_realm (config env)) out
             = true)
    /\ entered w' = entered w
    /\ directory w' = directory w.
Proof.
  unfold check_kerberos_principal. fold (cfg env).
  set (principal := username ++ "@" ++ krb_realm (cfg env)).
  fold (principal_marker principal).
  destruct (String.eqb (default "kadmin" (krb_check_method (cfg env))) "kadmin.local"
            && (geteuid env =? 0)).
  - destruct (check_getprinc_guarded env principal
                ["kadmin.local"; "-q"; "getprinc " ++ principal] w) as (b & E & Hb).
    { split; [right; reflexivity | reflexivity]. }
    exists b. eexists. split; [exact E|]. split; [exact Hb|]. split; reflexivity.
  - unfold _get_kadmin_password, prompt.
    destruct (String.eqb (krb_kadmin_password (cfg env)) "") eqn:Epw.
    + unfold try_except, bind, ask.
      destruct (getpass env (history w) _) as [pw|e] eqn:Eg.
      * set (w1 := {| history := _; directory := _; log := _; entered := _ |}).
        destruct (check_getprinc_guarded env principal
                    ["kadmin"; "-p"; krb_kadmin_principal (cfg env); "-w"; pw;
                     "-q"; "getprinc " ++ principal] w1) as (b & E & Hb).
        { split; [left; reflexivity | reflexivity]. }
        unfold try_except in E.
        destruct (check_getprinc env principal _ w1) as [[b'|e'] w2].
        -- injection E as -> ->. exists b. eexists.
           split; [reflexivity|]. split; [exact Hb|]. split; reflexivity.
        -- unfold ret in E. injection E as <- ->. exists false. eexists.
           split; [reflexivity|]. split; [exact Hb|]. split; reflexivity.
      * exists false. eexists. split; [reflexivity|]. split; [|split; reflexivity].
        split; [discriminate|]. simpl.
        intros (h & cmd & out & err & Hh & _).
        apply app_inj_tail in Hh. destruct Hh as [_ Hc]. discriminate Hc.
    + destruct (check_getprinc_guarded env principal
                  ["kadmin"; "-p"; krb_kadmin_principal (cfg env); "-w";
                   krb_kadmin_password (cfg env); "-q"; "getprinc " ++ principal] w)
        as (b & E & Hb).
      { split; [left; reflexivity | reflexivity]. }
      exists b. eexists. split; [exact E|]. split; [exact Hb|]. split; reflexivity.
Qed.

(** ** Quota tool invocations *)

Section Invocations.

Variable env : Env.

Lemma get_filesystem_type_returns path w :
  exists fs,
    get_filesystem_type env path w = (Ok fs, called (CRun ["df"; "-T"; path]) w).
Proof.
  unfold get_filesystem_type, try_except, bind, run, ask, called.
  destruct (subprocess_run env (history w) _) as [r|e].
  - destruct (returncode r =? 0); [|eexists; reflexivity].
    destruct (PyStr.lines_of (stdout r)) as [|l0 [|l1 ls]]; try (eexists; reflexivity).
    destruct (PyStr.split_ws l1) as [|p0 [|p1 ps]]; try (eexists; reflexivity).
    destruct (py_in _ _); eexists; reflexivity.
  - eexists. reflexivity.
Qed.

(** Resolving the filesystem type returns, and runs no quota tool. *)
Lemma quota_filesystem_returns w :
  exists fs w0,
    quota_filesystem env w = (Ok fs, w0)
    /\ quota_tool_runs (history w0) = quota_tool_runs (history w).
Proof.
  assert (Hdetect : exists fs w0,
             get_filesystem_type env (nfs_home_base (cfg env)) w = (Ok fs, w0)
             /\ quota_tool_runs (history w0) = quota_tool_runs (history w)).
  { destruct (get_filesystem_type_returns (nfs_home_base (cfg env)) w) as (fs & E).
    exists fs. eexists. split; [exact E|].
    unfold quota_tool_runs, called. simpl. rewrite List.filter_app. simpl.
    apply app_nil_r. }
  unfold quota_filesystem.
  destruct (quota_filesystem_type (cfg env)) as [t|]; [|exact Hdetect].
  destruct (String.eqb t ""); [exact Hdetect|].
  exists t, w. split; reflexivity.
Qed.

End Invocations.



(** Whatever the tools do, a call runs at most two quota-tool commands,
    a prefix of the commands above. *)
Lemma get_all_quotas_at_most_two env w :
  exists quotas w' issued,
    get_all_quotas env w = (Ok quotas, w')
    /\ quota_tool_runs (history w') = (quota_tool_runs (history w) ++ issued)%list
    /\ (length issued <= 2)%nat.
Proof.
  destruct (quota_filesystem_returns env w) as (fs & w0 & Efs & Hq).
  unfold get_all_quotas, try_except. rewrite (bind_returns _ _ _ _ _ Efs).
  unfold quota_tool_runs in *.
  destruct (is_xfs fs).
  - unfold bind at 1. unfold run at 1. unfold ask at 1.
    destruct (subprocess_run env (history w0) (cmd_blocks env)) as [rb|e].
    + unfold bind at 1. unfold run at 1. unfold ask at 1. cbv iota beta. simpl history.
      destruct (subprocess_run env _ (cmd_inodes env)) as [ri|e];
        eexists; eexists; exists [CRun (cmd_blocks env); CRun (cmd_inodes env)];
        (split; [reflexivity|]); simpl; rewrite !List.filter_app, Hq, <- app_assoc;
        (split; [reflexivity | lia]).
    + eexists. eexists. exists [CRun (cmd_blocks env)].
      split; [reflexivity|]. simpl. rewrite List.filter_app, Hq.
      split; [reflexivity | lia].
  - unfold bind at 1. unfold run at 1. unfold ask at 1.
    destruct (subprocess_run env (history w0) ["quota"; "-a"]) as [r|e];
      eexists; eexists; exists [CRun ["quota"; "-a"]];
      (split; [reflexivity|]); simpl; rewrite List.filter_app, Hq;
      (split; [reflexivity | lia]).
Qed.

(** ** Users without a row in the reports *)

Lemma xfs_batch_line_other store (quotas : gmap string QuotaEntry) line username :
  xfs_data_row username line = false ->
  xfs_batch_line store quotas line !! username = quotas !! username.
Proof.
  unfold xfs_data_row, xfs_batch_line. intros Hrow.
  destruct (PyStr.split_ws line) as [|p0 [|p1 [|p2 [|p3 [|p4 ps]]]]]; try reflexivity.
  destruct (py_in p0 xfs_skipped); [reflexivity|]. simpl in *.
  rewrite andb_true_r in Hrow. apply String.eqb_neq in Hrow.
  rewrite lookup_alter_ne by exact Hrow.
  destruct (quotas !! p0); [reflexivity|]. apply lookup_insert_ne. exact Hrow.
Qed.

Lemma generic_batch_line_other (quotas : gmap string QuotaEntry) line username :
  generic_data_row username line = false ->
  generic_batch_line quotas line !! username = quotas !! username.
Proof.
  unfold generic_data_row, generic_batch_line. intros Hrow.
  destruct (PyStr.split_ws line) as [|p0 [|p1 [|p2 [|p3 [|p4 [|p5 ps]]]]]]; try reflexivity.
  destruct (py_in p0 generic_skipped); [reflexivity|]. simpl in *.
  rewrite andb_true_r in Hrow. apply String.eqb_neq in Hrow.
  apply lookup_insert_ne. exact Hrow.
Qed.

Lemma fold_left_other {A} (step : gmap string A -> string -> gmap string A)
    (row : string -> bool) username :
  (forall quotas line, row line = false -> step quotas line !! username = quotas !! username) ->
  forall lines quotas,
    existsb row lines = false ->
    fold_left step lines quotas !! username = quotas !! username.
Proof.
  intros Hstep. induction lines as [|line lines IH]; intros quotas Hno; simpl in *.
  - reflexivity.
  - apply orb_false_iff in Hno. destruct Hno as [Hl Hls].
    rewrite (IH _ Hls). apply Hstep. exact Hl.
Qed.

Lemma xfs_batch_report_other store result (quotas : gmap string QuotaEntry) username :
  has_row xfs_data_row username result = false ->
  xfs_batch_report store result quotas !! username = quotas !! username.
Proof.
  unfold has_row, xfs_batch_report. intros H.
  destruct (returncode result =? 0); [|reflexivity]. simpl in H.
  apply (fold_left_other (xfs_batch_line store) (xfs_data_row username)); [|exact H].
  intros q line. apply xfs_batch_line_other.
Qed.

(** A user without a data row has no entry in the quotas, and the
    listing shows the sentinel for it. *)
Lemma no_row_no_entry reports username :
  has_data_row username reports = false ->
  quotas_of reports !! username = None.
Proof.
  destruct reports as [rb ri|r|]; simpl; intros H.
  - apply orb_false_iff in H. destruct H as [Hb Hi].
    unfold xfs_all_quotas. rewrite lookup_fmap.
    rewrite (xfs_batch_report_other _ _ _ _ Hi), (xfs_batch_report_other _ _ _ _ Hb).
    reflexivity.
  - unfold generic_all_quotas, has_row in *.
    destruct (returncode r =? 0); [|reflexivity]. simpl in H.
    rewrite (fold_left_other generic_batch_line (generic_data_row username)).
    + reflexivity.
    + intros q line. apply generic_batch_line_other.
    + exact H.
  - reflexivity.
Qed.

Section ListingFacts.

Variable env : Env.

(** Whatever happens, [get_all_quotas] returns the quotas of the reports
    it fetched, or of none. *)
Lemma get_all_quotas_reports w :
  exists reports w',
    get_all_quotas env w = (Ok (quotas_of reports), w') /\ fetched env reports.
Proof.
  destruct (quota_filesystem_returns env w) as (fs & w0 & Efs & _).
  unfold get_all_quotas, try_except. rewrite (bind_returns _ _ _ _ _ Efs).
  destruct (is_xfs fs).
  - unfold bind at 1. unfold run at 1. unfold ask at 1.
    destruct (subprocess_run env (history w0) (cmd_blocks env)) as [rb|e] eqn:Eb.
    + unfold bind at 1. unfold run at 1. unfold ask at 1. cbv iota beta. simpl history.
      destruct (subprocess_run env _ (cmd_inodes env)) as [ri|e] eqn:Ei.
      * exists (XfsReports rb ri). eexists. split; [reflexivity|].
        exists (history w0). split; assumption.
      * exists NoReports. eexists. split; [reflexivity | exact I].
    + exists NoReports. eexists. split; [reflexivity | exact I].
  - unfold bind at 1. unfold run at 1. unfold ask at 1.
    destruct (subprocess_run env (history w0) ["quota"; "-a"]) as [r|e] eqn:Er.
    + exists (GenericReport r). eexists. split; [reflexivity|].
      exists (history w0). exact Er.
    + exists NoReports. eexists. split; [reflexivity | exact I].
Qed.

Lemma user_info_of_quota all_quotas entry w info w' :
  user_info_of env true all_quotas entry w = (Ok info, w') ->
  ui_quota info = Some (quota_of all_quotas (ui_uid info)).
Proof.
  unfold user_info_of, attr_value. intros E.
  repeat match type of E with
         | bind ?m _ ?w0 = _ =>
             let r := fresh "r" in
             let w1 := fresh "w" in
             let Em := fresh "Em" in
             destruct (m w0) as [[r|?] w1] eqn:Em;
             [ rewrite (bind_returns _ _ _ _ _ Em) in E
             | rewrite (bind_raises _ _ _ _ _ Em) in E; discriminate E ]
         end.
  injection E as <- _. reflexivity.
Qed.

Lemma collect_users_quota all_quotas entries :
  forall users w result w',
    collect_users env true all_quotas entries users w = (Ok result, w') ->
    Forall (fun info => ui_quota info = Some (quota_of all_quotas (ui_uid info))) users ->
    Forall (fun info => ui_quota info = Some (quota_of all_quotas (ui_uid info))) result.
Proof.
  induction entries as [|entry entries IH]; intros users w result w' E Hacc; simpl in E.
  - injection E as <- _. exact Hacc.
  - destruct (user_info_of env true all_quotas entry w) as [[info|e] w1] eqn:Ei.
    + rewrite (bind_returns _ _ _ _ _ Ei) in E.
      apply (IH _ _ _ _ E). apply Forall_app. split; [exact Hacc|].
      constructor; [|constructor]. exact (user_info_of_quota _ _ _ _ _ Ei).
    + rewrite (bind_raises _ _ _ _ _ Ei) in E. discriminate E.
Qed.

End ListingFacts.


(** ** Facts about [split] and [strip] *)

Lemma rstrip_cons_nonspace c s :
  PyStr.is_space c = false -> PyStr.rstrip (String c s) = String c (PyStr.rstrip s).
Proof. intros Hc. simpl. rewrite Hc. destruct (PyStr.rstrip s); reflexivity. Qed.

Lemma rstrip_app_no_space p t :
  no_space p = true -> PyStr.rstrip (p ++ t) = p ++ PyStr.rstrip t.
Proof.
  induction p as [|c p IH]; intros Hp.
  - reflexivity.
  - simpl in Hp. apply andb_true_iff in Hp. destruct Hp as [Hc Hp].
    apply negb_true_iff in Hc.
    change (String c p ++ t) with (String c (p ++ t)).
    rewrite (rstrip_cons_nonspace _ _ Hc), (IH Hp). reflexivity.
Qed.

Lemma prefix_app p t : String.prefix p (p ++ t) = true.
Proof.
  induction p as [|c p IH]; simpl.
  - destruct t; reflexivity.
  - destruct (ascii_dec c c) as [_|Hne]; [exact IH | contradiction Hne; reflexivity].
Qed.

(** The first column of a line is where the stripped line starts. *)
Lemma split_ws_head s : forall p0 rest,
  PyStr.split_ws s = p0 :: rest ->
  no_space p0 = true /\ exists t, PyStr.lstrip s = p0 ++ t.
Proof.
  induction s as [|c s IH]; intros p0 rest E; simpl in E.
  - discriminate E.
  - simpl. destruct (PyStr.is_space c) eqn:Hc.
    + exact (IH _ _ E).
    + destruct s as [|c' s'].
      * injection E as <- <-. simpl. rewrite Hc. split; [reflexivity|].
        exists "". reflexivity.
      * destruct (PyStr.is_space c') eqn:Hc'.
        -- injection E as <- <-. simpl. rewrite Hc. split; [reflexivity|].
           exists (String c' s'). reflexivity.
        -- destruct (PyStr.split_ws (String c' s')) as [|h tl] eqn:Es.
           ++ injection E as <- <-. simpl. rewrite Hc. split; [reflexivity|].
              exists (String c' s'). reflexivity.
           ++ injection E as <- <-.
              destruct (IH h tl eq_refl) as (Hh & t & Ht).
              simpl in Ht. rewrite Hc' in Ht.
              split; [simpl; rewrite Hc, Hh; reflexivity|].
              exists t. rewrite Ht. reflexivity.
Qed.

Lemma first_column_starts_line s p0 rest :
  PyStr.split_ws s = p0 :: rest -> PyStr.startswith (PyStr.strip s) p0 = true.
Proof.
  intros E. destruct (split_ws_head _ _ _ E) as (Hp & t & Ht).
  unfold PyStr.startswith, PyStr.strip. rewrite Ht, (rstrip_app_no_space _ _ Hp).
  apply prefix_app.
Qed.

Lemma triple_not_empty u s h : triple u s h <> "".
Proof. unfold triple. destruct u; discriminate. Qed.

(** ** The two XFS parsers on one report *)

Section XfsAgreement.

Variable username : string.
Hypothesis not_skipped : py_in username xfs_skipped = false.

Variables (store : string -> QuotaEntry -> QuotaEntry) (get : QuotaEntry -> option string).
Hypothesis get_store : forall v e, get (store v e) = Some v.

Lemma xfs_line_agree (quotas : gmap string QuotaEntry) info line :
  (PyStr.startswith (PyStr.strip line) username = true ->
   head (PyStr.split_ws line) = Some username) ->
  quotas !! username ≫= get = info ->
  xfs_batch_line store quotas line !! username ≫= get = xfs_user_line username info line.
Proof.
  intros Hwhole Hinv. unfold xfs_batch_line, xfs_user_line.
  destruct (PyStr.split_ws line) as [|p0 [|p1 [|p2 [|p3 [|p4 ps]]]]] eqn:Es;
    try (destruct (PyStr.startswith _ _); exact Hinv).
  destruct (String.eqb_spec p0 username) as [->|Hne].
  - rewrite not_skipped, (first_column_starts_line _ _ _ Es). simpl.
    rewrite lookup_alter_eq.
    destruct (quotas !! username) as [e|] eqn:Eq.
    + rewrite Eq. simpl. apply get_store.
    + rewrite lookup_insert_eq. simpl. apply get_store.
  - destruct (PyStr.startswith (PyStr.strip line) username) eqn:Hs.
    + specialize (Hwhole eq_refl). simpl in Hwhole. congruence.
    + destruct (py_in p0 xfs_skipped); simpl; [exact Hinv|].
      rewrite lookup_alter_ne by exact Hne.
      destruct (quotas !! p0); [exact Hinv|].
      rewrite lookup_insert_ne by exact Hne. exact Hinv.
Qed.

Lemma xfs_fold_agree lines : forall (quotas : gmap string QuotaEntry) info,
  (forall line, In line lines ->
     PyStr.startswith (PyStr.strip line) username = true ->
     head (PyStr.split_ws line) = Some username) ->
  quotas !! username ≫= get = info ->
  fold_left (xfs_batch_line store) lines quotas !! username ≫= get
  = fold_left (xfs_user_line username) lines info.
Proof.
  induction lines as [|line lines IH]; intros quotas info Hwhole Hinv; simpl.
  - exact Hinv.
  - apply IH.
    + intros l Hl. apply Hwhole. right. exact Hl.
    + apply xfs_line_agree; [|exact Hinv]. apply Hwhole. left. reflexivity.
Qed.

End XfsAgreement.

(** A pass over one report leaves the other key of every entry alone. *)
Lemma xfs_fold_keeps store (get : QuotaEntry -> option string) username lines :
  (forall v e, get (store v e) = get e) ->
  get empty_entry = None ->
  forall quotas : gmap string QuotaEntry,
    fold_left (xfs_batch_line store) lines quotas !! username ≫= get
    = quotas !! username ≫= get.
Proof.
  intros Hkeep Hempty.
  induction lines as [|line lines IH]; intros quotas; simpl; [reflexivity|].
  rewrite IH. unfold xfs_batch_line.
  destruct (PyStr.split_ws line) as [|p0 [|p1 [|p2 [|p3 [|p4 ps]]]]]; try reflexivity.
  destruct (py_in p0 xfs_skipped); simpl; [reflexivity|].
  destruct (decide (p0 = username)) as [->|Hne].
  - rewrite lookup_alter_eq. destruct (quotas !! username) as [e|] eqn:Eq.
    + rewrite Eq. simpl. apply Hkeep.
    + rewrite lookup_insert_eq. simpl. rewrite Hkeep. exact Hempty.
  - rewrite lookup_alter_ne by exact Hne.
    destruct (quotas !! p0); [reflexivity|].
    rewrite lookup_insert_ne by exact Hne. reflexivity.
Qed.

Lemma xfs_user_line_figures username info line :
  figures info -> figures (xfs_user_line username info line).
Proof.
  intros H. unfold xfs_user_line.
  destruct (PyStr.startswith _ _); [|exact H].
  destruct (PyStr.split_ws line) as [|p0 [|p1 [|p2 [|p3 [|p4 ps]]]]]; try exact H.
  right. exists p1, p2, p3. reflexivity.
Qed.

Lemma xfs_user_fold_figures username lines : forall info,
  figures info -> figures (fold_left (xfs_user_line username) lines info).
Proof.
  induction lines as [|line lines IH]; intros info H; simpl; [exact H|].
  apply IH, xfs_user_line_figures, H.
Qed.

Lemma xfs_user_line_some username info line :
  is_Some info -> is_Some (xfs_user_line username info line).
Proof.
  intros H. unfold xfs_user_line.
  destruct (PyStr.startswith _ _); [|exact H].
  destruct (PyStr.split_ws line) as [|p0 [|p1 [|p2 [|p3 [|p4 ps]]]]]; try exact H.
  eexists. reflexivity.
Qed.

Lemma xfs_user_fold_some username lines : forall info,
  is_Some info \/ existsb (xfs_data_row username) lines = true ->
  is_Some (fold_left (xfs_user_line username) lines info).
Proof.
  induction lines as [|line lines IH]; intros info H; simpl in *.
  - destruct H as [H|H]; [exact H | discriminate H].
  - apply IH. destruct H as [H|H].
    + left. apply xfs_user_line_some, H.
    + apply orb_true_iff in H. destruct H as [H|H]; [left | right; exact H].
      unfold xfs_data_row in H. unfold xfs_user_line.
      destruct (PyStr.split_ws line) as [|p0 [|p1 [|p2 [|p3 [|p4 ps]]]]] eqn:Es;
        try discriminate H.
      apply andb_true_iff in H. destruct H as [H _]. apply String.eqb_eq in H. subst p0.
      rewrite (first_column_starts_line _ _ _ Es). eexists. reflexivity.
Qed.

Lemma xfs_user_report_figures username result :
  figures (xfs_user_report username result).
Proof.
  unfold xfs_user_report. destruct (returncode result =? 0); [|left; reflexivity].
  apply xfs_user_fold_figures. left. reflexivity.
Qed.

Lemma xfs_user_report_some username result :
  has_row xfs_data_row username result = true ->
  is_Some (xfs_user_report username result).
Proof.
  unfold has_row, xfs_user_report. intros H. apply andb_true_iff in H.
  destruct H as [Hrc H]. rewrite Hrc. apply xfs_user_fold_some. right. exact H.
Qed.

Lemma figures_truthy info : figures info -> truthy info = bool_decide (is_Some info).
Proof.
  intros [->|(u & s & h & ->)]; simpl.
  - reflexivity.
  - destruct (String.eqb_spec (triple u s h) ""); [|reflexivity].
    exfalso. eapply triple_not_empty. eassumption.
Qed.

Lemma figures_or_dash info :
  figures info -> or_dash info = default "-" info /\ usage_or_dash (default "-" info).
Proof.
  intros H. unfold or_dash. rewrite (figures_truthy _ H).
  destruct H as [->|(u & s & h & ->)]; simpl.
  - split; [reflexivity | left; reflexivity].
  - split; [reflexivity | right; exists u, s, h; reflexivity].
Qed.

Lemma has_row_not_skipped username result :
  has_row xfs_data_row username result = true -> py_in username xfs_skipped = false.
Proof.
  unfold has_row. intros H. apply andb_true_iff in H. destruct H as [_ H].
  apply existsb_exists in H. destruct H as (line & _ & H). unfold xfs_data_row in H.
  destruct (PyStr.split_ws line) as [|p0 [|p1 [|p2 [|p3 [|p4 ps]]]]]; try discriminate H.
  apply andb_true_iff in H. destruct H as [He Hs]. apply String.eqb_eq in He. subst p0.
  apply negb_true_iff in Hs. exact Hs.
Qed.

(** The XFS half of the agreement. *)
Lemma xfs_parsers_agree username result_blocks result_inodes :
  has_row xfs_data_row username result_blocks
  || has_row xfs_data_row username result_inodes = true ->
  names_whole_column username result_blocks ->
  names_whole_column username result_inodes ->
  exists e b i,
    xfs_all_quotas result_blocks result_inodes !! username = Some e
    /\ quota_str e = Some (xfs_user_quota username result_blocks result_inodes)
    /\ xfs_user_quota username result_blocks result_inodes = render b i
    /\ usage_or_dash b /\ usage_or_dash i.
Proof.
  intros Hrow Hb Hi.
  assert (Hskip : py_in username xfs_skipped = false).
  { apply orb_true_iff in Hrow. destruct Hrow as [H|H];
      exact (has_row_not_skipped _ _ H). }
  set (q1 := xfs_batch_report set_blocks result_blocks ∅).
  set (q2 := xfs_batch_report set_inodes result_inodes q1).
  set (B := xfs_user_report username result_blocks).
  set (I := xfs_user_report username result_inodes).
  assert (H1 : q1 !! username ≫= blocks = B).
  { subst q1 B. unfold xfs_batch_report, xfs_user_report.
    destruct (returncode result_blocks =? 0); [|reflexivity].
    apply (xfs_fold_agree username Hskip set_blocks blocks); [reflexivity | exact Hb |].
    reflexivity. }
  assert (H2 : q2 !! username ≫= blocks = B).
  { rewrite <- H1. subst q2. unfold xfs_batch_report.
    destruct (returncode result_inodes =? 0); [|reflexivity].
    apply xfs_fold_keeps; reflexivity. }
  assert (H3 : q2 !! username ≫= inodes = I).
  { subst q2 I. unfold xfs_batch_report, xfs_user_report.
    destruct (returncode result_inodes =? 0).
    - apply (xfs_fold_agree username Hskip set_inodes inodes); [reflexivity | exact Hi |].
      subst q1. unfold xfs_batch_report.
      destruct (returncode result_blocks =? 0); [|reflexivity].
      rewrite (xfs_fold_keeps set_blocks inodes); reflexivity.
    - subst q1. unfold xfs_batch_report.
      destruct (returncode result_blocks =? 0); [|reflexivity].
      rewrite (xfs_fold_keeps set_blocks inodes); reflexivity. }
  assert (Hsome : is_Some B \/ is_Some I).
  { apply orb_true_iff in Hrow. destruct Hrow as [H|H];
      [left | right]; exact (xfs_user_report_some _ _ H). }
  assert (He : exists e, q2 !! username = Some e).
  { destruct (q2 !! username) as [e|]; [exists e; reflexivity|].
    simpl in H2, H3. rewrite <- H2, <- H3 in Hsome.
    destruct Hsome as [[x Hx]|[x Hx]]; discriminate Hx. }
  destruct He as (e & Ee). rewrite Ee in H2, H3. simpl in H2, H3.
  destruct (figures_or_dash B (xfs_user_report_figures _ _)) as (HdB & HuB).
  destruct (figures_or_dash I (xfs_user_report_figures _ _)) as (HdI & HuI).
  assert (Hq : xfs_user_quota username result_blocks result_inodes
               = render (default "-" B) (default "-" I)).
  { unfold xfs_user_quota. fold B I.
    rewrite (figures_truthy B (xfs_user_report_figures _ _)),
            (figures_truthy I (xfs_user_report_figures _ _)), HdB, HdI.
    destruct Hsome as [H|H].
    - rewrite (bool_decide_eq_true_2 _ H). reflexivity.
    - rewrite (bool_decide_eq_true_2 _ H), orb_true_r. reflexivity. }
  eexists. exists (default "-" B), (default "-" I).
  split; [|split; [|split; [exact Hq | split; assumption]]].
  - unfold xfs_all_quotas. fold q1. fold q2. rewrite lookup_fmap, Ee. reflexivity.
  - simpl. rewrite H2, H3, Hq. reflexivity.
Qed.

(** The other half: the third line of the text, when it is the user's
    last data row. *)
Lemma generic_parsers_agree username result l0 l1 row rest :
  returncode result = 0 ->
  PyStr.lines_of (stdout result) = l0 :: l1 :: row :: rest ->
  generic_data_row username row = true ->
  existsb (generic_data_row username) rest = false ->
  exists e bu bs iu is_,
    generic_all_quotas result !! username = Some e
    /\ quota_str e = Some (generic_user_quota result)
    /\ generic_user_quota result = render (bu ++ "/" ++ bs) (iu ++ "/" ++ is_).
Proof.
  intros Hrc Hlines Hrow Hrest.
  unfold generic_all_quotas, generic_user_quota. rewrite Hrc, Hlines. simpl.
  rewrite (fold_left_other generic_batch_line (generic_data_row username));
    [| intros q line; apply generic_batch_line_other | exact Hrest].
  unfold generic_data_row in Hrow. unfold generic_batch_line at 1.
  destruct (PyStr.split_ws row) as [|p0 [|p1 [|p2 [|p3 [|p4 [|p5 ps]]]]]];
    try discriminate Hrow.
  apply andb_true_iff in Hrow. destruct Hrow as [He Hs].
  apply String.eqb_eq in He. subst p0. rewrite Hs.
  rewrite lookup_insert_eq.
  eexists. exists p1, p2, p4, p5. split; [reflexivity|]. split; reflexivity.
Qed.

(** C5, as the code has it.  On XFS reports the batch parser and the
    single-user parser give a user the same rendering, [blocks: B;
    inodes: I] with usage figures U/S/H or a dash for each half,
    whenever the user has a data row and every report line that starts
    with the user name has it as its whole first column.  On a report of
    the other kind they agree on a row of six or more columns when that
    row is the third line of the text and the user's last data row; the
    rendering is then [blocks: U/S; inodes: U/S]. *)
Theorem quota_renderings_agree :
  (forall username result_blocks result_inodes,
      has_row xfs_data_row username result_blocks
      || has_row xfs_data_row username result_inodes = true ->
      names_whole_column username result_blocks ->
      names_whole_column username result_inodes ->
      exists e b i,
        xfs_all_quotas result_blocks result_inodes !! username = Some e
        /\ quota_str e = Some (xfs_user_quota username result_blocks result_inodes)
        /\ xfs_user_quota username result_blocks result_inodes = render b i
        /\ usage_or_dash b /\ usage_or_dash i)
  /\ (forall username result l0 l1 row rest,
        returncode result = 0 ->
        PyStr.lines_of (stdout result) = l0 :: l1 :: row :: rest ->
        generic_data_row username row = true ->
        existsb (generic_data_row username) rest = false ->
        exists e bu bs iu is_,
          generic_all_quotas result !! username = Some e
          /\ quota_str e = Some (generic_user_quota result)
          /\ generic_user_quota result = render (bu ++ "/" ++ bs) (iu ++ "/" ++ is_)).
Proof.
  split.
  - exact xfs_parsers_agree.
  - exact generic_parsers_agree.
Qed.

(** C5 as the claim states it fails.  With rows for [al] and [alice] the
    single-user parser gives [al] the figures of [alice], whose line
    also starts with [al]; and on a report of the other kind it reads
    the third line only, so a row on the first line is rendered by the
    batch parser alone. *)
Lemma legacy_parser_disagrees :
  (has_row xfs_data_row "al" prefix_report = true
   /\ quota_str <$> xfs_all_quotas prefix_report (completed 0 "") !! "al"
      = Some (Some "blocks: 1/2/3; inodes: -")
   /\ xfs_user_quota "al" prefix_report (completed 0 "") = "blocks: 5/6/7; inodes: -")
  /\ (has_row generic_data_row "alice" one_line_report = true
      /\ quota_str <$> generic_all_quotas one_line_report !! "alice"
         = Some (Some "blocks: 1/2; inodes: 4/5")
      /\ generic_user_quota one_line_report = NOT_SET).
Proof. vm_compute. repeat split; reflexivity. Qed.

Lemma quota_renderings_agree_witness :
  (exists e,
      xfs_all_quotas example_blocks example_inodes !! "alice" = Some e
      /\ quota_str e = Some (xfs_user_quota "alice" example_blocks example_inodes)
      /\ xfs_user_quota "alice" example_blocks example_inodes
         = "blocks: 50M/100M/200M; inodes: 500/1000/2000")
  /\ (exists e,
        generic_all_quotas example_generic !! "alice" = Some e
        /\ quota_str e = Some (generic_user_quota example_generic)
        /\ generic_user_quota example_generic = "blocks: 50/100; inodes: 5/10").
Proof.
  split.
  - destruct (proj1 quota_renderings_agree "alice" example_blocks example_inodes)
      as (e & b & i & He & Hs & _).
    + reflexivity.
    + intros line [<-|[]] _. reflexivity.
    + intros line [<-|[]] _. reflexivity.
    + exists e. split; [exact He|]. split; [exact Hs | reflexivity].
  - destruct (proj2 quota_renderings_agree "alice" example_generic
                "Disk quotas for user alice (uid 1001):"
                "Filesystem blocks quota limit grace files quota limit grace"
                "alice 50 100 200 5 10 20" [])
      as (e & bu & bs & iu & is_ & He & Hs & _).
    + reflexivity.
    + reflexivity.
    + reflexivity.
    + reflexivity.
    + exists e. split; [exact He|]. split; [exact Hs | reflexivity].
Defined.

Lemma append_middle (a b : string) : a ++ String ":" (String " " b) = (a ++ ": ") ++ b.
Proof.
  induction a as [|ch a IH].
  - reflexivity.
  - change (String ch (a ++ String ":" (String " " b)) = String ch ((a ++ ": ") ++ b)).
    rewrite IH. reflexivity.
Qed.

Lemma prefix_app2 (a b c d : string) :
  d = b ++ c -> String.prefix (a ++ b) (a ++ d) = true.
Proof.
  intros ->. induction a as [|ch a IH].
  - exact (prefix_app b c).
  - change (String.prefix (String ch (a ++ b)) (String ch (a ++ b ++ c)) = true).
    cbn [String.prefix].
    destruct (ascii_dec ch ch) as [_|Hne]; [exact IH | contradiction Hne; reflexivity].
Qed.

(** ** The manifest processor *)

Lemma process_lines_any_manifest env manifest :
  process_lines (with_manifest env manifest) = process_lines env.
Proof. reflexivity. Qed.

Lemma same_but_log_refl w : same_but_log w w.
Proof. repeat split. Qed.

Lemma same_but_log_sym w1 w2 : same_but_log w1 w2 -> same_but_log w2 w1.
Proof. intros (H1 & H2 & H3). repeat split; congruence. Qed.

Lemma same_but_log_trans w1 w2 w3 :
  same_but_log w1 w2 -> same_but_log w2 w3 -> same_but_log w1 w3.
Proof. intros (H1 & H2 & H3) (H4 & H5 & H6). repeat split; congruence. Qed.

Lemma same_but_log_logged r w : same_but_log (logged r w) w.
Proof. repeat split. Qed.

Section Blind.

Lemma blind_ret {A} (a : A) : blind (ret a).
Proof. intros w1 w2 H. split; [reflexivity | exact H]. Qed.

Lemma blind_raise {A} (e : exn) : blind (@raise A e).
Proof. intros w1 w2 H. split; [reflexivity | exact H]. Qed.

Lemma blind_of_option {A} (e : exn) (o : option A) : blind (of_option e o).
Proof. destruct o; [apply blind_ret | apply blind_raise]. Qed.

Lemma blind_bind {A B} (m : M A) (k : A -> M B) :
  blind m -> (forall a, blind (k a)) -> blind (bind m k).
Proof.
  intros Hm Hk w1 w2 H. unfold bind. destruct (Hm w1 w2 H) as [Hr Hw].
  destruct (m w1) as [r1 w1'], (m w2) as [r2 w2']. simpl in Hr, Hw. subst r2.
  destruct r1 as [a|e].
  - exact (Hk a _ _ Hw).
  - split; [reflexivity | exact Hw].
Qed.

Lemma blind_try_except {A} (m : M A) (h : exn -> M A) :
  blind m -> (forall e, blind (h e)) -> blind (try_except m h).
Proof.
  intros Hm Hh w1 w2 H. unfold try_except. destruct (Hm w1 w2 H) as [Hr Hw].
  destruct (m w1) as [r1 w1'], (m w2) as [r2 w2']. simpl in Hr, Hw. subst r2.
  destruct r1 as [a|e].
  - split; [reflexivity | exact Hw].
  - exact (Hh e _ _ Hw).
Qed.

Lemma blind_try_except_only {A} (cls : exn) (m h : M A) :
  blind m -> blind h -> blind (try_except_only cls m h).
Proof.
  intros Hm Hh. apply blind_try_except; [exact Hm|].
  intros e. destruct (decide (e = cls)); [exact Hh | apply blind_raise].
Qed.

Lemma blind_for_each {A} (l : list A) (body : A -> M unit) :
  (forall x, blind (body x)) -> blind (for_each l body).
Proof.
  intros Hb. induction l as [|x l IH]; simpl.
  - apply blind_ret.
  - apply blind_bind; [apply Hb | intros _; exact IH].
Qed.

Lemma blind_ask {A} c (f : list Call -> result A) : blind (ask c f).
Proof.
  intros w1 w2 (H1 & H2 & H3). unfold ask. simpl. rewrite H1.
  split; [reflexivity|]. repeat split; simpl; congruence.
Qed.

Lemma blind_logger l msg : blind (logger l msg).
Proof. intros w1 w2 (H1 & H2 & H3). split; [reflexivity|]. repeat split; assumption. Qed.

Lemma blind_enter e : blind (enter e).
Proof.
  intros w1 w2 (H1 & H2 & H3). split; [reflexivity|].
  repeat split; simpl; congruence.
Qed.

Lemma blind_get_directory : blind get_directory.
Proof.
  intros w1 w2 (H1 & H2 & H3). unfold get_directory. simpl. rewrite H2.
  split; [reflexivity|]. repeat split; assumption.
Qed.

Lemma blind_set_directory d : blind (set_directory d).
Proof. intros w1 w2 (H1 & H2 & H3). split; [reflexivity|]. repeat split; assumption. Qed.

End Blind.

Ltac blind_step :=
  first
    [ apply blind_ret | apply blind_raise | apply blind_of_option
    | apply blind_ask | apply blind_logger | apply blind_enter
    | apply blind_get_directory | apply blind_set_directory
    | apply blind_bind; [| intros ]
    | apply blind_try_except_only
    | apply blind_try_except; [| intros ]
    | apply blind_for_each; intros
    | match goal with
      | |- blind (if ?b then _ else _) => destruct b
      | |- blind (match ?x with _ => _ end) => destruct x
      | |- blind (let _ := _ in _) => cbv zeta
      end ].

Ltac blind_all := repeat blind_step.

Section BlindWorkflow.

Variable env : Env.

Lemma blind_add_user_to_ldap uid username surname firstname groups :
  blind (add_user_to_ldap env uid username surname firstname groups).
Proof.
  unfold add_user_to_ldap, _get_ldap_connection, prompt, conn_search, conn_add,
    conn_modify_add, ldap_call.
  blind_all.
Qed.

Lemma blind_add_user_to_kerberos username password :
  blind (add_user_to_kerberos env username password).
Proof. unfold add_user_to_kerberos, _get_kadmin_password, prompt, run. blind_all. Qed.

Lemma blind_create_home_directory username : blind (create_home_directory env username).
Proof. unfold create_home_directory, os_call. blind_all. Qed.

Lemma blind_set_user_quota username : blind (set_user_quota env username).
Proof.
  unfold set_user_quota, quota_filesystem, get_filesystem_type, run. blind_all.
Qed.

Lemma blind_add_user uid groups username surname firstname password steps :
  blind (add_user env uid groups username surname firstname password steps).
Proof.
  unfold add_user, add_user_results, run_step.
  repeat first
    [ apply blind_add_user_to_ldap | apply blind_add_user_to_kerberos
    | apply blind_create_home_directory | apply blind_set_user_quota
    | blind_step ].
Qed.

End BlindWorkflow.

Section Manifest.

Variable env : Env.

Lemma add_user_returns uid groups username surname firstname password steps w :
  exists b w',
    add_user env uid groups username surname firstname password steps w = (Ok b, w')
    /\ List.filter is_add_user (entered w')
       = (List.filter is_add_user (entered w)
          ++ [EnterAddUser uid groups username surname firstname password steps])%list.
Proof.
  destruct (add_user_results_shape env uid groups username surname firstname password steps w)
    as (results & w' & E & Hent & _).
  eexists. exists w'. split; [exact (add_user_of_results _ _ _ _ _ _ _ _ _ _ _ E)|].
  rewrite Hent, List.filter_app. f_equal. unfold workflow_entries. simpl. f_equal.
  induction (requested steps) as [|s l IH]; [reflexivity | exact IH].
Qed.

Lemma process_line_user steps n line results w uid groups username surname firstname password :
  classify line = UserLine uid groups username surname firstname password ->
  exists b w',
    add_user env uid groups username surname firstname password steps w = (Ok b, w')
    /\ process_line env steps n line results w = (Ok (<[username := b]> results), w').
Proof.
  intros Hc.
  destruct (add_user_returns uid groups username surname firstname password steps w)
    as (b & w' & E & _).
  exists b, w'. split; [exact E|].
  unfold process_line. rewrite Hc. unfold try_except_only, try_except.
  rewrite (bind_returns _ _ _ _ _ E). reflexivity.
Qed.

(** A malformed line changes nothing but the log, where it leaves one
    record that starts with its line number: a warning for a wrong number
    of fields, an error record for a uid that is not an integer. *)
Lemma process_line_skips steps n line results w :
  is_malformed (classify line) = true ->
  exists record,
    process_line env steps n line results w = (Ok results, logged record w)
    /\ level record = match classify line with BadFormat => WARNING | _ => ERROR end
    /\ String.prefix ("Строка " ++ PyStr.str_of_Z n ++ ": ") (message record) = true.
Proof.
  intros Hm. unfold process_line.
  destruct (classify line) as [| |uid|]; try discriminate Hm.
  - eexists. split; [reflexivity|]. split; [reflexivity|].
    exact (prefix_app2 "Строка " (PyStr.str_of_Z n ++ ": ") "неверный формат"
             _ (append_middle _ _)).
  - eexists. split; [reflexivity|]. split; [reflexivity|].
    exact (prefix_app2 "Строка " (PyStr.str_of_Z n ++ ": ") "ошибка парсинга - ValueError"
             _ (append_middle _ _)).
Qed.

End Manifest.

Section ManifestLoop.

Variable env : Env.

Lemma process_line_returns steps n line results w :
  exists results' w', process_line env steps n line results w = (Ok results', w').
Proof.
  destruct (classify line) as [| |uid|uid g u s f p] eqn:Hc.
  - unfold process_line. rewrite Hc. eexists. eexists. reflexivity.
  - destruct (process_line_skips env steps n line results w) as (record & E & _).
    { rewrite Hc. reflexivity. }
    eexists. eexists. exact E.
  - destruct (process_line_skips env steps n line results w) as (record & E & _).
    { rewrite Hc. reflexivity. }
    eexists. eexists. exact E.
  - destruct (process_line_user env steps n line results w _ _ _ _ _ _ Hc)
      as (b & w' & _ & E).
    eexists. eexists. exact E.
Qed.

Lemma process_lines_returns steps lines : forall n results w,
  exists results' w', process_lines env steps n lines results w = (results', None, w').
Proof.
  induction lines as [|line lines IH]; intros n results w; simpl.
  - eexists. eexists. reflexivity.
  - destruct (process_line_returns steps n line results w) as (r & w1 & E).
    rewrite E. apply IH.
Qed.

Lemma process_lines_app steps pre rest : forall n results w results' w',
  process_lines env steps n pre results w = (results', None, w') ->
  process_lines env steps n (pre ++ rest) results w
  = process_lines env steps (n + Z.of_nat (length pre)) rest results' w'.
Proof.
  induction pre as [|line pre IH]; intros n results w results' w' E; simpl in *.
  - injection E as <- <-. rewrite Z.add_0_r. reflexivity.
  - destruct (process_line env steps n line results w) as [[r|e] w1].
    + rewrite (IH _ _ _ _ _ E). f_equal. lia.
    + discriminate E.
Qed.

(** The lines are processed alike from worlds that differ in the log,
    whatever their numbers. *)
Lemma process_line_blind steps n n' line results w1 w2 :
  same_but_log w1 w2 ->
  exists results' w1' w2',
    process_line env steps n line results w1 = (Ok results', w1')
    /\ process_line env steps n' line results w2 = (Ok results', w2')
    /\ same_but_log w1' w2'.
Proof.
  intros Hw. destruct (classify line) as [| |uid|uid g u s f p] eqn:Hc.
  - unfold process_line. rewrite Hc. exists results, w1, w2.
    split; [reflexivity|]. split; [reflexivity | exact Hw].
  - destruct (process_line_skips env steps n line results w1) as (r1 & E1 & _);
      [rewrite Hc; reflexivity|].
    destruct (process_line_skips env steps n' line results w2) as (r2 & E2 & _);
      [rewrite Hc; reflexivity|].
    eexists. eexists. eexists. split; [exact E1|]. split; [exact E2|].
    destruct Hw as (H1 & H2 & H3). repeat split; assumption.
  - destruct (process_line_skips env steps n line results w1) as (r1 & E1 & _);
      [rewrite Hc; reflexivity|].
    destruct (process_line_skips env steps n' line results w2) as (r2 & E2 & _);
      [rewrite Hc; reflexivity|].
    eexists. eexists. eexists. split; [exact E1|]. split; [exact E2|].
    destruct Hw as (H1 & H2 & H3). repeat split; assumption.
  - destruct (process_line_user env steps n line results w1 _ _ _ _ _ _ Hc)
      as (b1 & w1' & Ea1 & E1).
    destruct (process_line_user env steps n' line results w2 _ _ _ _ _ _ Hc)
      as (b2 & w2' & Ea2 & E2).
    destruct (blind_add_user env uid g u s f p steps w1 w2 Hw) as [Hr Hw'].
    rewrite Ea1, Ea2 in Hr, Hw'. simpl in Hr, Hw'. injection Hr as <-.
    eexists. eexists. eexists. split; [exact E1|]. split; [exact E2 | exact Hw'].
Qed.

Lemma process_lines_blind steps lines : forall n n' results w1 w2,
  same_but_log w1 w2 ->
  exists results' w1' w2',
    process_lines env steps n lines results w1 = (results', None, w1')
    /\ process_lines env steps n' lines results w2 = (results', None, w2')
    /\ same_but_log w1' w2'.
Proof.
  induction lines as [|line lines IH]; intros n n' results w1 w2 Hw; simpl.
  - exists results, w1, w2. split; [reflexivity|]. split; [reflexivity | exact Hw].
  - destruct (process_line_blind steps n n' line results w1 w2 Hw)
      as (r & w1' & w2' & E1 & E2 & Hw').
    rewrite E1, E2. apply IH. exact Hw'.
Qed.

(** Reading a manifest that can be opened is the loop over its lines. *)
Lemma process_user_file_reads filename steps lines w results w' :
  process_lines env steps 1 lines ∅ (called (COpen filename) w) = (results, None, w') ->
  process_user_file (with_manifest env (Ok lines)) filename steps w = (Ok results, w').
Proof.
  intros E. unfold process_user_file, ask. simpl open_lines. cbv iota beta.
  rewrite process_lines_any_manifest.
  change {| history := history w ++ [COpen filename]; directory := directory w;
            log := log w; entered := entered w |} with (called (COpen filename) w).
  rewrite E. reflexivity.
Qed.

(** Lines that are no user line of [username] leave its entry alone. *)
Lemma process_lines_other_users steps username lines : forall n results w results' w',
  existsb (names_user username) lines = false ->
  process_lines env steps n lines results w = (results', None, w') ->
  results' !! username = results !! username.
Proof.
  induction lines as [|line lines IH]; intros n results w results' w' Hno E; simpl in *.
  - injection E as <- _. reflexivity.
  - apply orb_false_iff in Hno. destruct Hno as [Hl Hls].
    destruct (process_line env steps n line results w) as [[r|e] w1] eqn:El;
      [|discriminate E].
    rewrite (IH _ _ _ _ _ Hls E).
    unfold names_user in Hl.
    destruct (classify line) as [| |uid|uid g u s f p] eqn:Hc.
    + unfold process_line in El. rewrite Hc in El. injection El as <- _. reflexivity.
    + destruct (process_line_skips env steps n line results w) as (rec & E' & _);
        [rewrite Hc; reflexivity|].
      rewrite E' in El. injection El as <- _. reflexivity.
    + destruct (process_line_skips env steps n line results w) as (rec & E' & _);
        [rewrite Hc; reflexivity|].
      rewrite E' in El. injection El as <- _. reflexivity.
    + destruct (process_line_user env steps n line results w _ _ _ _ _ _ Hc)
        as (b & w2 & _ & E').
      rewrite E' in El. injection El as <- _.
      apply String.eqb_neq in Hl. apply lookup_insert_ne. exact Hl.
Qed.

(** The workflow is entered once for each user line, in file order. *)
Lemma process_lines_entered steps lines : forall n results w results' w',
  process_lines env steps n lines results w = (results', None, w') ->
  List.filter is_add_user (entered w')
  = (List.filter is_add_user (entered w) ++ user_lines steps lines)%list.
Proof.
  induction lines as [|line lines IH]; intros n results w results' w' E; simpl in *.
  - injection E as _ <-. rewrite app_nil_r. reflexivity.
  - destruct (process_line env steps n line results w) as [[r|e] w1] eqn:El;
      [|discriminate E].
    rewrite (IH _ _ _ _ _ E). rewrite app_assoc. f_equal.
    destruct (classify line) as [| |uid|uid g u s f p] eqn:Hc.
    + unfold process_line in El. rewrite Hc in El. injection El as _ <-.
      rewrite app_nil_r. reflexivity.
    + destruct (process_line_skips env steps n line results w) as (rec & E' & _);
        [rewrite Hc; reflexivity|].
      rewrite E' in El. injection El as _ <-. rewrite app_nil_r. reflexivity.
    + destruct (process_line_skips env steps n line results w) as (rec & E' & _);
        [rewrite Hc; reflexivity|].
      rewrite E' in El. injection El as _ <-. rewrite app_nil_r. reflexivity.
    + unfold process_line in El. rewrite Hc in El.
      destruct (add_user_returns env uid g u s f p steps w) as (b & w2 & Ea & Hf).
      unfold try_except_only, try_except in El.
      rewrite (bind_returns _ _ _ _ _ Ea) in El. injection El as _ <-. exact Hf.
Qed.

End ManifestLoop.

(** ** Claims about the manifest processor *)





(** ** The model on the examples of the specification *)

(** With the directory server down the three other steps still run and
    succeed, and the run as a whole fails. *)
Example directory_down_other_steps_run :
  fst (add_user_results directory_down 1001 "students" "alice" "Ivanova" "Alice" "secret123"
         None initial_world)
  = Ok ([("ldap", false); ("kerberos", true); ("home", true); ("quota", true)], false).
Proof. vm_compute. reflexivity. Qed.

(** The manifest line of the example with the [home] step alone: the
    mapping is [{alice: True}] and neither the directory, nor the realm
    tool, nor a quota tool is called. *)
Example home_step_alone :
  exists w',
    process_user_file
      (sample_env (Some "xfs") missing_tool
         (Ok ["1001 students alice Ivanova Alice secret123"]))
      "users.txt" (Some ["home"]) initial_world
    = (Ok {[ "alice" := true ]}, w')
    /\ history w'
       = [COpen "users.txt"; CMkdir "/home/alice"; CChmod "/home/alice" 488;
          CExists "/etc/skel"; CGetpwnam "alice"].
Proof. eexists. split; vm_compute; reflexivity. Qed.

(** A detailed listing: [alice] has rows in both reports, [bob] in none. *)
Example listing_of_two_users :
  (fun users => map (fun info => (ui_uid info, ui_quota info)) users)
    <$> match fst (list_users (sample_env (Some "xfs") report_tool (Ok [])) true two_users) with
        | Ok users => Some users
        | Raise _ => None
        end
  = Some [("alice", Some "blocks: 50M/100M/200M; inodes: 500/1000/2000");
          ("bob", Some NOT_SET)].
Proof. vm_compute. reflexivity. Qed.

(** * Further properties of the code *)

(** ** Step selection *)



(** ** The filesystem type and the quota backend *)

Lemma get_filesystem_type_answer env path w :
  exists fs,
    get_filesystem_type env path w = (Ok fs, called (CRun ["df"; "-T"; path]) w)
    /\ In fs supported_filesystems
    /\ (fs <> "ext4" ->
        exists r l0 line rest p0 field ps,
          subprocess_run env (history w) ["df"; "-T"; path] = Ok r
          /\ returncode r = 0
          /\ PyStr.lines_of (stdout r) = l0 :: line :: rest
          /\ PyStr.split_ws line = p0 :: field :: ps
          /\ fs = PyStr.lower field).
Proof.
  assert (Hdef : In "ext4" supported_filesystems) by (simpl; tauto).
  unfold get_filesystem_type, try_except, bind, run, ask, called.
  destruct (subprocess_run env (history w) _) as [r|e] eqn:Er.
  - destruct (returncode r =? 0) eqn:Hrc;
      [|eexists; split; [reflexivity|]; split; [exact Hdef | congruence]].
    apply Z.eqb_eq in Hrc.
    destruct (PyStr.lines_of (stdout r)) as [|l0 [|line rest]] eqn:El;
      try (eexists; split; [reflexivity|]; split; [exact Hdef | congruence]).
    destruct (PyStr.split_ws line) as [|p0 [|field ps]] eqn:Ep;
      try (eexists; split; [reflexivity|]; split; [exact Hdef | congruence]).
    destruct (py_in (PyStr.lower field) supported_filesystems) eqn:Hin.
    + eexists. split; [reflexivity|]. split; [apply py_in_In; exact Hin|].
      intros _. exists r, l0, line, rest, p0, field, ps. repeat split; assumption.
    + eexists. split; [reflexivity|]. split; [exact Hdef | congruence].
  - eexists. split; [reflexivity|]. split; [exact Hdef | congruence].
Qed.

(** Resolving the filesystem type returns after [probe], and changes the
    world in no other way. *)
Lemma quota_filesystem_probe env w :
  exists fs w0,
    quota_filesystem env w = (Ok fs, w0)
    /\ history w0 = (history w ++ probe env)%list
    /\ directory w0 = directory w /\ log w0 = log w /\ entered w0 = entered w
    /\ (probe env = [] -> quota_filesystem_type (cfg env) = Some fs)
    /\ (probe env <> [] -> In fs supported_filesystems).
Proof.
  assert (Hdetect : exists fs w0,
             get_filesystem_type env (nfs_home_base (cfg env)) w = (Ok fs, w0)
             /\ history w0
                = (history w ++ [CRun ["df"; "-T"; nfs_home_base (cfg env)]])%list
             /\ directory w0 = directory w /\ log w0 = log w /\ entered w0 = entered w
             /\ In fs supported_filesystems).
  { destruct (get_filesystem_type_answer env (nfs_home_base (cfg env)) w)
      as (fs & E & Hin & _).
    exists fs. eexists. split; [exact E|]. repeat split. exact Hin. }
  unfold quota_filesystem, probe.
  destruct (quota_filesystem_type (cfg env)) as [t|].
  - destruct (String.eqb t "") eqn:Et.
    + destruct Hdetect as (fs & w0 & E & Hh & Hd & Hl & He & Hin).
      exists fs, w0. split; [exact E|]. split; [exact Hh|]. split; [exact Hd|].
      split; [exact Hl|]. split; [exact He|].
      split; [intros H; discriminate H | intros _; exact Hin].
    + exists t, w. split; [reflexivity|]. rewrite app_nil_r.
      split; [reflexivity|]. split; [reflexivity|]. split; [reflexivity|].
      split; [reflexivity|].
      split; [intros _; reflexivity | intros H; contradiction H; reflexivity].
  - destruct Hdetect as (fs & w0 & E & Hh & Hd & Hl & He & Hin).
    exists fs, w0. split; [exact E|]. split; [exact Hh|]. split; [exact Hd|].
    split; [exact Hl|]. split; [exact He|].
    split; [intros H; discriminate H | intros _; exact Hin].
Qed.

Lemma set_user_quota_runs env username w :
  exists fs b w',
    set_user_quota env username w = (Ok b, w')
    /\ history w'
       = (history w ++ probe env ++ [CRun (limit_command env fs username)])%list
    /\ (probe env = [] -> quota_filesystem_type (cfg env) = Some fs)
    /\ (probe env <> [] -> In fs supported_filesystems)
    /\ (b = true <->
        exists r,
          subprocess_run env (history w ++ probe env)%list (limit_command env fs username)
          = Ok r
          /\ returncode r = 0).
Proof.
  unfold set_user_quota.
  unfold bind at 1. unfold enter at 1. cbv iota beta.
  match goal with |- context [try_except _ _ ?w0] => set (w1 := w0) end.
  destruct (quota_filesystem_probe env w1) as (fs & w0 & Efs & Hh & _ & _ & _ & Hc & Hs).
  change (history w1) with (history w) in Hh.
  exists fs. unfold try_except. rewrite (bind_returns _ _ _ _ _ Efs).
  fold (limit_command env fs username).
  unfold bind at 1. unfold run at 1. unfold ask at 1. rewrite Hh.
  destruct (subprocess_run env (history w ++ probe env)%list (limit_command env fs username))
    as [r|e] eqn:Er.
  - destruct (returncode r =? 0) eqn:Hrc.
    + exists true. eexists. split; [reflexivity|]. simpl.
      split; [rewrite app_assoc; reflexivity|].
      split; [exact Hc|]. split; [exact Hs|].
      split; [|reflexivity]. intros _. exists r. split; [reflexivity|].
      apply Z.eqb_eq. exact Hrc.
    + exists false. eexists. split; [reflexivity|]. simpl.
      split; [rewrite app_assoc; reflexivity|].
      split; [exact Hc|]. split; [exact Hs|].
      split; [discriminate|]. intros (r' & Er' & Hr'). injection Er' as <-.
      apply Z.eqb_neq in Hrc. contradiction.
  - exists false. eexists. split; [reflexivity|]. simpl.
    split; [rewrite app_assoc; reflexivity|].
    split; [exact Hc|]. split; [exact Hs|].
    split; [discriminate|]. intros (r' & Er' & _). discriminate Er'.
Qed.

(** X2.  [get_filesystem_type] runs [df -T] once, never raises and
    always answers with one of the four supported types; an answer other
    than ['ext4'] is the lower-cased second column of the second line of
    a [df] run that exited with zero. *)
Theorem get_filesystem_type_supported env path w :
  exists fs,
    get_filesystem_type env path w = (Ok fs, called (CRun ["df"; "-T"; path]) w)
    /\ In fs supported_filesystems
    /\ (fs <> "ext4" ->
        exists r l0 line rest p0 field ps,
          subprocess_run env (history w) ["df"; "-T"; path] = Ok r
          /\ returncode r = 0
          /\ PyStr.lines_of (stdout r) = l0 :: line :: rest
          /\ PyStr.split_ws line = p0 :: field :: ps
          /\ fs = PyStr.lower field).
Proof. exact (get_filesystem_type_answer env path w). Qed.

(** X3.  [set_user_quota] resolves the filesystem type, then runs one
    command: [xfs_quota] with a single combined [limit] command on xfs,
    [setquota] with the four limits in the order soft, hard, inode soft,
    inode hard otherwise.  It never raises, and returns [True] exactly
    when that command could be run and exited with zero. *)
Theorem set_user_quota_dispatch env username w :
  exists fs b w',
    set_user_quota env username w = (Ok b, w')
    /\ history w'
       = (history w ++ probe env ++ [CRun (limit_command env fs username)])%list
    /\ (probe env = [] -> quota_filesystem_type (cfg env) = Some fs)
    /\ (probe env <> [] -> In fs supported_filesystems)
    /\ (b = true <->
        exists r,
          subprocess_run env (history w ++ probe env)%list (limit_command env fs username)
          = Ok r
          /\ returncode r = 0).
Proof. exact (set_user_quota_runs env username w). Qed.

(** X4.  [add_user_to_kerberos] never raises, and returns [True]
    exactly when its last act was a run of [kadmin] with the query
    [addprinc -pw "password" username@REALM] that exited with zero. *)
Theorem add_user_to_kerberos_status env username password w :
  exists b w',
    add_user_to_kerberos env username password w = (Ok b, w')
    /\ (b = true <->
        exists h kadmin_password r,
          history w' = (h ++ [CRun (addprinc_command env kadmin_password username
                                      password)])%list
          /\ subprocess_run env h (addprinc_command env kadmin_password username password)
             = Ok r
          /\ returncode r = 0).
Proof.
  unfold add_user_to_kerberos.
  unfold bind at 1. unfold enter at 1. cbv iota beta.
  match goal with |- context [try_except _ _ ?w0] => set (w1 := w0) end.
  unfold try_except. unfold bind at 1.
  assert (Hpw : (exists pw w2,
                    _get_kadmin_password env w1 = (Ok pw, w2)
                    /\ (w2 = w1 \/ exists c, w2 = called (CGetpass c) w1))
                \/ (exists e c, _get_kadmin_password env w1
                                = (Raise e, called (CGetpass c) w1))).
  { unfold _get_kadmin_password, prompt, ask.
    destruct (String.eqb (krb_kadmin_password (cfg env)) "").
    - destruct (getpass env (history w1) _) as [pw|e].
      + left. exists pw. eexists. split; [reflexivity|]. right. eexists. reflexivity.
      + right. exists e. eexists. reflexivity.
    - left. exists (krb_kadmin_password (cfg env)), w1. split; [reflexivity | left; reflexivity]. }
  destruct Hpw as [(pw & w2 & Epw & Hw2)|(e & c & Epw)]; rewrite Epw.
  - fold (addprinc_command env pw username password).
    unfold bind at 1. unfold run at 1. unfold ask at 1.
    destruct (subprocess_run env (history w2) (addprinc_command env pw username password))
      as [r|e] eqn:Er.
    + destruct (returncode r =? 0) eqn:Hrc.
      * exists true. eexists. split; [reflexivity|]. split; [|reflexivity].
        intros _. exists (history w2), pw, r. split; [reflexivity|].
        split; [exact Er | apply Z.eqb_eq; exact Hrc].
      * exists false. eexists. split; [reflexivity|]. split; [discriminate|].
        intros (h & pw' & r' & Hh & Hrun & Hr'). simpl in Hh.
        apply app_inj_tail in Hh. destruct Hh as [<- Hcmd]. injection Hcmd as <-.
        fold (addprinc_command env pw username password) in Hrun.
        rewrite Er in Hrun. injection Hrun as <-.
        apply Z.eqb_neq in Hrc. contradiction.
    + exists false. eexists. split; [reflexivity|]. split; [discriminate|].
      intros (h & pw' & r' & Hh & Hrun & _). simpl in Hh.
      apply app_inj_tail in Hh. destruct Hh as [<- Hcmd]. injection Hcmd as <-.
      fold (addprinc_command env pw username password) in Hrun.
      rewrite Er in Hrun. discriminate Hrun.
  - exists false. eexists. split; [reflexivity|]. split; [discriminate|].
    intros (h & pw' & r' & Hh & _). simpl in Hh.
    apply app_inj_tail in Hh. destruct Hh as [_ Hcmd]. discriminate Hcmd.
Qed.

(** ** Which calls a computation makes *)

Section CallsOnly.

Variable P : Call -> bool.

Lemma calls_only_ret {A} (a : A) : calls_only P (ret a).
Proof. intros w. exists []. split; [symmetry; apply app_nil_r | reflexivity]. Qed.

Lemma calls_only_raise {A} (e : exn) : calls_only P (@raise A e).
Proof. intros w. exists []. split; [symmetry; apply app_nil_r | reflexivity]. Qed.

Lemma calls_only_of_option {A} (e : exn) (o : option A) : calls_only P (of_option e o).
Proof. destruct o; [apply calls_only_ret | apply calls_only_raise]. Qed.

Lemma calls_only_logger l msg : calls_only P (logger l msg).
Proof. intros w. exists []. split; [symmetry; apply app_nil_r | reflexivity]. Qed.

Lemma calls_only_enter e : calls_only P (enter e).
Proof. intros w. exists []. split; [symmetry; apply app_nil_r | reflexivity]. Qed.

Lemma calls_only_get_directory : calls_only P get_directory.
Proof. intros w. exists []. split; [symmetry; apply app_nil_r | reflexivity]. Qed.

Lemma calls_only_set_directory d : calls_only P (set_directory d).
Proof. intros w. exists []. split; [symmetry; apply app_nil_r | reflexivity]. Qed.

Lemma calls_only_ask {A} c (f : list Call -> result A) :
  P c = true -> calls_only P (ask c f).
Proof. intros Hc w. exists [c]. split; [reflexivity | simpl; rewrite Hc; reflexivity]. Qed.

Lemma calls_only_bind {A B} (m : M A) (k : A -> M B) :
  calls_only P m -> (forall a, calls_only P (k a)) -> calls_only P (bind m k).
Proof.
  intros Hm Hk w. unfold bind. destruct (Hm w) as (a1 & H1 & P1).
  destruct (m w) as [[a|e] w1]; simpl in H1.
  - destruct (Hk a w1) as (a2 & H2 & P2). exists (a1 ++ a2)%list.
    rewrite H2, H1, app_assoc, forallb_app, P1, P2. split; reflexivity.
  - exists a1. split; [exact H1 | exact P1].
Qed.

Lemma calls_only_try_except {A} (m : M A) (h : exn -> M A) :
  calls_only P m -> (forall e, calls_only P (h e)) -> calls_only P (try_except m h).
Proof.
  intros Hm Hh w. unfold try_except. destruct (Hm w) as (a1 & H1 & P1).
  destruct (m w) as [[a|e] w1]; simpl in H1.
  - exists a1. split; [exact H1 | exact P1].
  - destruct (Hh e w1) as (a2 & H2 & P2). exists (a1 ++ a2)%list.
    rewrite H2, H1, app_assoc, forallb_app, P1, P2. split; reflexivity.
Qed.

Lemma calls_only_try_except_only {A} (cls : exn) (m h : M A) :
  calls_only P m -> calls_only P h -> calls_only P (try_except_only cls m h).
Proof.
  intros Hm Hh. apply calls_only_try_except; [exact Hm|].
  intros e. destruct (decide (e = cls)); [exact Hh | apply calls_only_raise].
Qed.

Lemma calls_only_for_each {A} (l : list A) (body : A -> M unit) :
  (forall x, calls_only P (body x)) -> calls_only P (for_each l body).
Proof.
  intros Hb. induction l as [|x l IH]; simpl.
  - apply calls_only_ret.
  - apply calls_only_bind; [apply Hb | intros _; exact IH].
Qed.

End CallsOnly.

Ltac calls_step :=
  first
    [ apply calls_only_ret | apply calls_only_raise | apply calls_only_of_option
    | apply calls_only_logger | apply calls_only_enter
    | apply calls_only_get_directory | apply calls_only_set_directory
    | apply calls_only_ask; reflexivity
    | apply calls_only_bind; [| intros ]
    | apply calls_only_try_except_only
    | apply calls_only_try_except; [| intros ]
    | apply calls_only_for_each; intros
    | match goal with
      | |- calls_only _ (if ?b then _ else _) => destruct b
      | |- calls_only _ (match ?x with _ => _ end) => destruct x
      | |- calls_only _ (let _ := _ in _) => cbv zeta
      end ].

Section LocalSteps.

Variable env : Env.

Lemma create_home_directory_local username :
  calls_only is_local_call (create_home_directory env username).
Proof. unfold create_home_directory, os_call. repeat calls_step. Qed.

Lemma set_user_quota_local username :
  calls_only is_local_call (set_user_quota env username).
Proof.
  intros w. destruct (set_user_quota_runs env username w)
    as (fs & b & w' & E & Hh & _).
  rewrite E. simpl. eexists. split; [exact Hh|].
  rewrite forallb_app. apply andb_true_iff. split.
  - unfold probe. destruct (quota_filesystem_type (cfg env)) as [t|]; [|reflexivity].
    destruct (String.eqb t ""); reflexivity.
  - unfold limit_command. destruct (is_xfs fs); reflexivity.
Qed.

End LocalSteps.

(** ** Steps that stay on the local system *)

(** X5.  When neither [ldap] nor [kerberos] is among the steps listed,
    [add_user] makes local calls only --- the filesystem, the account
    database, [df] and the quota tools --- and leaves the directory as
    it was: the directory server, the realm tool and the password
    prompts are never reached. *)
Theorem local_steps_stay_local
    env uid groups username surname firstname password (steps : list string) w :
  ~ In "ldap" steps ->
  ~ In "kerberos" steps ->
  exists r w' added,
    add_user_results env uid groups username surname firstname password (Some steps) w
    = (Ok r, w')
    /\ history w' = (history w ++ added)%list
    /\ forallb is_local_call added = true
    /\ directory w' = directory w.
Proof.
  intros Hl Hk.
  assert (H1 : py_in "ldap" steps = false).
  { apply not_true_is_false. intros H. apply py_in_In in H. exact (Hl H). }
  assert (H2 : py_in "kerberos" steps = false).
  { apply not_true_is_false. intros H. apply py_in_In in H. exact (Hk H). }
  set (m := add_user_results env uid groups username surname firstname password (Some steps)).
  assert (Hc : calls_only is_local_call m).
  { subst m. unfold add_user_results, run_step. simpl default. rewrite H1, H2.
    repeat first [ apply create_home_directory_local | apply set_user_quota_local
                 | calls_step ]. }
  assert (Hd : keeps directory m).
  { subst m. unfold add_user_results, run_step. simpl default. rewrite H1, H2.
    repeat first [ apply create_home_directory_keeps_directory
                 | apply set_user_quota_keeps_directory | frame_step ]. }
  destruct (add_user_results_shape env uid groups username surname firstname password
              (Some steps) w) as (results & w' & E & _).
  destruct (Hc w) as (added & Hh & Hp). specialize (Hd w).
  fold m in E. rewrite E in Hh, Hd. simpl in Hh, Hd.
  eexists. exists w', added. split; [exact E|]. split; [exact Hh|]. split; assumption.
Qed.

Lemma local_steps_stay_local_witness :
  exists w',
    add_user_results directory_down 1001 "students" "alice" "Ivanova" "Alice" "secret123"
      (Some ["quota"; "home"]) initial_world
    = (Ok ([("home", true); ("quota", true)], true), w')
    /\ forallb is_local_call (history w') = true.
Proof.
  destruct (local_steps_stay_local directory_down 1001 "students" "alice" "Ivanova" "Alice"
              "secret123" ["quota"; "home"] initial_world)
    as (r & w' & added & E & Hh & Hp & _).
  - intros [H|[H|[]]]; discriminate H.
  - intros [H|[H|[]]]; discriminate H.
  - exists w'. split.
    + rewrite E. f_equal. f_equal.
      assert (Er : fst (add_user_results directory_down 1001 "students" "alice" "Ivanova"
                          "Alice" "secret123" (Some ["quota"; "home"]) initial_world)
                   = Ok ([("home", true); ("quota", true)], true))
        by (vm_compute; reflexivity).
      rewrite E in Er. simpl in Er. injection Er as ->. reflexivity.
    + rewrite Hh. exact Hp.
Defined.

(** ** The home directory step *)



(** ** The home directory check *)

(** X7.  [check_home_directory] never raises and changes nothing: it
    asks whether the path under the home base exists and, only if it
    does, whether it is a directory, and returns [True] exactly when
    both answers are yes. *)
Theorem check_home_directory_spec env username w :
  exists b w',
    check_home_directory env username w = (Ok b, w')
    /\ (b = true <->
        os_path_exists env (history w) (home_dir_of env username) = true
        /\ os_path_isdir env (history w ++ [CExists (home_dir_of env username)])%list
             (home_dir_of env username) = true)
    /\ history w'
       = (history w
          ++ CExists (home_dir_of env username)
             :: (if os_path_exists env (history w) (home_dir_of env username)
                 then [CIsdir (home_dir_of env username)] else []))%list
    /\ directory w' = directory w
    /\ entered w' = entered w
    /\ log w' = log w.
Proof.
  unfold check_home_directory, try_except, bind, ask, ret, home_dir_of. simpl.
  destruct (os_path_exists env (history w) _) eqn:Ee.
  - destruct (os_path_isdir env _ _) eqn:Ed.
    + exists true. eexists. split; [reflexivity|]. simpl.
      split; [tauto|]. rewrite <- app_assoc. repeat split.
    + exists false. eexists. split; [reflexivity|]. simpl.
      split; [split; [discriminate | intros [_ H]; discriminate H]|].
      rewrite <- app_assoc. repeat split.
  - exists false. eexists. split; [reflexivity|]. simpl.
    split; [split; [discriminate | intros [H _]; discriminate H]|].
    repeat split.
Qed.

Section Total.

Lemma total_ret {A} (a : A) : total (ret a).
Proof. intros w. eexists. eexists. reflexivity. Qed.

Lemma total_bind {A B} (m : M A) (k : A -> M B) :
  total m -> (forall a, total (k a)) -> total (bind m k).
Proof.
  intros Hm Hk w. destruct (Hm w) as (a & w1 & E).
  rewrite (bind_returns _ _ _ _ _ E). apply Hk.
Qed.

Lemma total_for_each {A} (l : list A) (body : A -> M unit) :
  (forall x, total (body x)) -> total (for_each l body).
Proof.
  intros Hb. induction l as [|x l IH]; simpl.
  - apply total_ret.
  - apply total_bind; [apply Hb | intros _; exact IH].
Qed.

Lemma total_ask {A} c (f : list Call -> result A) :
  (forall h, exists a, f h = Ok a) -> total (ask c f).
Proof.
  intros Hf w. destruct (Hf (history w)) as (a & E). unfold ask. rewrite E.
  eexists. eexists. reflexivity.
Qed.

End Total.

Section HomeStep.

Variable env : Env.
Hypothesis calm : calm_system env.

Lemma os_call_total c : total (os_call env c).
Proof.
  unfold os_call. apply total_ask. intros h. destruct calm as [Hos _].
  rewrite Hos. eexists. reflexivity.
Qed.

(** Copying the skeleton: the block under [if os.path.exists(skel_dir)]. *)
Lemma copy_skeleton_total (skel_exists : bool) skel_dir home_dir :
  total (if skel_exists then
           items <- ask (CListdir skel_dir) (fun h => os_listdir env h skel_dir) ;;
           for_each items (fun item =>
             let src := PyStr.path_join skel_dir item in
             let dst := PyStr.path_join home_dir item in
             is_dir <- ask (CIsdir src) (fun h => Ok (os_path_isdir env h src)) ;;
             if is_dir : bool then os_call env (CCopytree src dst)
             else os_call env (CCopy2 src dst))
         else ret tt)%py.
Proof.
  destruct skel_exists; [|apply total_ret].
  apply total_bind.
  - apply total_ask. intros h. destruct calm as [_ Hls]. apply Hls.
  - intros items. apply total_for_each. intros item. cbv zeta.
    apply total_bind.
    + apply total_ask. intros h. eexists. reflexivity.
    + intros [|]; apply os_call_total.
Qed.

Lemma copy_skeleton_calls (skel_exists : bool) skel_dir home_dir :
  calls_only is_copy_call
    (if skel_exists then
       items <- ask (CListdir skel_dir) (fun h => os_listdir env h skel_dir) ;;
       for_each items (fun item =>
         let src := PyStr.path_join skel_dir item in
         let dst := PyStr.path_join home_dir item in
         is_dir <- ask (CIsdir src) (fun h => Ok (os_path_isdir env h src)) ;;
         if is_dir : bool then os_call env (CCopytree src dst)
         else os_call env (CCopy2 src dst))
     else ret tt)%py.
Proof. unfold os_call. repeat calls_step. Qed.

(** With a calm operating system and an account the local system does
    not know, the home step succeeds; its last call is the account
    lookup, after which a warning and the closing record are logged. *)
Lemma create_home_directory_without_account username mode w :
  PyStr.int8 (default "750" (nfs_home_permissions (cfg env))) = Some mode ->
  (forall h, getpwnam env h username = None) ->
  exists w5 copied warning done,
    create_home_directory env username w
    = (Ok true, logged done (logged warning (called (CGetpwnam username) w5)))
    /\ history w5
       = (history w
          ++ CMkdir (home_dir_of env username)
             :: CChmod (home_dir_of env username) mode
             :: CExists (nfs_skel_dir (cfg env)) :: copied)%list
    /\ forallb is_copy_call copied = true
    /\ level warning = WARNING
    /\ level done = INFO.
Proof.
  intros Hmode Hpw. destruct calm as [Hos Hls].
  unfold create_home_directory. fold (home_dir_of env username).
  unfold bind at 1. unfold enter at 1. cbv iota beta.
  unfold try_except. unfold bind at 1. rewrite Hmode. unfold of_option, ret at 1.
  cbv iota beta.
  unfold bind at 1. unfold os_call at 1. unfold ask at 1. rewrite Hos. cbv iota beta.
  unfold bind at 1. unfold os_call at 1. unfold ask at 1. rewrite Hos. cbv iota beta.
  unfold bind at 1. unfold ask at 1. cbv iota beta.
  match goal with
  | |- context [bind (if ?b then _ else _) _ ?w0] =>
      destruct (copy_skeleton_total b (nfs_skel_dir (cfg env)) (home_dir_of env username) w0)
        as ([] & w5 & Ecopy);
      destruct (copy_skeleton_calls b (nfs_skel_dir (cfg env)) (home_dir_of env username) w0)
        as (copied & Hh & Hp)
  end.
  rewrite Ecopy in Hh. simpl in Hh.
  rewrite (bind_returns _ _ _ _ _ Ecopy).
  unfold bind at 1. unfold try_except_only, try_except.
  unfold bind at 1. unfold ask at 1. rewrite Hpw. cbv iota beta.
  rewrite decide_True by reflexivity.
  exists w5, copied. eexists. eexists. split; [reflexivity|].
  split; [|split; [exact Hp | split; reflexivity]].
  rewrite Hh. rewrite <- !app_assoc. reflexivity.
Qed.

End HomeStep.



(** ** What the quota parsers show *)

Lemma render_not_sentinel b i : render b i <> NOT_SET /\ render b i <> QUOTA_ERROR.
Proof. unfold render, NOT_SET, QUOTA_ERROR. split; discriminate. Qed.

Lemma xfs_user_quota_not_error username rb ri :
  xfs_user_quota username rb ri <> QUOTA_ERROR.
Proof.
  unfold xfs_user_quota. destruct (truthy _ || truthy _).
  - apply render_not_sentinel.
  - discriminate.
Qed.

Lemma generic_user_quota_not_error r : generic_user_quota r <> QUOTA_ERROR.
Proof.
  unfold generic_user_quota.
  destruct (returncode r =? 0); [|discriminate].
  destruct (PyStr.lines_of (stdout r)) as [|l0 [|l1 [|l2 ls]]]; try discriminate.
  destruct (PyStr.split_ws l2) as [|p0 [|p1 [|p2 [|p3 [|p4 [|p5 ps]]]]]]; discriminate.
Qed.

Lemma get_user_quota_answers env username w :
  exists s w',
    get_user_quota env username w = (Ok s, w')
    /\ (s = QUOTA_ERROR <->
        exists h cmd e,
          history w' = (h ++ [CRun cmd])%list /\ subprocess_run env h cmd = Raise e).
Proof.
  destruct (quota_filesystem_probe env w) as (fs & w0 & Efs & _).
  unfold get_user_quota, try_except. rewrite (bind_returns _ _ _ _ _ Efs).
  destruct (is_xfs fs).
  - unfold bind at 1. unfold run at 1. unfold ask at 1.
    destruct (subprocess_run env (history w0) (cmd_blocks env)) as [rb|e] eqn:Eb.
    + unfold bind at 1. unfold run at 1. unfold ask at 1. cbv iota beta. simpl history.
      destruct (subprocess_run env _ (cmd_inodes env)) as [ri|e] eqn:Ei.
      * eexists. eexists. split; [reflexivity|]. split.
        -- intros H. contradiction (xfs_user_quota_not_error _ _ _ H).
        -- intros (h & cmd & e & Hh & Hr). simpl in Hh.
           apply app_inj_tail in Hh. destruct Hh as [<- Hc]. injection Hc as <-.
           rewrite Ei in Hr. discriminate Hr.
      * eexists. eexists. split; [reflexivity|]. split; [|reflexivity].
        intros _. eexists. exists (cmd_inodes env), e. split; [reflexivity | exact Ei].
    + eexists. eexists. split; [reflexivity|]. split; [|reflexivity].
      intros _. exists (history w0), (cmd_blocks env), e. split; [reflexivity | exact Eb].
  - unfold bind at 1. unfold run at 1. unfold ask at 1.
    destruct (subprocess_run env (history w0) ["quota"; "-u"; username]) as [r|e] eqn:Er.
    + eexists. eexists. split; [reflexivity|]. split.
      * intros H. contradiction (generic_user_quota_not_error _ H).
      * intros (h & cmd & e & Hh & Hr). simpl in Hh.
        apply app_inj_tail in Hh. destruct Hh as [<- Hc]. injection Hc as <-.
        rewrite Er in Hr. discriminate Hr.
    + eexists. eexists. split; [reflexivity|]. split; [|reflexivity].
      intros _. exists (history w0), ["quota"; "-u"; username], e.
      split; [reflexivity | exact Er].
Qed.

(** X9.  [get_user_quota] never raises, and it returns the error status
    exactly when the quota tool it ran last could not be started; a tool
    that runs, whatever it prints and however it exits, gives a
    rendering or the not-set status. *)
Theorem get_user_quota_error_status env username w :
  exists s w',
    get_user_quota env username w = (Ok s, w')
    /\ (s = QUOTA_ERROR <->
        exists h cmd e,
          history w' = (h ++ [CRun cmd])%list /\ subprocess_run env h cmd = Raise e).
Proof. exact (get_user_quota_answers env username w). Qed.

(** Entries, once made, stay. *)
Lemma xfs_batch_line_stays store (quotas : gmap string QuotaEntry) line username :
  is_Some (quotas !! username) \/ xfs_data_row username line = true ->
  is_Some (xfs_batch_line store quotas line !! username).
Proof.
  unfold xfs_batch_line, xfs_data_row. intros H.
  destruct (PyStr.split_ws line) as [|p0 [|p1 [|p2 [|p3 [|p4 ps]]]]];
    try (destruct H as [H|H]; [exact H | discriminate H]).
  destruct (py_in p0 xfs_skipped); simpl in *.
  - destruct H as [H|H]; [exact H|]. rewrite andb_false_r in H. discriminate H.
  - destruct (decide (p0 = username)) as [->|Hne].
    + rewrite lookup_alter_eq. destruct (quotas !! username) as [e|] eqn:Eq.
      * rewrite Eq. eexists. reflexivity.
      * rewrite lookup_insert_eq. eexists. reflexivity.
    + rewrite lookup_alter_ne by exact Hne.
      assert (Hs : is_Some (quotas !! username)).
      { destruct H as [H|H]; [exact H|]. rewrite andb_true_r in H.
        apply String.eqb_eq in H. contradiction. }
      destruct (quotas !! p0); [exact Hs|].
      rewrite lookup_insert_ne by exact Hne. exact Hs.
Qed.

Lemma xfs_batch_fold_stays store username lines : forall quotas : gmap string QuotaEntry,
  is_Some (quotas !! username) \/ existsb (xfs_data_row username) lines = true ->
  is_Some (fold_left (xfs_batch_line store) lines quotas !! username).
Proof.
  induction lines as [|line lines IH]; intros quotas H; simpl in *.
  - destruct H as [H|H]; [exact H | discriminate H].
  - apply IH. destruct H as [H|H].
    + left. apply xfs_batch_line_stays. left. exact H.
    + apply orb_true_iff in H. destruct H as [H|H]; [|right; exact H].
      left. apply xfs_batch_line_stays. right. exact H.
Qed.

Lemma xfs_batch_report_stays store username result (quotas : gmap string QuotaEntry) :
  is_Some (quotas !! username) \/ has_row xfs_data_row username result = true ->
  is_Some (xfs_batch_report store result quotas !! username).
Proof.
  unfold xfs_batch_report, has_row. intros H.
  destruct (returncode result =? 0); simpl in H.
  - apply xfs_batch_fold_stays. exact H.
  - destruct H as [H|H]; [exact H | discriminate H].
Qed.

Lemma generic_batch_line_rendered (quotas : gmap string QuotaEntry) line username :
  rendered (quotas !! username) \/ generic_data_row username line = true ->
  rendered (generic_batch_line quotas line !! username).
Proof.
  unfold generic_batch_line, generic_data_row. intros H.
  destruct (PyStr.split_ws line) as [|p0 [|p1 [|p2 [|p3 [|p4 [|p5 ps]]]]]];
    try (destruct H as [H|H]; [exact H | discriminate H]).
  destruct (py_in p0 generic_skipped); simpl in *.
  - destruct H as [H|H]; [exact H|]. rewrite andb_false_r in H. discriminate H.
  - destruct (decide (p0 = username)) as [->|Hne].
    + rewrite lookup_insert_eq. eexists. eexists. eexists. split; reflexivity.
    + rewrite lookup_insert_ne by exact Hne.
      destruct H as [H|H]; [exact H|]. rewrite andb_true_r in H.
      apply String.eqb_eq in H. contradiction.
Qed.

Lemma generic_batch_fold_rendered username lines : forall quotas : gmap string QuotaEntry,
  rendered (quotas !! username) \/ existsb (generic_data_row username) lines = true ->
  rendered (fold_left generic_batch_line lines quotas !! username).
Proof.
  induction lines as [|line lines IH]; intros quotas H; simpl in *.
  - destruct H as [H|H]; [exact H | discriminate H].
  - apply IH. destruct H as [H|H].
    + left. apply generic_batch_line_rendered. left. exact H.
    + apply orb_true_iff in H. destruct H as [H|H]; [|right; exact H].
      left. apply generic_batch_line_rendered. right. exact H.
Qed.

Lemma row_has_rendering reports username :
  has_data_row username reports = true ->
  rendered (quotas_of reports !! username).
Proof.
  destruct reports as [rb ri|r|]; simpl; intros H.
  - assert (Hs : is_Some (xfs_batch_report set_inodes ri (xfs_batch_report set_blocks rb ∅)
                          !! username)).
    { apply orb_true_iff in H. destruct H as [H|H].
      - apply xfs_batch_report_stays. left. apply xfs_batch_report_stays. right. exact H.
      - apply xfs_batch_report_stays. right. exact H. }
    destruct Hs as (e & He). unfold xfs_all_quotas. rewrite lookup_fmap, He.
    eexists. eexists. eexists. split; reflexivity.
  - unfold generic_all_quotas, has_row in *.
    destruct (returncode r =? 0); [|discriminate H]. simpl in H.
    apply generic_batch_fold_rendered. right. exact H.
  - discriminate H.
Qed.

Lemma skipped_has_no_row reports username :
  py_in username (match reports with
                  | XfsReports _ _ => xfs_skipped
                  | _ => generic_skipped
                  end) = true ->
  has_data_row username reports = false.
Proof.
  intros Hskip. destruct reports as [rb ri|r|]; simpl; [| |reflexivity].
  - assert (Hno : forall lines, existsb (xfs_data_row username) lines = false).
    { induction lines as [|l ls IH]; simpl; [reflexivity|]. rewrite IH, orb_false_r.
      unfold xfs_data_row.
      destruct (PyStr.split_ws l) as [|p0 [|p1 [|p2 [|p3 [|p4 ps]]]]]; try reflexivity.
      destruct (String.eqb_spec p0 username) as [->|]; [|reflexivity].
      rewrite Hskip. reflexivity. }
    unfold has_row. rewrite !Hno, !andb_false_r. reflexivity.
  - assert (Hno : forall lines, existsb (generic_data_row username) lines = false).
    { induction lines as [|l ls IH]; simpl; [reflexivity|]. rewrite IH, orb_false_r.
      unfold generic_data_row.
      destruct (PyStr.split_ws l) as [|p0 [|p1 [|p2 [|p3 [|p4 [|p5 ps]]]]]];
        try reflexivity.
      destruct (String.eqb_spec p0 username) as [->|]; [|reflexivity].
      rewrite Hskip. reflexivity. }
    unfold has_row. rewrite Hno, andb_false_r. reflexivity.
Qed.

(** X10.  The quota a listing shows for a user name is the not-set
    status exactly when the name has no data row in the reports; a name
    with a data row always gets a rendering [blocks: ...; inodes: ...]. *)
Theorem sentinel_iff_no_data_row reports username :
  (quota_of (quotas_of reports) username = NOT_SET
   <-> has_data_row username reports = false)
  /\ (has_data_row username reports = true ->
      exists b i, quota_of (quotas_of reports) username = render b i).
Proof.
  assert (Hrow : has_data_row username reports = true ->
                 exists b i, quota_of (quotas_of reports) username = render b i).
  { intros H. destruct (row_has_rendering _ _ H) as (e & b & i & He & Hq).
    exists b, i. unfold quota_of. rewrite He. simpl. rewrite Hq. reflexivity. }
  split; [|exact Hrow].
  split.
  - intros Hs. destruct (has_data_row username reports) eqn:Hd; [|reflexivity].
    destruct (Hrow eq_refl) as (b & i & Hq). rewrite Hq in Hs.
    contradiction (proj1 (render_not_sentinel b i) Hs).
  - intros H. unfold quota_of. rewrite (no_row_no_entry _ _ H). reflexivity.
Qed.

(** X11.  The names the parsers skip --- the header words, the
    separator row and [root] on XFS, [Filesystem] and [root] otherwise
    --- are never keys of the quotas [get_all_quotas] builds, whatever
    the reports say. *)
Theorem skipped_names_are_never_listed username :
  (In username xfs_skipped ->
   forall rb ri, quotas_of (XfsReports rb ri) !! username = None)
  /\ (In username generic_skipped ->
      forall r, quotas_of (GenericReport r) !! username = None).
Proof.
  split.
  - intros Hin rb ri. apply no_row_no_entry.
    apply (skipped_has_no_row (XfsReports rb ri)). apply py_in_In. exact Hin.
  - intros Hin r. apply no_row_no_entry.
    apply (skipped_has_no_row (GenericReport r)). apply py_in_In. exact Hin.
Qed.

Lemma skipped_names_are_never_listed_witness :
  quotas_of (XfsReports (completed 0 "root 1G 0 0 00") example_inodes) !! "root" = None
  /\ quotas_of (GenericReport (completed 0 "root 1 2 3 4 5 6")) !! "root" = None.
Proof.
  split.
  - apply (proj1 (skipped_names_are_never_listed "root")). simpl. tauto.
  - apply (proj2 (skipped_names_are_never_listed "root")). simpl. tauto.
Defined.

(** ** More on the manifest processor *)

Section ManifestKeys.

Variable env : Env.

Lemma process_line_keys steps n line results w results' w' username :
  process_line env steps n line results w = (Ok results', w') ->
  (is_Some (results' !! username)
   <-> is_Some (results !! username) \/ names_user username line = true).
Proof.
  intros E. unfold names_user.
  destruct (classify line) as [| |uid|uid g u s f p] eqn:Hc.
  - unfold process_line in E. rewrite Hc in E. injection E as <- _.
    split; [tauto | intros [H|H]; [exact H | discriminate H]].
  - destruct (process_line_skips env steps n line results w) as (rec & E' & _);
      [rewrite Hc; reflexivity|].
    rewrite E' in E. injection E as <- _.
    split; [tauto | intros [H|H]; [exact H | discriminate H]].
  - destruct (process_line_skips env steps n line results w) as (rec & E' & _);
      [rewrite Hc; reflexivity|].
    rewrite E' in E. injection E as <- _.
    split; [tauto | intros [H|H]; [exact H | discriminate H]].
  - destruct (process_line_user env steps n line results w _ _ _ _ _ _ Hc)
      as (b & w2 & _ & E').
    rewrite E' in E. injection E as <- _.
    destruct (String.eqb_spec u username) as [->|Hne].
    + rewrite lookup_insert_eq. split; [tauto | intros _; eexists; reflexivity].
    + rewrite lookup_insert_ne by exact Hne.
      split; [tauto | intros [H|H]; [exact H | discriminate H]].
Qed.

Lemma process_lines_keys steps username lines : forall n results w results' w',
  process_lines env steps n lines results w = (results', None, w') ->
  (is_Some (results' !! username)
   <-> is_Some (results !! username) \/ existsb (names_user username) lines = true).
Proof.
  induction lines as [|line lines IH]; intros n results w results' w' E; simpl in *.
  - injection E as <- _. split; [tauto | intros [H|H]; [exact H | discriminate H]].
  - destruct (process_line env steps n line results w) as [[r|e] w1] eqn:El;
      [|discriminate E].
    rewrite (IH _ _ _ _ _ E), (process_line_keys _ _ _ _ _ _ _ username El).
    rewrite orb_true_iff. tauto.
Qed.

End ManifestKeys.


Lemma blank_line_kind line :
  PyStr.strip line = "" \/ PyStr.startswith (PyStr.strip line) "#" = true ->
  classify line = Blank.
Proof.
  intros H. unfold classify. cbv zeta.
  destruct H as [H|H]; rewrite H; [reflexivity | rewrite orb_true_r; reflexivity].
Qed.



(** ** What a listing calls *)

Section QuotaRuns.

Lemma no_quota_tool_runs added :
  forallb no_quota_tool added = true -> quota_tool_runs added = [].
Proof.
  unfold quota_tool_runs, no_quota_tool.
  induction added as [|c added IH]; simpl; [reflexivity|].
  intros H. apply andb_true_iff in H. destruct H as [Hc H].
  apply negb_true_iff in Hc. rewrite Hc. exact (IH H).
Qed.

Lemma calls_only_no_runs {A} (m : M A) :
  calls_only no_quota_tool m -> quota_runs_at_most 0 m.
Proof.
  intros Hm w. destruct (Hm w) as (added & Hh & Hp). exists [].
  split; [|reflexivity].
  rewrite Hh. unfold quota_tool_runs at 1. rewrite List.filter_app.
  fold (quota_tool_runs (history w)). fold (quota_tool_runs added).
  rewrite (no_quota_tool_runs _ Hp). reflexivity.
Qed.

Lemma quota_runs_bind_l {A B} n (m : M A) (k : A -> M B) :
  calls_only no_quota_tool m -> (forall a, quota_runs_at_most n (k a)) ->
  quota_runs_at_most n (bind m k).
Proof.
  intros Hm Hk w. unfold bind.
  destruct (calls_only_no_runs m Hm w) as (i1 & H1 & L1).
  destruct i1; [|simpl in L1; lia]. rewrite app_nil_r in H1.
  destruct (m w) as [[a|e] w1]; simpl in H1.
  - destruct (Hk a w1) as (i2 & H2 & L2). exists i2. rewrite H2, H1. split; [reflexivity | exact L2].
  - exists []. simpl. rewrite H1, app_nil_r. split; [reflexivity | lia].
Qed.

Lemma quota_runs_bind_r {A B} n (m : M A) (k : A -> M B) :
  quota_runs_at_most n m -> (forall a, calls_only no_quota_tool (k a)) ->
  quota_runs_at_most n (bind m k).
Proof.
  intros Hm Hk w. unfold bind. destruct (Hm w) as (i1 & H1 & L1).
  destruct (m w) as [[a|e] w1]; simpl in H1.
  - destruct (calls_only_no_runs _ (Hk a) w1) as (i2 & H2 & L2).
    destruct i2; [|simpl in L2; lia]. rewrite app_nil_r in H2.
    exists i1. rewrite H2, H1. split; [reflexivity | exact L1].
  - exists i1. split; [exact H1 | exact L1].
Qed.

Lemma quota_runs_try_except {A} n (m : M A) (h : exn -> M A) :
  quota_runs_at_most n m -> (forall e, calls_only no_quota_tool (h e)) ->
  quota_runs_at_most n (try_except m h).
Proof.
  intros Hm Hh w. unfold try_except. destruct (Hm w) as (i1 & H1 & L1).
  destruct (m w) as [[a|e] w1]; simpl in H1.
  - exists i1. split; [exact H1 | exact L1].
  - destruct (calls_only_no_runs _ (Hh e) w1) as (i2 & H2 & L2).
    destruct i2; [|simpl in L2; lia]. rewrite app_nil_r in H2.
    exists i1. rewrite H2, H1. split; [reflexivity | exact L1].
Qed.

End QuotaRuns.

Section ListingCalls.

Variable env : Env.

Lemma check_kerberos_principal_no_quota username :
  calls_only no_quota_tool (check_kerberos_principal env username).
Proof.
  unfold check_kerberos_principal, check_getprinc, _get_kadmin_password, prompt, run.
  repeat calls_step.
Qed.

Lemma check_home_directory_no_quota username :
  calls_only no_quota_tool (check_home_directory env username).
Proof. unfold check_home_directory. repeat calls_step. Qed.

Lemma user_info_of_no_quota detailed all_quotas entry :
  calls_only no_quota_tool (user_info_of env detailed all_quotas entry).
Proof.
  unfold user_info_of, attr_value.
  repeat first [ apply check_kerberos_principal_no_quota
               | apply check_home_directory_no_quota | calls_step ].
Qed.

Lemma collect_users_no_quota detailed all_quotas entries :
  forall users, calls_only no_quota_tool (collect_users env detailed all_quotas entries users).
Proof.
  induction entries as [|entry entries IH]; intros users; simpl.
  - apply calls_only_ret.
  - apply calls_only_bind; [apply user_info_of_no_quota | intros info; apply IH].
Qed.

Lemma get_ldap_connection_no_quota : calls_only no_quota_tool (_get_ldap_connection env).
Proof. unfold _get_ldap_connection, prompt, ldap_call. repeat calls_step. Qed.

Lemma get_all_quotas_runs : quota_runs_at_most 2 (get_all_quotas env).
Proof.
  intros w. destruct (get_all_quotas_at_most_two env w) as (q & w' & issued & E & H & L).
  exists issued. rewrite E. split; [exact H | exact L].
Qed.

Lemma list_users_runs (detailed : bool) :
  quota_runs_at_most (if detailed then 2 else 0) (list_users env detailed).
Proof.
  unfold list_users.
  apply quota_runs_try_except; [| intros e; repeat calls_step ].
  apply quota_runs_bind_l; [apply get_ldap_connection_no_quota | intros _].
  cbv zeta.
  apply quota_runs_bind_l; [apply calls_only_logger | intros _].
  apply quota_runs_bind_l; [unfold ldap_call; repeat calls_step | intros _].
  apply quota_runs_bind_l; [apply calls_only_get_directory | intros d].
  apply quota_runs_bind_l; [apply calls_only_logger | intros _].
  apply quota_runs_bind_r; [| intros q; apply collect_users_no_quota ].
  destruct detailed.
  - apply get_all_quotas_runs.
  - apply calls_only_no_runs, calls_only_ret.
Qed.

Lemma list_users_returns detailed w :
  exists users w', list_users env detailed w = (Ok users, w').
Proof.
  unfold list_users, try_except.
  match goal with |- context [bind ?m ?k w] => destruct (bind m k w) as [[users|e] w1] end.
  - eexists. eexists. reflexivity.
  - eexists. eexists. reflexivity.
Qed.

End ListingCalls.

(** X14.  A listing never raises, and however many users the directory
    holds it runs at most two quota-tool commands when it is detailed
    and none when it is not: quotas are fetched once for the whole
    listing, not per user. *)
Theorem list_users_quota_runs env (detailed : bool) w :
  exists users w' issued,
    list_users env detailed w = (Ok users, w')
    /\ quota_tool_runs (history w') = (quota_tool_runs (history w) ++ issued)%list
    /\ (length issued <= if detailed then 2 else 0)%nat.
Proof.
  destruct (list_users_returns env detailed w) as (users & w' & E).
  destruct (list_users_runs env detailed w) as (issued & H & L).
  rewrite E in H. exists users, w', issued. split; [exact E|]. split; assumption.
Qed.

Section PlainListing.

Variable env : Env.

Lemma user_info_of_plain_calls all_quotas entry :
  calls_only is_directory_call (user_info_of env false all_quotas entry).
Proof. unfold user_info_of, attr_value. repeat calls_step. Qed.

Lemma collect_users_plain_calls all_quotas entries : forall users,
  calls_only is_directory_call (collect_users env false all_quotas entries users).
Proof.
  induction entries as [|entry entries IH]; intros users; simpl.
  - apply calls_only_ret.
  - apply calls_only_bind; [apply user_info_of_plain_calls | intros info; apply IH].
Qed.

Lemma user_info_of_keeps_directory all_quotas entry :
  keeps directory (user_info_of env false all_quotas entry).
Proof. unfold user_info_of, attr_value. frame. Qed.

Lemma collect_users_keeps_directory all_quotas entries : forall users,
  keeps directory (collect_users env false all_quotas entries users).
Proof.
  induction entries as [|entry entries IH]; intros users; simpl.
  - apply keeps_ret.
  - apply keeps_bind; [apply user_info_of_keeps_directory | intros info; apply IH].
Qed.

Lemma user_info_of_plain all_quotas entry w info w' :
  user_info_of env false all_quotas entry w = (Ok info, w') -> is_plain info.
Proof.
  unfold user_info_of, attr_value. intros E.
  repeat match type of E with
         | bind ?m _ ?w0 = _ =>
             let r := fresh "r" in
             let w1 := fresh "w" in
             let Em := fresh "Em" in
             destruct (m w0) as [[r|?] w1] eqn:Em;
             [ rewrite (bind_returns _ _ _ _ _ Em) in E
             | rewrite (bind_raises _ _ _ _ _ Em) in E; discriminate E ]
         end.
  injection E as <- _. repeat split.
Qed.

Lemma collect_users_plain all_quotas entries : forall users w result w',
  collect_users env false all_quotas entries users w = (Ok result, w') ->
  Forall is_plain users -> Forall is_plain result.
Proof.
  induction entries as [|entry entries IH]; intros users w result w' E Hacc; simpl in E.
  - injection E as <- _. exact Hacc.
  - destruct (user_info_of env false all_quotas entry w) as [[info|e] w1] eqn:Ei.
    + rewrite (bind_returns _ _ _ _ _ Ei) in E.
      apply (IH _ _ _ _ E). apply Forall_app. split; [exact Hacc|].
      constructor; [|constructor]. exact (user_info_of_plain _ _ _ _ _ Ei).
    + rewrite (bind_raises _ _ _ _ _ Ei) in E. discriminate E.
Qed.

Lemma plain_listing_calls : calls_only is_directory_call (list_users env false).
Proof.
  unfold list_users, _get_ldap_connection, prompt, ldap_call. cbv iota.
  repeat first [ apply collect_users_plain_calls | calls_step ].
Qed.

Lemma plain_listing_keeps_directory : keeps directory (list_users env false).
Proof.
  unfold list_users, _get_ldap_connection, prompt, ldap_call. cbv iota.
  repeat first [ apply collect_users_keeps_directory | frame_step ].
Qed.

Lemma plain_listing_entries w users w' :
  list_users env false w = (Ok users, w') -> Forall is_plain users.
Proof.
  unfold list_users, try_except. cbv iota.
  match goal with |- context [bind ?m ?k w] => set (body := bind m k) end.
  destruct (body w) as [[us|e] w1] eqn:Eb.
  - intros E. injection E as <- _. subst body.
    repeat match type of Eb with
           | bind _ (fun q => collect_users _ _ q _ _) _ = _ => fail 1
           | bind ?m _ ?w0 = _ =>
               let r := fresh "r" in
               let w2 := fresh "w" in
               let Em := fresh "Em" in
               destruct (m w0) as [[r|?] w2] eqn:Em;
               [ rewrite (bind_returns _ _ _ _ _ Em) in Eb
               | rewrite (bind_raises _ _ _ _ _ Em) in Eb; discriminate Eb ]
           end.
    unfold bind at 1 in Eb. unfold ret at 1 in Eb. cbv iota beta in Eb.
    apply (collect_users_plain _ _ _ _ _ _ Eb). constructor.
  - intros E. unfold bind, logger, ret in E. injection E as <- _. constructor.
Qed.

End PlainListing.

(** X15.  A listing without details talks to the directory server only:
    it runs no tool, asks the filesystem nothing and leaves the
    directory as it was, and its entries carry the four directory
    attributes without credential, home-directory or quota status. *)
Theorem plain_listing_reads_directory_only env w :
  exists users w' added,
    list_users env false w = (Ok users, w')
    /\ history w' = (history w ++ added)%list
    /\ forallb is_directory_call added = true
    /\ directory w' = directory w
    /\ Forall is_plain users.
Proof.
  destruct (list_users_returns env false w) as (users & w' & E).
  destruct (plain_listing_calls env w) as (added & Hh & Hp).
  pose proof (plain_listing_keeps_directory env w) as Hd.
  rewrite E in Hh, Hd. exists users, w', added.
  split; [exact E|]. split; [exact Hh|]. split; [exact Hp|]. split; [exact Hd|].
  exact (plain_listing_entries env _ _ _ E).
Qed.

(** ** The directory step on a reachable server *)

Lemma append_inj_l (p a b : string) : p ++ a = p ++ b -> a = b.
Proof.
  induction p as [|c p IH]; intros H.
  - exact H.
  - change (String c (p ++ a) = String c (p ++ b)) in H. injection H as H. exact (IH H).
Qed.

Lemma length_append (a b : string) :
  String.length (a ++ b) = (String.length a + String.length b)%nat.
Proof.
  induction a as [|c a IH]; [reflexivity|].
  change (S (String.length (a ++ b)) = S (String.length a + String.length b)).
  rewrite IH. reflexivity.
Qed.

Lemma append_inj_r (s : string) : forall a b : string, a ++ s = b ++ s -> a = b.
Proof.
  induction a as [|c a IH]; intros [|d b] H.
  - reflexivity.
  - apply (f_equal String.length) in H.
    change (String.length s = S (String.length (b ++ s))) in H.
    rewrite length_append in H. lia.
  - apply (f_equal String.length) in H.
    change (S (String.length (a ++ s)) = String.length s) in H.
    rewrite length_append in H. lia.
  - change (String c (a ++ s) = String d (b ++ s)) in H. injection H as -> H.
    rewrite (IH _ H). reflexivity.
Qed.

Lemma group_dn_of_inj env g1 g2 : group_dn_of env g1 = group_dn_of env g2 -> g1 = g2.
Proof.
  unfold group_dn_of. intros H. apply append_inj_l in H.
  exact (append_inj_r _ _ _ H).
Qed.

Lemma user_dn_is_no_group_dn env username g : user_dn_of env username <> group_dn_of env g.
Proof. unfold user_dn_of, group_dn_of. discriminate. Qed.

Lemma attrs_add_member name v a :
  match attrs_add name v a with
  | Some a' =>
      In v (default [] (snd <$> find (fun p : string * list string =>
                                        String.eqb (fst p) name) a'))
  | None =>
      In v (default [] (snd <$> find (fun p : string * list string =>
                                        String.eqb (fst p) name) a))
  end.
Proof.
  induction a as [|[n vs] a IH]; simpl.
  - rewrite String.eqb_refl. simpl. left. reflexivity.
  - destruct (String.eqb n name) eqn:En.
    + destruct (py_in v vs) eqn:Hin.
      * simpl. apply py_in_In. exact Hin.
      * simpl. rewrite En. simpl. apply in_or_app. right. left. reflexivity.
    + destruct (attrs_add name v a) as [a'|]; simpl; rewrite ?En; exact IH.
Qed.

Section DirectoryUp.

Variable env : Env.
Hypothesis up : directory_up env.

Lemma connection_up w :
  exists w1, _get_ldap_connection env w = (Ok tt, w1) /\ directory w1 = directory w.
Proof.
  destruct up as [Hf Hg]. unfold _get_ldap_connection, prompt, ldap_call, bind, ask, ret.
  destruct (String.eqb (ldap_bind_password (cfg env)) "").
  - destruct (Hg (history w) "Введите пароль для LDAP: ") as (typed & E). rewrite E.
    rewrite Hf. eexists. split; reflexivity.
  - rewrite Hf. eexists. split; reflexivity.
Qed.

Lemma search_up dn w :
  exists w1,
    conn_search env dn w = (Ok (bool_decide (is_Some (directory w !! dn))), w1)
    /\ directory w1 = directory w.
Proof.
  destruct up as [Hf _]. unfold conn_search, ldap_call, bind, ask, get_directory, ret.
  rewrite Hf. eexists. split; reflexivity.
Qed.

Lemma add_up dn a w :
  exists b w1,
    conn_add env dn a w = (Ok b, w1)
    /\ directory w1 = match directory w !! dn with
                      | Some _ => directory w
                      | None => <[dn := a]> (directory w)
                      end.
Proof.
  destruct up as [Hf _].
  unfold conn_add, ldap_call, bind, ask, get_directory, set_directory, ret.
  rewrite Hf. simpl. destruct (directory w !! dn); eexists; eexists; split; reflexivity.
Qed.

Lemma modify_up dn v w :
  exists b w1,
    conn_modify_add env dn "memberUid" v w = (Ok b, w1)
    /\ directory w1 = match directory w !! dn with
                      | Some a => match attrs_add "memberUid" v a with
                                  | Some a' => <[dn := a']> (directory w)
                                  | None => directory w
                                  end
                      | None => directory w
                      end.
Proof.
  destruct up as [Hf _].
  unfold conn_modify_add, ldap_call, bind, ask, get_directory, set_directory, ret.
  rewrite Hf. simpl. destruct (directory w !! dn) as [a|].
  - destruct (attrs_add "memberUid" v a); eexists; eexists; split; reflexivity.
  - eexists. eexists. split; reflexivity.
Qed.

(** One pass of the loop: the keys stay, entries other than the group's
    stay, members stay members, and the user is a member of the group
    afterwards when the group exists. *)
Lemma join_group_up username g w :
  exists w',
    join_group env username g w = (Ok tt, w')
    /\ dom (directory w') = dom (directory w)
    /\ (forall dn, g = username \/ dn <> group_dn_of env g ->
                   directory w' !! dn = directory w !! dn)
    /\ (forall dn a, directory w !! dn = Some a -> In username (member_uids a) ->
                     exists a', directory w' !! dn = Some a'
                                /\ In username (member_uids a'))
    /\ (forall a, g <> username -> directory w !! group_dn_of env g = Some a ->
                  exists a', directory w' !! group_dn_of env g = Some a'
                             /\ In username (member_uids a')).
Proof.
  unfold join_group. destruct (String.eqb_spec g username) as [->|Hne]; cbn [negb]; cbv iota.
  - exists w. split; [reflexivity|]. split; [reflexivity|].
    split; [reflexivity|]. split; [eauto | intros a H; contradiction H; reflexivity].
  - cbv zeta. destruct (search_up (group_dn_of env g) w) as (w1 & Es & Hd1).
    rewrite (bind_returns _ _ _ _ _ Es).
    destruct (directory w !! group_dn_of env g) as [a|] eqn:Eg.
    + rewrite bool_decide_eq_true_2 by (eexists; reflexivity).
      destruct (modify_up (group_dn_of env g) username w1) as (b & w2 & Em & Hd2).
      rewrite (bind_returns _ _ _ _ _ Em). rewrite Hd1, Eg in Hd2.
      eexists. split; [reflexivity|]. simpl directory.
      pose proof (attrs_add_member "memberUid" username a) as Hmem.
      fold (member_uids a) in Hmem.
      destruct (attrs_add "memberUid" username a) as [a'|] eqn:Ea.
      * fold (member_uids a') in Hmem. rewrite Hd2.
        split; [|split; [|split]].
        -- rewrite dom_insert_L. apply (elem_of_dom_2 (directory w)) in Eg.
           apply subseteq_union_1_L, singleton_subseteq_l. exact Eg.
        -- intros dn [H|H]; [contradiction|]. apply lookup_insert_ne. congruence.
        -- intros dn a0 H0 Hin. destruct (decide (dn = group_dn_of env g)) as [->|Hd].
           ++ rewrite lookup_insert_eq. eauto.
           ++ rewrite lookup_insert_ne by congruence. eauto.
        -- intros a0 _ _. rewrite lookup_insert_eq. eauto.
      * rewrite Hd2. split; [reflexivity|]. split; [reflexivity|].
        split; [eauto|]. intros a0 _ H0. injection H0 as <-. eauto.
    + rewrite bool_decide_eq_false_2 by (intros [x Hx]; discriminate Hx).
      eexists. split; [reflexivity|]. rewrite Hd1.
      split; [reflexivity|]. split; [reflexivity|].
      split; [eauto | intros a _ H; discriminate H].
Qed.

Lemma join_groups_up username groups : forall w,
  exists w',
    for_each groups (join_group env username) w = (Ok tt, w')
    /\ dom (directory w') = dom (directory w)
    /\ (forall dn, (forall g, In g groups -> g = username \/ dn <> group_dn_of env g) ->
                   directory w' !! dn = directory w !! dn)
    /\ (forall dn a, directory w !! dn = Some a -> In username (member_uids a) ->
                     exists a', directory w' !! dn = Some a'
                                /\ In username (member_uids a'))
    /\ (forall g a, In g groups -> g <> username ->
                    directory w !! group_dn_of env g = Some a ->
                    exists a', directory w' !! group_dn_of env g = Some a'
                               /\ In username (member_uids a')).
Proof.
  induction groups as [|g groups IH]; intros w; simpl.
  - exists w. split; [reflexivity|]. split; [reflexivity|]. split; [reflexivity|].
    split; [eauto | intros g a []].
  - destruct (join_group_up username g w) as (w1 & E1 & Hdom1 & Hoth1 & Hmem1 & Hjoin1).
    rewrite (bind_returns _ _ _ _ _ E1).
    destruct (IH w1) as (w' & E & Hdom & Hoth & Hmem & Hjoin).
    exists w'. split; [exact E|]. split; [congruence|]. split; [|split].
    + intros dn Hdn. rewrite Hoth by (intros g' Hg'; apply Hdn; right; exact Hg').
      apply Hoth1. apply Hdn. left. reflexivity.
    + intros dn a Ha Hin. destruct (Hmem1 dn a Ha Hin) as (a1 & Ha1 & Hin1).
      exact (Hmem dn a1 Ha1 Hin1).
    + intros g' a [<-|Hg'] Hne Ha.
      * destruct (Hjoin1 a Hne Ha) as (a1 & Ha1 & Hin1). exact (Hmem _ a1 Ha1 Hin1).
      * assert (Hex : exists a1, directory w1 !! group_dn_of env g' = Some a1).
        { apply (elem_of_dom_2 (directory w)) in Ha. rewrite <- Hdom1 in Ha.
          apply elem_of_dom in Ha. destruct Ha as (a1 & Ha1). eauto. }
        destruct Hex as (a1 & Ha1). exact (Hjoin g' a1 Hg' Hne Ha1).
Qed.

End DirectoryUp.

Section FreshUser.

Variable env : Env.
Hypothesis up : directory_up env.

(** The directory step for a user that is not in the directory: it
    returns [True], and the directory it leaves is the one with the two
    entries added, after the loop over the groups. *)
Lemma add_user_to_ldap_fresh_run uid username surname firstname groups w :
  directory w !! user_dn_of env username = None ->
  exists w2 w',
    add_user_to_ldap env uid username surname firstname groups w = (Ok true, w')
    /\ directory w2 = with_user env uid username surname firstname (directory w)
    /\ exists w3, for_each groups (join_group env username) w2 = (Ok tt, w3)
                  /\ directory w' = directory w3.
Proof.
  intros Hfresh. unfold add_user_to_ldap.
  unfold bind at 1. unfold enter at 1. cbv iota beta.
  match goal with |- context [try_except _ _ ?w0] => set (w0' := w0) end.
  assert (Hd0 : directory w0' = directory w) by reflexivity. clearbody w0'.
  unfold try_except.
  destruct (connection_up env up w0') as (w1 & Ec & Hd1).
  rewrite (bind_returns _ _ _ _ _ Ec). cbv zeta.
  destruct (search_up env up (user_dn_of env username) w1) as (w1' & Es & Hd1').
  rewrite (bind_returns _ _ _ _ _ Es).
  rewrite bool_decide_eq_false_2
    by (rewrite Hd1, Hd0, Hfresh; intros [x Hx]; discriminate Hx).
  destruct (search_up env up (group_dn_of env username) w1') as (w1'' & Eg & Hd1'').
  rewrite (bind_returns _ _ _ _ _ Eg).
  fold (group_attrs_of uid username).
  fold (user_attrs_of env uid username surname firstname).
  assert (Hgroup : exists w1g,
             (if negb (bool_decide (is_Some (directory w1' !! group_dn_of env username)))
              then conn_add env (group_dn_of env username) (group_attrs_of uid username) ;;;
                   logger INFO ("Создана группа " ++ username)
              else ret tt)%py w1'' = (Ok tt, w1g)
             /\ directory w1g
                = match directory w !! group_dn_of env username with
                  | Some _ => directory w
                  | None => <[group_dn_of env username := group_attrs_of uid username]>
                              (directory w)
                  end).
  { rewrite Hd1', Hd1, Hd0.
    destruct (directory w !! group_dn_of env username) as [g|] eqn:Egd.
    - rewrite bool_decide_eq_true_2 by (eexists; reflexivity). simpl negb. cbv iota.
      exists w1''. split; [reflexivity | congruence].
    - rewrite bool_decide_eq_false_2 by (intros [x Hx]; discriminate Hx).
      cbn [negb]. cbv iota.
      destruct (add_up env up (group_dn_of env username) (group_attrs_of uid username) w1'')
        as (b & wg & Ea & Hda).
      rewrite (bind_returns _ _ _ _ _ Ea). eexists. split; [reflexivity|].
      simpl directory. rewrite Hda, Hd1'', Hd1', Hd1, Hd0, Egd. reflexivity. }
  destruct Hgroup as (w1g & Egr & Hdg).
  rewrite (bind_returns _ _ _ _ _ Egr).
  destruct (add_up env up (user_dn_of env username)
              (user_attrs_of env uid username surname firstname) w1g)
    as (b & wu & Eu & Hdu).
  change (conn_add env (user_dn_of env username) _)
    with (conn_add env (user_dn_of env username)
            (user_attrs_of env uid username surname firstname)).
  rewrite (bind_returns _ _ _ _ _ Eu).
  unfold bind at 1. unfold logger at 1. cbv iota beta.
  match goal with |- context [bind _ _ ?w0] => set (w2 := w0) end.
  assert (Hd2 : directory w2 = with_user env uid username surname firstname (directory w)).
  { subst w2. simpl directory. rewrite Hdu, Hdg. unfold with_user.
    assert (Hnone : match directory w !! group_dn_of env username with
                    | Some _ => directory w
                    | None => <[group_dn_of env username := group_attrs_of uid username]>
                                (directory w)
                    end !! user_dn_of env username = None).
    { destruct (directory w !! group_dn_of env username); [exact Hfresh|].
      rewrite lookup_insert_ne by (apply not_eq_sym, user_dn_is_no_group_dn).
      exact Hfresh. }
    rewrite Hnone. reflexivity. }
  clearbody w2.
  change (for_each groups _) with (for_each groups (join_group env username)).
  destruct (join_groups_up env up username groups w2) as (w3 & E3 & _).
  rewrite (bind_returns _ _ _ _ _ E3).
  exists w2. eexists. split; [reflexivity|]. split; [exact Hd2|].
  exists w3. split; [exact E3 | reflexivity].
Qed.

End FreshUser.

Section FreshUserState.

Variable env : Env.
Hypothesis up : directory_up env.

Lemma with_user_other uid username surname firstname d dn :
  dn <> user_dn_of env username -> dn <> group_dn_of env username ->
  with_user env uid username surname firstname d !! dn = d !! dn.
Proof.
  intros Hu Hg. unfold with_user. rewrite lookup_insert_ne by congruence.
  destruct (d !! group_dn_of env username); [reflexivity|].
  rewrite lookup_insert_ne by congruence. reflexivity.
Qed.

Lemma with_user_group uid username surname firstname d :
  with_user env uid username surname firstname d !! group_dn_of env username
  = Some (default (group_attrs_of uid username) (d !! group_dn_of env username)).
Proof.
  unfold with_user. rewrite lookup_insert_ne by apply user_dn_is_no_group_dn.
  destruct (d !! group_dn_of env username) as [a|] eqn:E.
  - rewrite E. reflexivity.
  - rewrite lookup_insert_eq. reflexivity.
Qed.

Lemma with_user_dom uid username surname firstname d :
  dom (with_user env uid username surname firstname d)
  = dom d ∪ {[user_dn_of env username; group_dn_of env username]}.
Proof.
  unfold with_user. rewrite dom_insert_L.
  destruct (d !! group_dn_of env username) as [a|] eqn:E.
  - apply elem_of_dom_2 in E. apply set_eq. intros x.
    rewrite !elem_of_union, !elem_of_singleton.
    split; [tauto|]. intros [H | [H | ->]]; tauto.
  - rewrite dom_insert_L. apply set_eq. intros x.
    rewrite !elem_of_union, !elem_of_singleton. tauto.
Qed.

(** What the directory step leaves for a user that was not there. *)
Lemma add_user_to_ldap_fresh_state uid username surname firstname groups w :
  directory w !! user_dn_of env username = None ->
  exists w',
    add_user_to_ldap env uid username surname firstname groups w = (Ok true, w')
    /\ directory w' !! user_dn_of env username
       = Some (user_attrs_of env uid username surname firstname)
    /\ directory w' !! group_dn_of env username
       = Some (default (group_attrs_of uid username)
                 (directory w !! group_dn_of env username))
    /\ dom (directory w')
       = dom (directory w) ∪ {[user_dn_of env username; group_dn_of env username]}
    /\ (forall g, In g groups -> g <> username ->
          match directory w !! group_dn_of env g with
          | Some _ => exists a', directory w' !! group_dn_of env g = Some a'
                                 /\ In username (member_uids a')
          | None => directory w' !! group_dn_of env g = None
          end).
Proof.
  intros Hfresh.
  destruct (add_user_to_ldap_fresh_run env up uid username surname firstname groups w Hfresh)
    as (w2 & w' & E & Hd2 & w3 & E3 & Hd').
  destruct (join_groups_up env up username groups w2)
    as (w3' & E3' & Hdom & Hoth & _ & Hjoin).
  rewrite E3 in E3'. injection E3' as <-.
  exists w'. split; [exact E|]. rewrite Hd'.
  split; [|split; [|split]].
  - rewrite Hoth, Hd2.
    + unfold with_user. rewrite lookup_insert_eq. reflexivity.
    + intros g _. right. apply user_dn_is_no_group_dn.
  - rewrite Hoth, Hd2.
    + apply with_user_group.
    + intros g _. destruct (String.eqb_spec g username) as [->|Hne]; [left; reflexivity|].
      right. intros H. apply group_dn_of_inj in H. congruence.
  - rewrite Hdom, Hd2. apply with_user_dom.
  - intros g Hin Hne.
    assert (Hsame : directory w2 !! group_dn_of env g = directory w !! group_dn_of env g).
    { rewrite Hd2. apply with_user_other.
      - apply not_eq_sym, user_dn_is_no_group_dn.
      - intros H. apply group_dn_of_inj in H. congruence. }
    destruct (directory w !! group_dn_of env g) as [a|] eqn:Eg.
    + exact (Hjoin g a Hin Hne Hsame).
    + apply not_elem_of_dom. rewrite Hdom. apply not_elem_of_dom. exact Hsame.
Qed.

End FreshUserState.


Lemma sample_directory_up fs tool manifest : directory_up (sample_env fs tool manifest).
Proof. split; intros; [reflexivity | eexists; reflexivity]. Qed.




(** ** What provisioning leaves alone in the directory *)

Section Evolves.

Variable R : relation (gmap string Attrs).
Hypothesis R_refl : forall d, R d d.
Hypothesis R_trans : forall d1 d2 d3, R d1 d2 -> R d2 d3 -> R d1 d3.

Lemma evolves_of_keeps {A} (m : M A) : keeps directory m -> evolves R m.
Proof. intros H w. rewrite (H w). apply R_refl. Qed.

Lemma evolves_bind {A B} (m : M A) (k : A -> M B) :
  evolves R m -> (forall a, evolves R (k a)) -> evolves R (bind m k).
Proof.
  intros Hm Hk w. unfold bind. specialize (Hm w).
  destruct (m w) as [[a|e] w1]; simpl in Hm.
  - exact (R_trans _ _ _ Hm (Hk a w1)).
  - exact Hm.
Qed.

Lemma evolves_try_except {A} (m : M A) (h : exn -> M A) :
  evolves R m -> (forall e, evolves R (h e)) -> evolves R (try_except m h).
Proof.
  intros Hm Hh w. unfold try_except. specialize (Hm w).
  destruct (m w) as [[a|e] w1]; simpl in Hm.
  - exact Hm.
  - exact (R_trans _ _ _ Hm (Hh e w1)).
Qed.

Lemma evolves_for_each {A} (l : list A) (body : A -> M unit) :
  (forall x, In x l -> evolves R (body x)) -> evolves R (for_each l body).
Proof.
  induction l as [|x l IH]; intros Hb; simpl.
  - intros w. apply R_refl.
  - apply evolves_bind.
    + apply Hb. left. reflexivity.
    + intros _. apply IH. intros y Hy. apply Hb. right. exact Hy.
Qed.

End Evolves.

Section TouchesOnly.

Variable env : Env.
Variable named : string -> Prop.

Lemma touches_only_refl d : touches_only named d d.
Proof. split; auto. Qed.

Lemma touches_only_trans d1 d2 d3 :
  touches_only named d1 d2 -> touches_only named d2 d3 -> touches_only named d1 d3.
Proof.
  intros [H1 H1'] [H2 H2']. split.
  - auto.
  - intros dn Hdn. rewrite H2', H1' by exact Hdn. reflexivity.
Qed.

Lemma touches_only_insert d dn a :
  named dn -> touches_only named d (<[dn := a]> d).
Proof.
  intros Hn. split.
  - intros dn' H. destruct (decide (dn = dn')) as [->|Hne].
    + rewrite lookup_insert_eq. eexists. reflexivity.
    + rewrite lookup_insert_ne by exact Hne. exact H.
  - intros dn' Hdn'. apply lookup_insert_ne. intros ->. exact (Hdn' Hn).
Qed.

Lemma conn_add_touches dn a :
  named dn -> evolves (touches_only named) (conn_add env dn a).
Proof.
  intros Hn w. unfold conn_add, ldap_call, bind, ask, get_directory, set_directory, ret.
  destruct (ldap_fault env (history w) (CLdapAdd dn)); simpl.
  - apply touches_only_refl.
  - destruct (directory w !! dn); simpl.
    + apply touches_only_refl.
    + apply touches_only_insert. exact Hn.
Qed.

Lemma conn_modify_add_touches dn name v :
  named dn -> evolves (touches_only named) (conn_modify_add env dn name v).
Proof.
  intros Hn w.
  unfold conn_modify_add, ldap_call, bind, ask, get_directory, set_directory, ret.
  destruct (ldap_fault env (history w) (CLdapModify dn)); simpl.
  - apply touches_only_refl.
  - destruct (directory w !! dn) as [a|]; simpl; [|apply touches_only_refl].
    destruct (attrs_add name v a); simpl.
    + apply touches_only_insert. exact Hn.
    + apply touches_only_refl.
Qed.

End TouchesOnly.

(** Break a computation down along its syntax; what does not write to
    the directory is closed by the frame lemmas, the writes by [leaf]. *)
Ltac evolve_step Hrefl Htrans leaf :=
  first
    [ solve [apply (evolves_of_keeps _ Hrefl); frame_env]
    | leaf
    | apply (evolves_bind _ Htrans); [| intros ]
    | apply (evolves_try_except _ Htrans); [| intros ]
    | apply (evolves_for_each _ Hrefl Htrans); intros
    | match goal with
      | |- evolves _ (if ?b then _ else _) => destruct b
      | |- evolves _ (match ?x with _ => _ end) => destruct x
      | |- evolves _ (let _ := _ in _) => cbv zeta
      end ].

Section EvolvesAddUser.

Variable env : Env.
Variable R : relation (gmap string Attrs).
Hypothesis R_refl : forall d, R d d.
Hypothesis R_trans : forall d1 d2 d3, R d1 d2 -> R d2 d3 -> R d1 d3.

Lemma evolves_run_step l name (op : M bool) complaint results :
  evolves R op -> evolves R (run_step l name op complaint results).
Proof.
  intros Hop. unfold run_step.
  repeat first [exact Hop | evolve_step R_refl R_trans fail].
Qed.

(** Of the four steps only the directory step writes to the directory. *)
Lemma evolves_add_user uid groups username surname firstname password steps :
  evolves R (add_user_to_ldap env uid username surname firstname
               (map PyStr.strip (PyStr.split_on "," groups))) ->
  evolves R (add_user env uid groups username surname firstname password steps).
Proof.
  intros Hldap. unfold add_user, add_user_results.
  repeat first
    [ apply evolves_run_step
    | exact Hldap
    | solve [apply (evolves_of_keeps _ R_refl);
             first [ apply add_user_to_kerberos_keeps_directory
                   | apply create_home_directory_keeps_directory
                   | apply set_user_quota_keeps_directory ]]
    | evolve_step R_refl R_trans fail ].
Qed.

End EvolvesAddUser.

Lemma add_user_to_ldap_touches env uid username surname firstname groups :
  evolves (touches_only (provisioned env username groups))
    (add_user_to_ldap env uid username surname firstname groups).
Proof.
  unfold add_user_to_ldap.
  repeat evolve_step
    (touches_only_refl (provisioned env username groups))
    (touches_only_trans (provisioned env username groups))
    ltac:(first [ apply (conn_add_touches env (provisioned env username groups))
                | apply (conn_modify_add_touches env (provisioned env username groups)) ]).
  - right. left. reflexivity.
  - left. reflexivity.
  - right. right. eexists. split; [eassumption | reflexivity].
Qed.

Lemma add_user_touches env uid groups username surname firstname password steps :
  evolves (touches_only
             (provisioned env username (map PyStr.strip (PyStr.split_on "," groups))))
    (add_user env uid groups username surname firstname password steps).
Proof.
  apply evolves_add_user.
  - apply touches_only_refl.
  - apply touches_only_trans.
  - apply add_user_to_ldap_touches.
Qed.


(** ** Existing entries only gain members *)

Lemma members_grow_refl username a : members_grow username a a.
Proof. unfold members_grow. auto. Qed.

Lemma members_grow_trans username a1 a2 a3 :
  members_grow username a1 a2 -> members_grow username a2 a3 ->
  members_grow username a1 a3.
Proof.
  intros (P1 & A1 & M1 & N1) (P2 & A2 & M2 & N2). split; [congruence|]. split; [|split].
  - intros name Hn. rewrite A2, A1 by exact Hn. reflexivity.
  - auto.
  - intros v Hv. destruct (N2 v Hv) as [->|H]; [left; reflexivity | exact (N1 v H)].
Qed.

Lemma attr_of_cons name n vs a :
  attr_of name ((n, vs) :: a) = if String.eqb n name then Some vs else attr_of name a.
Proof. unfold attr_of. simpl find. destruct (String.eqb n name); reflexivity. Qed.

Lemma member_uids_cons n vs a :
  member_uids ((n, vs) :: a) = if String.eqb n "memberUid" then vs else member_uids a.
Proof.
  change (default [] (attr_of "memberUid" ((n, vs) :: a))
          = if String.eqb n "memberUid" then vs else default [] (attr_of "memberUid" a)).
  rewrite attr_of_cons. destruct (String.eqb n "memberUid"); reflexivity.
Qed.

Lemma is_posix_account_cons n vs a :
  is_posix_account ((n, vs) :: a)
  = (String.eqb n "objectClass" && py_in "posixAccount" vs) || is_posix_account a.
Proof. reflexivity. Qed.

Lemma attrs_add_grows v : forall a a',
  attrs_add "memberUid" v a = Some a' -> members_grow v a a'.
Proof.
  unfold members_grow.
  induction a as [|[n vs] a IH]; intros a' E.
  - change (Some [("memberUid", [v])] = Some a') in E. injection E as <-. split; [reflexivity|]. split; [|split].
    + intros name Hn. rewrite attr_of_cons.
      destruct (String.eqb_spec "memberUid" name) as [<-|_]; [congruence | reflexivity].
    + intros x [].
    + intros x Hx. rewrite member_uids_cons, String.eqb_refl in Hx.
      destruct Hx as [<-|[]]. left. reflexivity.
  - change (attrs_add "memberUid" v ((n, vs) :: a))
      with (if String.eqb n "memberUid"
            then if py_in v vs then None else Some ((n, (vs ++ [v])%list) :: a)
            else cons (n, vs) <$> attrs_add "memberUid" v a) in E.
    destruct (String.eqb_spec n "memberUid") as [->|Hn].
    + destruct (py_in v vs); [discriminate E|]. injection E as <-.
      split; [reflexivity|]. split; [|split].
      * intros name Hname. rewrite !attr_of_cons.
        destruct (String.eqb_spec "memberUid" name) as [<-|_]; [congruence | reflexivity].
      * intros x. rewrite !member_uids_cons, String.eqb_refl.
        intros Hx. apply in_or_app. left. exact Hx.
      * intros x. rewrite !member_uids_cons, String.eqb_refl. intros Hx.
        apply in_app_or in Hx.
        destruct Hx as [Hx|[<-|[]]]; [right; exact Hx | left; reflexivity].
    + destruct (attrs_add "memberUid" v a) as [a''|] eqn:Ea; [|discriminate E].
      injection E as <-. destruct (IH a'' eq_refl) as (P & A & M & N).
      split; [|split; [|split]].
      * rewrite !is_posix_account_cons, P. reflexivity.
      * intros name Hname. rewrite !attr_of_cons. destruct (String.eqb n name); [reflexivity|].
        exact (A name Hname).
      * intros x. rewrite !member_uids_cons.
        destruct (String.eqb_spec n "memberUid") as [->|_]; [congruence|]. apply M.
      * intros x. rewrite !member_uids_cons.
        destruct (String.eqb_spec n "memberUid") as [->|_]; [congruence|]. apply N.
Qed.

Section EntriesGrow.

Variable env : Env.
Variable username : string.

Lemma entries_grow_refl d : entries_grow username d d.
Proof. intros dn a H. exists a. split; [exact H | apply members_grow_refl]. Qed.

Lemma entries_grow_trans d1 d2 d3 :
  entries_grow username d1 d2 -> entries_grow username d2 d3 ->
  entries_grow username d1 d3.
Proof.
  intros H1 H2 dn a Ha. destruct (H1 dn a Ha) as (a2 & Ha2 & G1).
  destruct (H2 dn a2 Ha2) as (a3 & Ha3 & G2).
  exists a3. split; [exact Ha3 | exact (members_grow_trans _ _ _ _ G1 G2)].
Qed.

Lemma conn_add_grows dn attrs : evolves (entries_grow username) (conn_add env dn attrs).
Proof.
  intros w. unfold conn_add, ldap_call, bind, ask, get_directory, set_directory, ret.
  destruct (ldap_fault env (history w) (CLdapAdd dn)); simpl.
  - apply entries_grow_refl.
  - destruct (directory w !! dn) eqn:E; simpl.
    + apply entries_grow_refl.
    + intros dn' a Ha. exists a. split; [|apply members_grow_refl].
      rewrite lookup_insert_ne by congruence. exact Ha.
Qed.

Lemma conn_modify_add_grows dn :
  evolves (entries_grow username) (conn_modify_add env dn "memberUid" username).
Proof.
  intros w.
  unfold conn_modify_add, ldap_call, bind, ask, get_directory, set_directory, ret.
  destruct (ldap_fault env (history w) (CLdapModify dn)); simpl.
  - apply entries_grow_refl.
  - destruct (directory w !! dn) as [a|] eqn:E; simpl; [|apply entries_grow_refl].
    destruct (attrs_add "memberUid" username a) as [a'|] eqn:Ea; simpl.
    + intros dn' b Hb. destruct (decide (dn = dn')) as [<-|Hne].
      * rewrite lookup_insert_eq. exists a'. split; [reflexivity|].
        rewrite E in Hb. injection Hb as <-. exact (attrs_add_grows _ _ _ Ea).
      * rewrite lookup_insert_ne by exact Hne. exists b.
        split; [exact Hb | apply members_grow_refl].
    + apply entries_grow_refl.
Qed.

Lemma add_user_to_ldap_grows uid surname firstname groups :
  evolves (entries_grow username)
    (add_user_to_ldap env uid username surname firstname groups).
Proof.
  unfold add_user_to_ldap.
  repeat evolve_step entries_grow_refl entries_grow_trans
    ltac:(first [apply conn_add_grows | apply conn_modify_add_grows]).
Qed.

Lemma add_user_grows uid groups surname firstname password steps :
  evolves (entries_grow username)
    (add_user env uid groups username surname firstname password steps).
Proof.
  apply evolves_add_user.
  - apply entries_grow_refl.
  - apply entries_grow_trans.
  - apply add_user_to_ldap_grows.
Qed.

End EntriesGrow.

(** X19.  Whatever the directory server and the system do, provisioning a
    user keeps every entry the directory had and changes none of its
    attributes except [memberUid]: the members an entry had stay, and
    the only member it can gain is the provisioned user. *)
Theorem add_user_changes_membership_only
    env uid groups username surname firstname password steps w dn a :
  directory w !! dn = Some a ->
  exists a',
    directory (snd (add_user env uid groups username surname firstname password steps w))
      !! dn = Some a'
    /\ (forall name, name <> "memberUid" -> attr_of name a' = attr_of name a)
    /\ (forall v, In v (member_uids a) -> In v (member_uids a'))
    /\ (forall v, In v (member_uids a') -> v = username \/ In v (member_uids a)).
Proof.
  intros Ha.
  destruct (add_user_grows env username uid groups surname firstname password steps w
              dn a Ha) as (a' & Ha' & _ & Hrest).
  exists a'. split; [exact Ha' | exact Hrest].
Qed.

Lemma add_user_changes_membership_only_witness :
  exists a',
    directory (snd (add_user (sample_env None quiet_tool (Ok [])) 1001 "students" "alice"
                      "Ivanova" "Alice" "secret123" None students_only))
      !! group_dn_of (sample_env None quiet_tool (Ok [])) "students" = Some a'
    /\ (forall name, name <> "memberUid" ->
          attr_of name a'
          = attr_of name [("objectClass", ["top"; "posixGroup"]);
                          ("cn", ["students"]);
                          ("gidNumber", ["500"])])
    /\ (forall v,
          In v (member_uids [("objectClass", ["top"; "posixGroup"]);
                             ("cn", ["students"]);
                             ("gidNumber", ["500"])]) ->
          In v (member_uids a'))
    /\ (forall v,
          In v (member_uids a') ->
          v = "alice"
          \/ In v (member_uids [("objectClass", ["top"; "posixGroup"]);
                                ("cn", ["students"]);
                                ("gidNumber", ["500"])])).
Proof.
  apply add_user_changes_membership_only. apply lookup_singleton_eq.
Defined.

(** ** Listing what was provisioned *)

Lemma endswith_step s suffix :
  endswith s suffix
  = String.eqb s suffix
    || match s with
       | EmptyString => false
       | String _ s' => endswith s' suffix
       end.
Proof. destruct s; reflexivity. Qed.

Lemma endswith_refl s : endswith s s = true.
Proof. rewrite endswith_step, String.eqb_refl. reflexivity. Qed.

Lemma endswith_app p s suffix : endswith s suffix = true -> endswith (p ++ s) suffix = true.
Proof.
  intros H. induction p as [|c p IH]; [exact H|].
  change (endswith (String c (p ++ s)) suffix = true).
  rewrite endswith_step, IH. apply orb_true_r.
Qed.

Lemma user_dn_under_base env username :
  endswith (user_dn_of env username)
    (ldap_user_ou (cfg env) ++ "," ++ ldap_base_dn (cfg env)) = true.
Proof.
  unfold user_dn_of. apply endswith_app, endswith_app, endswith_app, endswith_refl.
Qed.

Lemma posix_entries_spec base_dn (d : gmap string Attrs) a :
  In a (posix_entries base_dn d)
  <-> exists dn, d !! dn = Some a /\ endswith dn base_dn = true
                 /\ is_posix_account a = true.
Proof.
  unfold posix_entries. rewrite <- list_elem_of_In, list_elem_of_fmap. split.
  - intros ([dn b] & -> & H). apply list_elem_of_filter in H. destruct H as [H Hin].
    apply elem_of_map_to_list in Hin. apply Is_true_true, andb_true_iff in H.
    exists dn. split; [exact Hin | exact H].
  - intros (dn & Hd & He & Hp). exists (dn, a). split; [reflexivity|].
    apply list_elem_of_filter. split.
    + apply Is_true_true, andb_true_iff. split; [exact He | exact Hp].
    + apply elem_of_map_to_list. exact Hd.
Qed.

Lemma has_one_value name a :
  has_one name a = true -> exists v, attr_of name a = Some [v].
Proof.
  unfold has_one. destruct (attr_of name a) as [[|v [|]]|]; try discriminate.
  intros _. exists v. reflexivity.
Qed.

Section ListingUp.

Variable env : Env.
Hypothesis up : directory_up env.

Lemma attr_value_one name a v w :
  attr_of name a = Some [v] -> attr_value name a w = (Ok v, w).
Proof. unfold attr_of, attr_value. intros ->. reflexivity. Qed.

Lemma user_info_of_listable q a w :
  listable a = true ->
  exists u n c h,
    attr_of "uid" a = Some [u] /\ attr_of "uidNumber" a = Some [n]
    /\ attr_of "cn" a = Some [c] /\ attr_of "homeDirectory" a = Some [h]
    /\ user_info_of env false q a w
       = (Ok {| ui_uid := u; ui_uidNumber := n; ui_cn := c; ui_homeDirectory := h;
                ui_kerberos := None; ui_home_dir := None; ui_quota := None |}, w).
Proof.
  unfold listable. rewrite !andb_true_iff. intros [[[Hu Hn] Hc] Hh].
  apply has_one_value in Hu, Hn, Hc, Hh.
  destruct Hu as [u Hu], Hn as [n Hn], Hc as [c Hc], Hh as [h Hh].
  exists u, n, c, h. split; [exact Hu|]. split; [exact Hn|]. split; [exact Hc|].
  split; [exact Hh|]. unfold user_info_of.
  rewrite (bind_returns _ _ _ _ _ (attr_value_one _ _ _ w Hu)).
  rewrite (bind_returns _ _ _ _ _ (attr_value_one _ _ _ w Hn)).
  rewrite (bind_returns _ _ _ _ _ (attr_value_one _ _ _ w Hc)).
  rewrite (bind_returns _ _ _ _ _ (attr_value_one _ _ _ w Hh)).
  reflexivity.
Qed.

Lemma collect_users_listable q entries : forall users w,
  (forall a, In a entries -> listable a = true) ->
  exists result,
    collect_users env false q entries users w = (Ok result, w)
    /\ (forall info, In info users -> In info result)
    /\ (forall a u n c h,
          In a entries ->
          attr_of "uid" a = Some [u] -> attr_of "uidNumber" a = Some [n] ->
          attr_of "cn" a = Some [c] -> attr_of "homeDirectory" a = Some [h] ->
          In {| ui_uid := u; ui_uidNumber := n; ui_cn := c; ui_homeDirectory := h;
                ui_kerberos := None; ui_home_dir := None; ui_quota := None |} result).
Proof.
  induction entries as [|entry entries IH]; intros users w Hall; simpl.
  - exists users. split; [reflexivity|]. split; [auto | intros a u n c h []].
  - destruct (user_info_of_listable q entry w (Hall entry (or_introl eq_refl)))
      as (u & n & c & h & Hu & Hn & Hc & Hh & E).
    rewrite (bind_returns _ _ _ _ _ E).
    destruct (IH (users ++ [{| ui_uid := u; ui_uidNumber := n; ui_cn := c;
                               ui_homeDirectory := h; ui_kerberos := None;
                               ui_home_dir := None; ui_quota := None |}])%list w
                (fun a Ha => Hall a (or_intror Ha)))
      as (result & Er & Hacc & Hrest).
    exists result. split; [exact Er|]. split.
    + intros info Hin. apply Hacc, in_or_app. left. exact Hin.
    + intros a u' n' c' h' [<-|Hin] Hu' Hn' Hc' Hh'.
      * rewrite Hu in Hu'. rewrite Hn in Hn'. rewrite Hc in Hc'. rewrite Hh in Hh'.
        injection Hu' as <-. injection Hn' as <-. injection Hc' as <-. injection Hh' as <-.
        apply Hacc, in_or_app. right. left. reflexivity.
      * exact (Hrest a u' n' c' h' Hin Hu' Hn' Hc' Hh').
Qed.

(** A plain listing of a listable directory on a server that answers. *)
Lemma list_users_up w :
  accounts_listable (directory w) ->
  exists users w',
    list_users env false w = (Ok users, w')
    /\ forall dn a u n c h,
         directory w !! dn = Some a ->
         endswith dn (ldap_user_ou (cfg env) ++ "," ++ ldap_base_dn (cfg env)) = true ->
         is_posix_account a = true ->
         attr_of "uid" a = Some [u] -> attr_of "uidNumber" a = Some [n] ->
         attr_of "cn" a = Some [c] -> attr_of "homeDirectory" a = Some [h] ->
         In {| ui_uid := u; ui_uidNumber := n; ui_cn := c; ui_homeDirectory := h;
               ui_kerberos := None; ui_home_dir := None; ui_quota := None |} users.
Proof.
  intros Hall. unfold list_users, try_except.
  destruct (connection_up env up w) as (w1 & Ec & Hd1).
  rewrite (bind_returns _ _ _ _ _ Ec). cbv zeta.
  unfold bind at 1. unfold logger at 1. cbv iota beta.
  match goal with |- context [bind _ _ ?w0] => set (w2 := w0) end.
  assert (Hd2 : directory w2 = directory w) by exact Hd1.
  assert (El : ldap_call env
                 (CLdapList (ldap_user_ou (cfg env) ++ "," ++ ldap_base_dn (cfg env))) w2
               = (Ok tt, called (CLdapList (ldap_user_ou (cfg env) ++ ","
                                            ++ ldap_base_dn (cfg env))) w2)).
  { unfold ldap_call, ask. destruct up as [Hf _]. rewrite Hf. reflexivity. }
  rewrite (bind_returns _ _ _ _ _ El).
  unfold bind at 1. unfold get_directory at 1. cbv iota beta.
  unfold bind at 1. unfold logger at 1. cbv iota beta.
  unfold bind at 1. unfold ret at 1. cbv iota beta.
  change (directory (called _ w2)) with (directory w2). rewrite Hd2.
  match goal with
  | |- context [collect_users env false ?q ?entries [] ?w0] =>
      destruct (collect_users_listable q entries [] w0) as (result & Er & _ & Hin)
  end.
  { intros a Ha. apply posix_entries_spec in Ha. destruct Ha as (dn & Hdn & _ & Hp).
    exact (Hall dn a Hdn Hp). }
  rewrite Er. eexists. eexists. split; [reflexivity|].
  intros dn a u n c h Hdn He Hp. apply Hin. apply posix_entries_spec.
  exists dn. split; [exact Hdn|]. split; [exact He | exact Hp].
Qed.

(** The directory step keeps a listable directory listable. *)
Lemma add_user_to_ldap_keeps_listable uid username surname firstname groups w w' :
  directory w !! user_dn_of env username = None ->
  accounts_listable (directory w) ->
  add_user_to_ldap env uid username surname firstname groups w = (Ok true, w') ->
  accounts_listable (directory w').
Proof.
  intros Hfresh Hall E dn a' Ha' Hp.
  destruct (add_user_to_ldap_fresh_state env up uid username surname firstname groups w
              Hfresh) as (w'' & E' & Hu & Hg & Hdom & _).
  rewrite E in E'. injection E' as <-.
  destruct (directory w !! dn) as [a|] eqn:Ea.
  - destruct (add_user_to_ldap_grows env username uid surname firstname groups w dn a Ea)
      as (a'' & Ha'' & P & A & _).
    rewrite E in Ha''. simpl in Ha''. rewrite Ha' in Ha''. injection Ha'' as <-.
    rewrite P in Hp. pose proof (Hall dn a Ea Hp) as Hl.
    unfold listable, has_one in *. rewrite !A by discriminate. exact Hl.
  - assert (Hin : dn ∈ dom (directory w')) by (apply elem_of_dom; eexists; exact Ha').
    rewrite Hdom in Hin. rewrite elem_of_union, elem_of_union, !elem_of_singleton in Hin.
    destruct Hin as [Hin | [-> | ->]].
    + apply not_elem_of_dom in Ea. contradiction.
    + rewrite Hu in Ha'. injection Ha' as <-. reflexivity.
    + rewrite Hg, Ea in Ha'. injection Ha' as <-. discriminate Hp.
Qed.

End ListingUp.

(** X20.  On a directory server that answers, a listing of a directory
    whose account entries carry one value for each of [uid],
    [uidNumber], [cn] and [homeDirectory] shows every account entry
    under the users' subtree, with these four values. *)
Theorem list_users_shows_every_account env w dn a u n c h :
  directory_up env ->
  accounts_listable (directory w) ->
  directory w !! dn = Some a ->
  endswith dn (ldap_user_ou (cfg env) ++ "," ++ ldap_base_dn (cfg env)) = true ->
  is_posix_account a = true ->
  attr_of "uid" a = Some [u] -> attr_of "uidNumber" a = Some [n] ->
  attr_of "cn" a = Some [c] -> attr_of "homeDirectory" a = Some [h] ->
  exists users w',
    list_users env false w = (Ok users, w')
    /\ In {| ui_uid := u; ui_uidNumber := n; ui_cn := c; ui_homeDirectory := h;
             ui_kerberos := None; ui_home_dir := None; ui_quota := None |} users.
Proof.
  intros up Hall Hdn He Hp Hu Hn Hc Hh.
  destruct (list_users_up env up w Hall) as (users & w' & E & Hin).
  exists users, w'. split; [exact E|].
  exact (Hin dn a u n c h Hdn He Hp Hu Hn Hc Hh).
Qed.

Lemma list_users_shows_every_account_witness :
  exists users w',
    list_users (sample_env None quiet_tool (Ok [])) false alice_only = (Ok users, w')
    /\ In {| ui_uid := "alice"; ui_uidNumber := "1001"; ui_cn := "Alice Ivanova";
             ui_homeDirectory := "/home/alice";
             ui_kerberos := None; ui_home_dir := None; ui_quota := None |} users.
Proof.
  apply (list_users_shows_every_account (sample_env None quiet_tool (Ok [])) alice_only
           (user_dn_of (sample_env None quiet_tool (Ok [])) "alice")
           (user_attrs_of (sample_env None quiet_tool (Ok [])) 1001
              "alice" "Ivanova" "Alice")).
  - apply sample_directory_up.
  - intros dn a H _. unfold alice_only in H. simpl directory in H.
    apply lookup_singleton_Some in H. destruct H as [_ <-]. reflexivity.
  - apply lookup_singleton_eq.
  - reflexivity.
  - reflexivity.
  - reflexivity.
  - reflexivity.
  - reflexivity.
  - reflexivity.
Defined.



(** ** The manifest as a whole *)


(** ** Password prompts *)

Section Prompts.

Variable env : Env.

Section Configured.

Hypothesis ldap_configured : ldap_bind_password (cfg env) <> "".
Hypothesis kadmin_configured : krb_kadmin_password (cfg env) <> "".

Lemma get_ldap_connection_no_prompt : calls_only no_prompt (_get_ldap_connection env).
Proof.
  unfold _get_ldap_connection, ldap_call.
  destruct (String.eqb_spec (ldap_bind_password (cfg env)) "") as [E|_];
    [contradiction|].
  repeat calls_step.
Qed.

Lemma get_kadmin_password_no_prompt : calls_only no_prompt (_get_kadmin_password env).
Proof.
  unfold _get_kadmin_password.
  destruct (String.eqb_spec (krb_kadmin_password (cfg env)) "") as [E|_];
    [contradiction|].
  apply calls_only_ret.
Qed.

Ltac quiet_step :=
  first
    [ apply get_ldap_connection_no_prompt
    | apply get_kadmin_password_no_prompt
    | calls_step ].

Lemma add_user_to_ldap_no_prompt uid username surname firstname groups :
  calls_only no_prompt (add_user_to_ldap env uid username surname firstname groups).
Proof.
  unfold add_user_to_ldap, conn_search, conn_add, conn_modify_add, ldap_call.
  repeat quiet_step.
Qed.

Lemma add_user_to_kerberos_no_prompt username password :
  calls_only no_prompt (add_user_to_kerberos env username password).
Proof. unfold add_user_to_kerberos, run. repeat quiet_step. Qed.

Lemma create_home_directory_no_prompt username :
  calls_only no_prompt (create_home_directory env username).
Proof. unfold create_home_directory, os_call. repeat quiet_step. Qed.

Lemma set_user_quota_no_prompt username :
  calls_only no_prompt (set_user_quota env username).
Proof.
  unfold set_user_quota, quota_filesystem, get_filesystem_type, run. repeat quiet_step.
Qed.

Lemma add_user_no_prompt uid groups username surname firstname password steps :
  calls_only no_prompt (add_user env uid groups username surname firstname password steps).
Proof.
  unfold add_user, add_user_results, run_step.
  repeat first
    [ apply add_user_to_ldap_no_prompt | apply add_user_to_kerberos_no_prompt
    | apply create_home_directory_no_prompt | apply set_user_quota_no_prompt
    | calls_step ].
Qed.

Lemma process_line_no_prompt steps n line results :
  calls_only no_prompt (process_line env steps n line results).
Proof.
  unfold process_line.
  repeat first [ apply add_user_no_prompt | calls_step ].
Qed.

Lemma process_lines_no_prompt steps lines : forall n results w,
  exists added,
    history (snd (process_lines env steps n lines results w)) = (history w ++ added)%list
    /\ forallb no_prompt added = true.
Proof.
  induction lines as [|line lines IH]; intros n results w; simpl.
  - exists []. split; [symmetry; apply app_nil_r | reflexivity].
  - destruct (process_line_no_prompt steps n line results w) as (a1 & H1 & P1).
    destruct (process_line env steps n line results w) as [[r|e] w1]; simpl in H1.
    + destruct (IH (n + 1) r w1) as (a2 & H2 & P2).
      exists (a1 ++ a2)%list. rewrite H2, H1, app_assoc. split; [reflexivity|].
      rewrite forallb_app, P1, P2. reflexivity.
    + exists a1. split; [exact H1 | exact P1].
Qed.

Lemma process_user_file_no_prompt filename steps :
  calls_only no_prompt (process_user_file env filename steps).
Proof.
  intros w. unfold process_user_file, ask.
  destruct (open_lines env (history w) filename) as [lines|e].
  - match goal with
    | |- context [process_lines env steps 1 lines ∅ ?w0] =>
        destruct (process_lines_no_prompt steps lines 1 ∅ w0) as (added & H & P);
        destruct (process_lines env steps 1 lines ∅ w0) as [[results [e|]] w2]
    end; simpl in H |- *;
      (exists (COpen filename :: added); split; [|exact P]);
      rewrite H; simpl; rewrite <- app_assoc; reflexivity.
  - exists [COpen filename]. split; reflexivity.
Qed.

Lemma check_kerberos_principal_no_prompt username :
  calls_only no_prompt (check_kerberos_principal env username).
Proof. unfold check_kerberos_principal, check_getprinc, run. repeat quiet_step. Qed.

Lemma list_users_no_prompt detailed : calls_only no_prompt (list_users env detailed).
Proof.
  assert (Hinfo : forall q entry, calls_only no_prompt (user_info_of env detailed q entry)).
  { intros q entry. unfold user_info_of, attr_value, check_home_directory.
    repeat first [ apply check_kerberos_principal_no_prompt | calls_step ]. }
  assert (Hcollect : forall q entries users,
             calls_only no_prompt (collect_users env detailed q entries users)).
  { intros q entries. induction entries as [|entry entries IH]; intros users; simpl.
    - apply calls_only_ret.
    - apply calls_only_bind; [apply Hinfo | intros info; apply IH]. }
  unfold list_users, get_all_quotas, quota_filesystem, get_filesystem_type, run, ldap_call.
  repeat first [ apply Hcollect | quiet_step ].
Qed.

End Configured.

End Prompts.

(** X23.  With both passwords set in the configuration nothing asks for
    a password: neither provisioning one user, nor processing a
    manifest, nor a listing, however the calls they make turn out. *)
Theorem configured_passwords_never_prompt env :
  ldap_bind_password (cfg env) <> "" ->
  krb_kadmin_password (cfg env) <> "" ->
  (forall uid groups username surname firstname password steps,
     calls_only no_prompt
       (add_user env uid groups username surname firstname password steps))
  /\ (forall filename steps, calls_only no_prompt (process_user_file env filename steps))
  /\ (forall detailed, calls_only no_prompt (list_users env detailed)).
Proof.
  intros Hl Hk. split; [|split].
  - intros. apply add_user_no_prompt; assumption.
  - intros. apply process_user_file_no_prompt; assumption.
  - intros. apply list_users_no_prompt; assumption.
Qed.

Lemma configured_passwords_never_prompt_witness :
  (forall uid groups username surname firstname password steps,
     calls_only no_prompt
       (add_user (sample_env None quiet_tool (Ok [])) uid groups username surname
          firstname password steps))
  /\ (forall filename steps,
        calls_only no_prompt
          (process_user_file (sample_env None quiet_tool (Ok [])) filename steps))
  /\ (forall detailed,
        calls_only no_prompt (list_users (sample_env None quiet_tool (Ok [])) detailed)).
Proof.
  apply configured_passwords_never_prompt; discriminate.
Defined.

Section PromptFirst.

Variable c : Call.
Variable P : Call -> bool.

Lemma calls_first_ask {A B} (f : list Call -> result A) (k : A -> M B) :
  (forall a, calls_only P (k a)) -> calls_first c P (bind (ask c f) k).
Proof.
  intros Hk w. unfold bind, ask. destruct (f (history w)) as [a|e].
  - destruct (Hk a (called c w)) as (rest & H & Hp). exists rest.
    unfold called in H. simpl in H |- *. rewrite H, <- app_assoc.
    split; [reflexivity | exact Hp].
  - exists []. split; reflexivity.
Qed.

Lemma calls_first_bind {A B} (m : M A) (k : A -> M B) :
  calls_first c P m -> (forall a, calls_only P (k a)) -> calls_first c P (bind m k).
Proof.
  intros Hm Hk w. unfold bind. destruct (Hm w) as (r1 & H1 & P1).
  destruct (m w) as [[a|e] w1]; simpl in H1.
  - destruct (Hk a w1) as (r2 & H2 & P2). exists (r1 ++ r2)%list.
    rewrite H2, H1, <- app_assoc. split; [reflexivity|].
    rewrite forallb_app, P1, P2. reflexivity.
  - exists r1. split; [exact H1 | exact P1].
Qed.

Lemma calls_first_try_except {A} (m : M A) (h : exn -> M A) :
  calls_first c P m -> (forall e, calls_only P (h e)) -> calls_first c P (try_except m h).
Proof.
  intros Hm Hh w. unfold try_except. destruct (Hm w) as (r1 & H1 & P1).
  destruct (m w) as [[a|e] w1]; simpl in H1.
  - exists r1. split; [exact H1 | exact P1].
  - destruct (Hh e w1) as (r2 & H2 & P2). exists (r1 ++ r2)%list.
    rewrite H2, H1, <- app_assoc. split; [reflexivity|].
    rewrite forallb_app, P1, P2. reflexivity.
Qed.

Lemma calls_first_enter {A} e (m : M A) :
  calls_first c P m -> calls_first c P (bind (enter e) (fun _ => m)).
Proof. intros Hm w. unfold bind, enter. exact (Hm _). Qed.

End PromptFirst.

Lemma add_user_to_ldap_prompts_first env uid username surname firstname groups :
  ldap_bind_password (cfg env) = "" ->
  calls_first (CGetpass "Введите пароль для LDAP: ") no_prompt
    (add_user_to_ldap env uid username surname firstname groups).
Proof.
  intros Hempty. unfold add_user_to_ldap.
  apply calls_first_enter, calls_first_try_except; [| intros e; repeat calls_step ].
  apply calls_first_bind.
  - unfold _get_ldap_connection. rewrite Hempty. change (String.eqb "" "") with true.
    cbv iota. unfold prompt. apply calls_first_ask.
    intros typed. unfold ldap_call. repeat calls_step.
  - intros _. unfold conn_search, conn_add, conn_modify_add, ldap_call.
    repeat calls_step.
Qed.

(** X24.  With no bind password in the configuration, every run of the
    directory step begins by asking for it, and asks once: the prompt
    is the first call the step makes, and no later call is a prompt. *)
Theorem add_user_to_ldap_asks_password_once
    env uid username surname firstname groups w :
  ldap_bind_password (cfg env) = "" ->
  exists rest,
    history (snd (add_user_to_ldap env uid username surname firstname groups w))
    = (history w ++ CGetpass "Введите пароль для LDAP: " :: rest)%list
    /\ forallb no_prompt rest = true.
Proof.
  intros Hempty.
  exact (add_user_to_ldap_prompts_first env uid username surname firstname groups
           Hempty w).
Qed.

Lemma add_user_to_ldap_asks_password_once_witness :
  exists rest,
    history (snd (add_user_to_ldap default_env 1001 "alice" "Ivanova" "Alice" ["students"]
                    initial_world))
    = (history initial_world ++ CGetpass "Введите пароль для LDAP: " :: rest)%list
    /\ forallb no_prompt rest = true.
Proof.
  apply add_user_to_ldap_asks_password_once. reflexivity.
Defined.
